(** * Meshtastic example scripts: event dispatch and stateful alerting

    A shallow embedding of the packet handlers of

      - [examples/battery_monitor.py]
      - [examples/temperature_alert.py]
      - [examples/auto_responder.py]
      - [examples/position_tracker.py]
      - [examples/scheduled_broadcaster.py]

    together with the properties the specification states about them.

    Conventions of the embedding.

    - A Python [str] is a Rocq [string] holding the UTF-8 encoding of the
      text; [bytes] is [list byte].
    - A Python [float] is an exact rational ([Q]); an [int] is a [Z].  The
      source rounds each float operation in binary64, so a value it
      computes (a converted temperature, a converted threshold) can differ
      in the last place from the exact one here; the statements about
      temperatures below use the order tests on these values and no
      identity of arithmetic.
    - [time.time()] is an argument of each handler (the clock reading taken
      by that call), as is the string produced by
      [datetime.now().strftime(...)].
    - A packet is a record of optional fields: a key that is absent from the
      Python dict is [None].
    - Module-level globals ([last_alert_time], [node_batteries], ...) form
      the state threaded through a small state/exception/trace monad.
    - [interface.sendText] may raise; appending to a log file is taken to
      succeed; [print] output is not modelled. *)

From Stdlib Require Import ZArith QArith Qabs Lqa Lia String Ascii List.
From Stdlib.Strings Require Import Byte.
From stdpp Require Import gmap strings list fin_maps pretty.

Open Scope string_scope.
Open Scope Z_scope.

(** ** The fragment of Python the handlers rely on *)

Module Py.

(** A number as found in a decoded packet: [int] or [float]. *)
Inductive num : Type :=
| NInt (z : Z)
| NFloat (q : Q).

(** [isinstance(v, int)] *)
Definition isinstance_int (v : num) : bool :=
  match v with NInt _ => true | NFloat _ => false end.

(** Truth value of a number: zero is falsy. *)
Definition truthy (v : num) : bool :=
  match v with
  | NInt z => negb (z =? 0)
  | NFloat q => negb (Qeq_bool q 0)
  end.

(** [a or b] on values that may be [None]: [a] when it is truthy,
    otherwise [b], whatever [b] is. *)
Definition or_ (a b : option num) : option num :=
  match a with
  | Some v => if truthy v then Some v else b
  | None => b
  end.

(** The value of a number as a rational. *)
Definition to_Q (v : num) : Q :=
  match v with NInt z => inject_Z z | NFloat q => q end.

(** Truth value of a [str]: the empty string is falsy. *)
Definition str_truthy (s : string) : bool :=
  match s with EmptyString => false | String _ _ => true end.

(** [needle in hay] on [str]: [needle] occurs as a contiguous run. *)
Fixpoint contains (needle hay : string) : bool :=
  String.prefix needle hay ||
  match hay with
  | EmptyString => false
  | String _ hay' => contains needle hay'
  end.

(** [str(n)] / [f"{n}"] for an [int]. *)
Definition str_of_int (n : Z) : string := pretty n.

(** [abs(v) > bound] *)
Definition abs_gt (v : num) (bound : Q) : bool :=
  negb (Qle_bool (Qabs (to_Q v)) bound).

(** [v / d] with a float divisor: true division, a float. *)
Definition truediv (v : num) (d : Q) : num := NFloat (to_Q v / d).

(** *** [bytes.decode('utf-8', errors='replace')]

    The decoder of CPython: a well-formed sequence is kept; an ill-formed
    one is replaced by U+FFFD, and decoding resumes at the first byte that
    could not continue the sequence; a sequence cut short by the end of
    the input is replaced by a single U+FFFD.  The result is given in
    UTF-8. *)

Definition is_continuation (c : N) : bool :=
  ((128 <=? c) && (c <=? 191))%N.

(** U+FFFD in UTF-8. *)
Definition replacement : list byte := [xef; xbf; xbd].

Fixpoint decode_replace (bs : list byte) : list byte :=
  match bs with
  | [] => []
  | b1 :: r1 =>
    let c1 := Byte.to_N b1 in
    if (c1 <? 128)%N then b1 :: decode_replace r1
    else if (c1 <? 194)%N then replacement ++ decode_replace r1
    else if (c1 <? 224)%N then
      match r1 with
      | [] => replacement
      | b2 :: r2 =>
        if is_continuation (Byte.to_N b2)
        then b1 :: b2 :: decode_replace r2
        else replacement ++ decode_replace r1
      end
    else if (c1 <? 240)%N then
      match r1 with
      | [] => replacement
      | b2 :: r2 =>
        let c2 := Byte.to_N b2 in
        if negb (is_continuation c2)
           || (if (c2 <? 160)%N then (c1 =? 224)%N else (c1 =? 237)%N)
        then replacement ++ decode_replace r1
        else
          match r2 with
          | [] => replacement
          | b3 :: r3 =>
            if is_continuation (Byte.to_N b3)
            then b1 :: b2 :: b3 :: decode_replace r3
            else replacement ++ decode_replace r2
          end
      end
    else if (c1 <? 245)%N then
      match r1 with
      | [] => replacement
      | b2 :: r2 =>
        let c2 := Byte.to_N b2 in
        if negb (is_continuation c2)
           || (if (c2 <? 144)%N then (c1 =? 240)%N else (c1 =? 244)%N)
        then replacement ++ decode_replace r1
        else
          match r2 with
          | [] => replacement
          | b3 :: r3 =>
            if negb (is_continuation (Byte.to_N b3))
            then replacement ++ decode_replace r2
            else
              match r3 with
              | [] => replacement
              | b4 :: r4 =>
                if is_continuation (Byte.to_N b4)
                then b1 :: b2 :: b3 :: b4 :: decode_replace r4
                else replacement ++ decode_replace r3
              end
          end
      end
    else replacement ++ decode_replace r1
  end%list.

Definition decode (bs : list byte) : string :=
  string_of_list_byte (decode_replace bs).

(** *** [str.lower()] and [str.strip()] restricted to ASCII

    The handlers are stated over any [lower] and [strip]; these two are
    the ASCII behaviour of the built-ins, used to run examples. *)

Definition ascii_lower_char (c : ascii) : ascii :=
  let n := N_of_ascii c in
  if ((65 <=? n) && (n <=? 90))%N then ascii_of_N (n + 32) else c.

Fixpoint ascii_lower (s : string) : string :=
  match s with
  | EmptyString => EmptyString
  | String c s' => String (ascii_lower_char c) (ascii_lower s')
  end.

(** Space, and the controls TAB, LF, VT, FF, CR, FS, GS, RS, US. *)
Definition ascii_space (c : ascii) : bool :=
  let n := N_of_ascii c in
  ((n =? 32) || ((9 <=? n) && (n <=? 13)) || ((28 <=? n) && (n <=? 31)))%N.

Fixpoint lstrip (s : string) : string :=
  match s with
  | EmptyString => EmptyString
  | String c s' => if ascii_space c then lstrip s' else s
  end.

Fixpoint rstrip (s : string) : string :=
  match s with
  | EmptyString => EmptyString
  | String c s' =>
      match rstrip s' with
      | EmptyString => if ascii_space c then EmptyString else String c EmptyString
      | t => String c t
      end
  end.

Definition ascii_strip (s : string) : string := rstrip (lstrip s).

(** *** [f"{x:.Nf}"] on exact values

    The decimal expansion of [x] with [digits] places, the last one
    rounded to nearest, ties to even; the sign of a negative [x] is kept.
    Used to run examples. *)

Definition round_half_even (q : Q) : Z :=
  let n := Qnum q in
  let d := Z.pos (Qden q) in
  let fl := n / d in
  let twice_rest := 2 * (n mod d) in
  if twice_rest <? d then fl
  else if d <? twice_rest then fl + 1
  else if Z.even fl then fl else fl + 1.

Fixpoint pad_zeros (width : nat) (s : string) : string :=
  match width with
  | O => s
  | S w => if (String.length s <? width)%nat then pad_zeros w ("0" ++ s) else s
  end.

Definition format_fixed (digits : nat) (x : Q) : string :=
  let scale := 10 ^ Z.of_nat digits in
  let scaled := round_half_even (Qabs x * inject_Z scale) in
  (if negb (Qle_bool 0 x) then "-" else "")
    ++ pretty (scaled / scale)
    ++ match digits with
       | O => ""
       | S _ => "." ++ pad_zeros digits (pretty (scaled mod scale))
       end.

End Py.

(** ** Decoded packets, as the meshtastic library hands them to a handler *)

Record DeviceMetrics := {
  batteryLevel : option Z;
  voltage : option Q
}.

Record EnvironmentMetrics := {
  temperature : option Q
}.

Record Telemetry := {
  deviceMetrics : option DeviceMetrics;
  environmentMetrics : option EnvironmentMetrics
}.

Record Position := {
  latitude : option Py.num;
  latitudeI : option Py.num;
  longitude : option Py.num;
  longitudeI : option Py.num;
  altitude : option Py.num;
  groundSpeed : option Py.num;
  groundTrack : option Py.num
}.

Record Decoded := {
  portnum : option string;
  payload : option (list byte);
  telemetry : option Telemetry;
  position : option Position
}.

Record Packet := {
  decoded : option Decoded;
  fromId : option string
}.

(** [d.get('portnum') == tag] *)
Definition portnum_is (d : Decoded) (tag : string) : bool :=
  match portnum d with
  | Some p => String.eqb p tag
  | None => false
  end.

(** [packet.get('fromId', 'unknown')] *)
Definition sender_of (packet : Packet) : string :=
  default "unknown" (fromId packet).

(** [x.get(key, {})] followed by a further lookup: an absent dict behaves
    as the empty one. *)
Definition empty_DeviceMetrics : DeviceMetrics :=
  {| batteryLevel := None; voltage := None |}.
Definition empty_EnvironmentMetrics : EnvironmentMetrics :=
  {| temperature := None |}.
Definition empty_Telemetry : Telemetry :=
  {| deviceMetrics := None; environmentMetrics := None |}.
Definition empty_Position : Position :=
  {| latitude := None; latitudeI := None; longitude := None;
     longitudeI := None; altitude := None; groundSpeed := None;
     groundTrack := None |}.

(** ** Outbound actions *)

(** One call of [interface.sendText(text, destinationId=..., channelIndex=...)];
    an argument that the call leaves out is [None]. *)
Record SendMeshMessage := {
  text : string;
  destinationId : option string;
  channelIndex : option Z
}.

(** One line appended to a CSV log. *)
Inductive RecordEvent : Type :=
| BatteryRecord (timestamp node_id node_name : string)
                (battery_percent : Z) (volts : option Q)
| PositionRecord (timestamp node_id node_name : string)
                 (lat lon : Py.num) (alt speed heading : option Py.num).

Inductive Effect : Type :=
| Sent (m : SendMeshMessage)
| Logged (file : string) (r : RecordEvent).

(** The mesh messages among a list of effects, in order. *)
Definition sends (es : list Effect) : list SendMeshMessage :=
  omap (fun e => match e with Sent m => Some m | Logged _ _ => None end) es.

(** The records appended to log files among a list of effects, in order,
    each with the file it goes to. *)
Definition log_records (es : list Effect) : list (string * RecordEvent) :=
  omap (fun e => match e with Logged f r => Some (f, r) | Sent _ => None end) es.

(** ** Log files

    A file is the list of the lines written to it; the file system is the
    map of the files that exist. *)

Module Files.

Inductive Line : Type :=
| Header (columns : string)
| Row (r : RecordEvent).

(** [if not os.path.exists(file): open(file, 'w').write(columns)] *)
Definition ensure_header (file columns : string)
    (fs : gmap string (list Line)) : gmap string (list Line) :=
  match fs !! file with
  | Some _ => fs
  | None => <[file := [Header columns]]> fs
  end.

(** [open(file, 'a').write(row)]: the file is created when it is not
    there. *)
Definition append_row (file : string) (r : RecordEvent)
    (fs : gmap string (list Line)) : gmap string (list Line) :=
  <[file := (default [] (fs !! file) ++ [Row r])%list]> fs.

(** What an effect does to the files. *)
Definition perform (fs : gmap string (list Line)) (e : Effect)
    : gmap string (list Line) :=
  match e with
  | Logged file r => append_row file r fs
  | Sent _ => fs
  end.

Definition perform_all (fs : gmap string (list Line)) (es : list Effect)
    : gmap string (list Line) :=
  fold_left perform es fs.

End Files.

(** ** The device interface *)

Record User := { longName : option string }.
Record NodeInfo := { user : option User }.
Record LocalNode := { localConfig : bool }.

Record Interface := {
  (** [interface.localNode], with the truth value of its [localConfig]. *)
  localNode : option LocalNode;
  (** [interface.nodes]: [None] or a directory of known nodes. *)
  nodes : option (gmap string NodeInfo);
  (** Whether [interface.sendText] returns normally for a message
      ([true]) or raises ([false]). *)
  sendText_ok : SendMeshMessage -> bool
}.

(** [get_node_name(interface, node_id)]; the same function appears in
    battery_monitor.py, position_tracker.py and message_logger.py.  An empty
    directory is falsy in the source and has no entry here: both give
    [node_id]. *)
Definition get_node_name (iface : Interface) (node_id : string) : string :=
  match nodes iface with
  | Some dir =>
      match dir !! node_id with
      | Some node =>
          match user node with
          | Some u => default node_id (longName u)
          | None => node_id
          end
      | None => node_id
      end
  | None => node_id
  end.

(** ** A monad for handlers: global state, exceptions, and the trace of
    effects performed so far *)

Inductive Outcome (A : Type) : Type :=
| Returned (a : A)
| Raised.
Arguments Returned {A} a.
Arguments Raised {A}.

Record Run (S A : Type) := MkRun {
  outcome : Outcome A;
  final : S;
  effects : list Effect
}.
Arguments MkRun {S A}.
Arguments outcome {S A}.
Arguments final {S A}.
Arguments effects {S A}.

Definition M (S A : Type) : Type := S -> Run S A.

Definition ret {S A} (a : A) : M S A :=
  fun s => MkRun (Returned a) s [].

Definition bind {S A B} (m : M S A) (k : A -> M S B) : M S B :=
  fun s =>
    let r := m s in
    match outcome r with
    | Returned a =>
        let r' := k a (final r) in
        MkRun (outcome r') (final r') (effects r ++ effects r')%list
    | Raised => MkRun Raised (final r) (effects r)
    end.

Definition get {S} : M S S := fun s => MkRun (Returned s) s [].
Definition put {S} (s' : S) : M S unit := fun _ => MkRun (Returned tt) s' [].
Definition emit {S} (e : Effect) : M S unit := fun s => MkRun (Returned tt) s [e].

(** [interface.sendText(...)]: the call is made, and either returns or
    raises. *)
Definition sendText {S} (iface : Interface) (m : SendMeshMessage) : M S unit :=
  fun s =>
    MkRun (if sendText_ok iface m then Returned tt else Raised) s [Sent m].

(** [try: body except Exception: pass]: the effects and state changes made
    before the exception stay. *)
Definition try_ {S} (body : M S unit) : M S unit :=
  fun s => let r := body s in MkRun (Returned tt) (final r) (effects r).

Declare Scope handler_scope.
Delimit Scope handler_scope with handler.
Notation "x <- c1 ;; c2" := (bind c1 (fun x => c2))
  (at level 100, c1 at next level, right associativity) : handler_scope.
Notation "c1 ;; c2" := (bind c1 (fun _ => c2))
  (at level 100, right associativity) : handler_scope.
Notation "'pass'" := (ret tt) : handler_scope.
Open Scope handler_scope.

(** Unfolds the monad in a goal. *)
Ltac run :=
  unfold bind, ret, get, put, emit, sendText, try_; cbn [outcome final effects].

(** [a >= b] on floats. *)
Definition Qge_bool (a b : Q) : bool := Qle_bool b a.
(** [a < b] on floats. *)
Definition Qlt_bool (a b : Q) : bool := negb (Qle_bool b a).

(** ** battery_monitor.py *)

Module BatteryMonitor.

Record Config := {
  LOW_BATTERY_THRESHOLD : Z;
  LOG_FILE : string;
  ALERT_COOLDOWN : Q
}.

(** The configuration block as shipped. *)
Definition shipped : Config :=
  {| LOW_BATTERY_THRESHOLD := 20;
     LOG_FILE := "battery_log.csv";
     ALERT_COOLDOWN := 3600 |}.

(** The module-level globals. *)
Record State := {
  last_alert_time : gmap string Q;
  node_batteries : gmap string Z
}.

Definition initial : State :=
  {| last_alert_time := ∅; node_batteries := ∅ |}.

Definition set_node_battery (k : string) (v : Z) (st : State) : State :=
  {| last_alert_time := last_alert_time st;
     node_batteries := <[k := v]> (node_batteries st) |}.

Definition set_last_alert (k : string) (t : Q) (st : State) : State :=
  {| last_alert_time := <[k := t]> (last_alert_time st);
     node_batteries := node_batteries st |}.

(** [last_alert_time.get(sender_id, 0)] *)
Definition last_alert_at (st : State) (sender_id : string) : Q :=
  default 0%Q (last_alert_time st !! sender_id).

(** [voltage or ''] : a missing or zero voltage is logged as empty. *)
Definition voltage_or_empty (v : option Q) : option Q :=
  match v with
  | Some q => if Qeq_bool q 0 then None else Some q
  | None => None
  end.

Section Handler.
Variable cfg : Config.

Definition alert_msg (sender_name : string) (battery_level : Z) : string :=
  "LOW BATTERY: " ++ sender_name ++ " at " ++ Py.str_of_int battery_level ++ "%".

(** [on_receive(packet, interface)], called with the clock reading
    [current_time] of [time.time()] and the formatted
    [datetime.now()] as [timestamp]. *)
Definition on_receive (iface : Interface) (current_time : Q)
    (timestamp : string) (packet : Packet) : M State unit :=
  match decoded packet with
  | None => pass
  | Some d =>
    if portnum_is d "TELEMETRY_APP" then
      let telemetry := default empty_Telemetry (telemetry d) in
      let device_metrics :=
        default empty_DeviceMetrics (deviceMetrics telemetry) in
      match batteryLevel device_metrics with
      | None => pass
      | Some battery_level =>
        let voltage := voltage device_metrics in
        let sender_id := sender_of packet in
        let sender_name := get_node_name iface sender_id in
        emit (Logged (LOG_FILE cfg)
                (BatteryRecord timestamp sender_id sender_name
                   battery_level (voltage_or_empty voltage))) ;;
        st <- get ;;
        put (set_node_battery sender_id battery_level st) ;;
        if battery_level <=? LOW_BATTERY_THRESHOLD cfg then
          st <- get ;;
          let last_time := last_alert_at st sender_id in
          if Qge_bool (current_time - last_time) (ALERT_COOLDOWN cfg) then
            sendText iface
              {| text := alert_msg sender_name battery_level;
                 destinationId := None;
                 channelIndex := None |} ;;
            st <- get ;;
            put (set_last_alert sender_id current_time st)
          else pass
        else pass
      end
    else pass
  end.

(** The battery level the handler reads from a packet, if it gets to
    read one. *)
Definition reading (packet : Packet) : option Z :=
  match decoded packet with
  | None => None
  | Some d =>
    if portnum_is d "TELEMETRY_APP" then
      batteryLevel
        (default empty_DeviceMetrics
           (deviceMetrics (default empty_Telemetry (telemetry d))))
    else None
  end.

(** The device metrics the handler looks at. *)
Definition metrics (packet : Packet) : DeviceMetrics :=
  match decoded packet with
  | None => empty_DeviceMetrics
  | Some d =>
      default empty_DeviceMetrics
        (deviceMetrics (default empty_Telemetry (telemetry d)))
  end.

(** The CSV line written for a packet with battery level [v]. *)
Definition log_line (iface : Interface) (timestamp : string)
    (packet : Packet) (v : Z) : Effect :=
  Logged (LOG_FILE cfg)
    (BatteryRecord timestamp (sender_of packet)
       (get_node_name iface (sender_of packet)) v
       (voltage_or_empty (voltage (metrics packet)))).

(** The alert sent for a packet with battery level [v]. *)
Definition alert (iface : Interface) (packet : Packet) (v : Z)
    : SendMeshMessage :=
  {| text := alert_msg (get_node_name iface (sender_of packet)) v;
     destinationId := None;
     channelIndex := None |}.

(** One delivery of a packet to the handler. *)
Record Delivery := {
  at_time : Q;
  stamp : string;
  packet : Packet
}.

(** Successive calls of the handler by the library: each call starts
    from the globals the previous one left, whether that one returned
    or raised. *)
Fixpoint deliver (iface : Interface) (ds : list Delivery) (st : State)
    : list (Run State unit) :=
  match ds with
  | [] => []
  | d :: rest =>
    let r := on_receive iface (at_time d) (stamp d) (packet d) st in
    r :: deliver iface rest (final r)
  end.

End Handler.

(** [ensure_log_header()] *)
Definition ensure_log_header (cfg : Config)
    (fs : gmap string (list Files.Line)) : gmap string (list Files.Line) :=
  Files.ensure_header (LOG_FILE cfg)
    "timestamp,node_id,node_name,battery_percent,voltage" fs.

(** The effects of a run of deliveries, in order. *)
Definition all_effects (rs : list (Run State unit)) : list Effect :=
  concat (map effects rs).

End BatteryMonitor.

(** ** temperature_alert.py *)

Module TemperatureAlert.

Record Config := {
  LOW_TEMP_THRESHOLD : Q;
  HIGH_TEMP_THRESHOLD : Q;
  ALERT_COOLDOWN : Q;
  USE_CELSIUS : bool
}.

Definition shipped : Config :=
  {| LOW_TEMP_THRESHOLD := 40;
     HIGH_TEMP_THRESHOLD := 90;
     ALERT_COOLDOWN := 1800;
     USE_CELSIUS := false |}.

(** The module-level global: one number, shared by all senders. *)
Record State := { last_alert_time : Q }.

Definition initial : State := {| last_alert_time := 0 |}.

Definition celsius_to_fahrenheit (celsius : Q) : Q :=
  (celsius * 9 / 5 + 32)%Q.

Section Handler.
(** [f"{x:.1f}"] is [format_float 1 x], [f"{x:.0f}"] is
    [format_float 0 x]. *)
Variable format_float : nat -> Q -> string.
Variable cfg : Config.

Definition low_alert (temp low_threshold : Q) (unit : string) : string :=
  "LOW TEMP ALERT: " ++ format_float 1 temp ++ "°" ++ unit
    ++ " (below " ++ format_float 0 low_threshold ++ "°" ++ unit ++ ")".

Definition high_alert (temp high_threshold : Q) (unit : string) : string :=
  "HIGH TEMP ALERT: " ++ format_float 1 temp ++ "°" ++ unit
    ++ " (above " ++ format_float 0 high_threshold ++ "°" ++ unit ++ ")".

Definition on_receive (iface : Interface) (current_time : Q)
    (packet : Packet) : M State unit :=
  match decoded packet with
  | None => pass
  | Some d =>
    if portnum_is d "TELEMETRY_APP" then
      let telemetry := default empty_Telemetry (telemetry d) in
      let env_metrics :=
        default empty_EnvironmentMetrics (environmentMetrics telemetry) in
      match temperature env_metrics with
      | None => pass
      | Some temp_celsius =>
        let temp :=
          if USE_CELSIUS cfg then temp_celsius
          else celsius_to_fahrenheit temp_celsius in
        let unit := if USE_CELSIUS cfg then "C" else "F" in
        st <- get ;;
        let time_since_alert := (current_time - last_alert_time st)%Q in
        if Qge_bool time_since_alert (ALERT_COOLDOWN cfg) then
          let low_threshold :=
            if negb (USE_CELSIUS cfg) then LOW_TEMP_THRESHOLD cfg
            else ((LOW_TEMP_THRESHOLD cfg - 32) * 5 / 9)%Q in
          let high_threshold :=
            if negb (USE_CELSIUS cfg) then HIGH_TEMP_THRESHOLD cfg
            else ((HIGH_TEMP_THRESHOLD cfg - 32) * 5 / 9)%Q in
          let alert_message :=
            if Qlt_bool temp low_threshold
            then Some (low_alert temp low_threshold unit)
            else if Qlt_bool high_threshold temp
            then Some (high_alert temp high_threshold unit)
            else None in
          match alert_message with
          | Some message =>
            if Py.str_truthy message then
              sendText iface
                {| text := message;
                   destinationId := None;
                   channelIndex := None |} ;;
              put {| last_alert_time := current_time |}
            else pass
          | None => pass
          end
        else pass
      end
    else pass
  end.

(** The temperature (in Celsius) the handler reads from a packet, if it
    gets to read one. *)
Definition reading (packet : Packet) : option Q :=
  match decoded packet with
  | None => None
  | Some d =>
    if portnum_is d "TELEMETRY_APP" then
      temperature
        (default empty_EnvironmentMetrics
           (environmentMetrics (default empty_Telemetry (telemetry d))))
    else None
  end.

(** The values of the handler's local variables [temp], [unit],
    [low_threshold] and [high_threshold]. *)
Definition temp_of (temp_celsius : Q) : Q :=
  if USE_CELSIUS cfg then temp_celsius
  else celsius_to_fahrenheit temp_celsius.
Definition unit_name : string := if USE_CELSIUS cfg then "C" else "F".
Definition low_threshold : Q :=
  if negb (USE_CELSIUS cfg) then LOW_TEMP_THRESHOLD cfg
  else ((LOW_TEMP_THRESHOLD cfg - 32) * 5 / 9)%Q.
Definition high_threshold : Q :=
  if negb (USE_CELSIUS cfg) then HIGH_TEMP_THRESHOLD cfg
  else ((HIGH_TEMP_THRESHOLD cfg - 32) * 5 / 9)%Q.

Definition broadcast (message : string) : SendMeshMessage :=
  {| text := message; destinationId := None; channelIndex := None |}.

Definition low_message (temp_celsius : Q) : SendMeshMessage :=
  broadcast (low_alert (temp_of temp_celsius) low_threshold unit_name).
Definition high_message (temp_celsius : Q) : SendMeshMessage :=
  broadcast (high_alert (temp_of temp_celsius) high_threshold unit_name).

(** The run of [interface.sendText(m)] followed by
    [last_alert_time = current_time]. *)
Definition alerting (iface : Interface) (current_time : Q)
    (m : SendMeshMessage) (st : State) : Run State unit :=
  if sendText_ok iface m
  then MkRun (Returned tt) {| last_alert_time := current_time |} [Sent m]
  else MkRun Raised st [Sent m].

(** One delivery of a packet to the handler. *)
Record Delivery := {
  at_time : Q;
  packet : Packet
}.

(** Successive calls of the handler by the library. *)
Fixpoint deliver (iface : Interface) (ds : list Delivery) (st : State)
    : list (Run State unit) :=
  match ds with
  | [] => []
  | d :: rest =>
    let r := on_receive iface (at_time d) (packet d) st in
    r :: deliver iface rest (final r)
  end.

End Handler.

End TemperatureAlert.

(** ** auto_responder.py *)

Module AutoResponder.

Record Config := {
  (** The dict literal, in the order its items are written. *)
  RESPONSES : list (string * string);
  INCLUDE_BATTERY_IN_STATUS : bool;
  RESPONSE_COOLDOWN : Q
}.

Definition shipped : Config :=
  {| RESPONSES :=
       [("status", "AUTO-REPLY: Node is online and operational.");
        ("help", "AUTO-REPLY: Available commands: status, help, info");
        ("info", "AUTO-REPLY: This is an automated Meshtastic node.");
        ("ping", "AUTO-REPLY: Pong!")];
     INCLUDE_BATTERY_IN_STATUS := true;
     RESPONSE_COOLDOWN := 60 |}.

Record State := { last_response_time : gmap string Q }.

Definition initial : State := {| last_response_time := ∅ |}.

Definition set_last_response (k : string) (t : Q) (st : State) : State :=
  {| last_response_time := <[k := t]> (last_response_time st) |}.

(** [last_response_time.get(sender_id, 0)] *)
Definition last_response_at (st : State) (sender_id : string) : Q :=
  default 0%Q (last_response_time st !! sender_id).

(** [get_battery_info(interface)]: every path returns [None]. *)
Definition get_battery_info (iface : Interface) : option Z :=
  match localNode iface with
  | Some node => if localConfig node then None else None
  | None => None
  end.

Section Handler.
(** [str.lower] and [str.strip] on UTF-8 text. *)
Variable lower : string -> string.
Variable strip : string -> string.
Variable cfg : Config.

(** The body of the [for keyword, response in RESPONSES.items()] loop,
    over the items that remain. *)
Fixpoint check_keywords (iface : Interface) (sender_id : string)
    (current_time : Q) (message_lower : string)
    (items : list (string * string)) : M State unit :=
  match items with
  | [] => pass
  | (keyword, response) :: rest =>
    if Py.contains (lower keyword) message_lower then
      let response :=
        if String.eqb (lower keyword) "status"
           && INCLUDE_BATTERY_IN_STATUS cfg
        then
          match get_battery_info iface with
          | Some battery =>
              if negb (battery =? 0)
              then response ++ " Battery: " ++ Py.str_of_int battery ++ "%"
              else response
          | None => response
          end
        else response in
      sendText iface
        {| text := response;
           destinationId := Some sender_id;
           channelIndex := None |} ;;
      st <- get ;;
      put (set_last_response sender_id current_time st)
      (* break *)
    else check_keywords iface sender_id current_time message_lower rest
  end.

Definition on_receive (iface : Interface) (current_time : Q)
    (packet : Packet) : M State unit :=
  match decoded packet with
  | None => pass
  | Some d =>
    if portnum_is d "TEXT_MESSAGE_APP" then
      let sender_id := sender_of packet in
      let message := Py.decode (default [] (payload d)) in
      let message_lower := strip (lower message) in
      st <- get ;;
      let last_time := last_response_at st sender_id in
      if Qlt_bool (current_time - last_time) (RESPONSE_COOLDOWN cfg) then
        pass (* return *)
      else
        check_keywords iface sender_id current_time message_lower
          (RESPONSES cfg)
    else pass
  end.

(** The text the handler matches keywords against, if the packet is a
    text message. *)
Definition message_lower_of (packet : Packet) : option string :=
  match decoded packet with
  | None => None
  | Some d =>
    if portnum_is d "TEXT_MESSAGE_APP"
    then Some (strip (lower (Py.decode (default [] (payload d)))))
    else None
  end.

(** [keyword.lower() in message_lower] *)
Definition matches (message_lower : string) (item : string * string)
    : bool :=
  Py.contains (lower (fst item)) message_lower.

(** The reply to [sender_id] with the text [response]. *)
Definition reply (sender_id response : string) : SendMeshMessage :=
  {| text := response;
     destinationId := Some sender_id;
     channelIndex := None |}.

(** The run of [interface.sendText(response, destinationId=sender_id)]
    followed by [last_response_time[sender_id] = current_time]. *)
Definition replying (iface : Interface) (sender_id : string)
    (current_time : Q) (response : string) (st : State)
    : Run State unit :=
  if sendText_ok iface (reply sender_id response)
  then MkRun (Returned tt) (set_last_response sender_id current_time st)
         [Sent (reply sender_id response)]
  else MkRun Raised st [Sent (reply sender_id response)].

End Handler.

End AutoResponder.

(** ** position_tracker.py *)

Module PositionTracker.

Definition CSV_FILE : string := "positions.csv".

(** [if isinstance(v, int) and abs(v) > 180: v = v / 1e7] *)
Definition from_integer_format (v : Py.num) : Py.num :=
  if Py.isinstance_int v && Py.abs_gt v 180
  then Py.truediv v 10000000
  else v.

Definition on_receive (iface : Interface) (timestamp : string)
    (packet : Packet) : M unit unit :=
  match decoded packet with
  | None => pass
  | Some d =>
    if portnum_is d "POSITION_APP" then
      let position := default empty_Position (position d) in
      let lat := Py.or_ (latitude position) (latitudeI position) in
      let lon := Py.or_ (longitude position) (longitudeI position) in
      match lat, lon with
      | Some lat, Some lon =>
        let lat := from_integer_format lat in
        let lon := from_integer_format lon in
        let altitude := altitude position in
        let speed := groundSpeed position in
        let heading := groundTrack position in
        let sender_id := sender_of packet in
        let sender_name := get_node_name iface sender_id in
        emit (Logged CSV_FILE
                (PositionRecord timestamp sender_id sender_name
                   lat lon altitude speed heading))
      | _, _ => pass (* return *)
      end
    else pass
  end.

(** The position dict the handler looks at, if the packet is a position
    packet. *)
Definition position_of (packet : Packet) : option Position :=
  match decoded packet with
  | None => None
  | Some d =>
    if portnum_is d "POSITION_APP"
    then Some (default empty_Position (position d))
    else None
  end.

(** The line written for the coordinates [lat], [lon] as extracted. *)
Definition log_line (iface : Interface) (timestamp : string)
    (packet : Packet) (pos : Position) (lat lon : Py.num) : Effect :=
  Logged CSV_FILE
    (PositionRecord timestamp (sender_of packet)
       (get_node_name iface (sender_of packet))
       (from_integer_format lat) (from_integer_format lon)
       (altitude pos) (groundSpeed pos) (groundTrack pos)).

(** The coordinates of a record. *)
Definition logged_coordinates (e : Effect) : option (Py.num * Py.num) :=
  match e with
  | Logged _ (PositionRecord _ _ _ lat lon _ _ _) => Some (lat, lon)
  | _ => None
  end.

(** [ensure_csv_header()] *)
Definition ensure_csv_header (fs : gmap string (list Files.Line))
    : gmap string (list Files.Line) :=
  Files.ensure_header CSV_FILE
    "timestamp,node_id,node_name,latitude,longitude,altitude,speed,heading" fs.

End PositionTracker.

(** ** scheduled_broadcaster.py *)

Module ScheduledBroadcaster.

Record Config := {
  INTERVAL_MINUTES : Q;
  (** [MESSAGE.format(time=t)] as a function of [t]. *)
  MESSAGE : string -> string;
  CHANNEL_INDEX : Z
}.

Definition shipped : Config :=
  {| INTERVAL_MINUTES := 60;
     MESSAGE := fun t => "Automated check-in at " ++ t;
     CHANNEL_INDEX := 0 |}.

(** What the environment supplies to one pass of the main loop: the
    [time.time()] read by the test, the [datetime.now()] that
    [send_scheduled_message] formats as HH:MM, and the [time.time()] read
    after the send has come back. The last two are read only when the pass
    sends. *)
Record Tick := {
  check_time : Q;
  wall_clock : string;
  resume_time : Q
}.

Section Main.
Variable cfg : Config.

Definition broadcast (current_time : string) : SendMeshMessage :=
  {| text := MESSAGE cfg current_time;
     destinationId := None;
     channelIndex := Some (CHANNEL_INDEX cfg) |}.

Definition send_scheduled_message (iface : Interface)
    (current_time : string) : M unit unit :=
  try_ (sendText iface (broadcast current_time)).

Definition interval_seconds : Q := (INTERVAL_MINUTES cfg * 60)%Q.

(** [while running: ...], for as many passes as are made before the
    process is told to stop; [last_send] is the local variable. *)
Fixpoint loop (iface : Interface) (last_send : Q) (ticks : list Tick)
    : M unit unit :=
  match ticks with
  | [] => pass
  | tk :: rest =>
    (* time.sleep(1) *)
    if Qge_bool (check_time tk - last_send) interval_seconds then
      send_scheduled_message iface (wall_clock tk) ;;
      loop iface (resume_time tk) rest
    else loop iface last_send rest
  end.

(** [main()], from the first send on. *)
Definition main (iface : Interface) (start : Tick) (ticks : list Tick)
    : M unit unit :=
  send_scheduled_message iface (wall_clock start) ;;
  loop iface (resume_time start) ticks.

(** The passes of the loop that send, given the value of [last_send]
    on entry. *)
Fixpoint fired (last_send : Q) (ticks : list Tick) : list Tick :=
  match ticks with
  | [] => []
  | tk :: rest =>
    if Qge_bool (check_time tk - last_send) interval_seconds
    then tk :: fired (resume_time tk) rest
    else fired last_send rest
  end.

(** Each pass in the list tests the clock at least one interval after
    the reading that followed the previous send. *)
Fixpoint spaced (last_send : Q) (passes : list Tick) : Prop :=
  match passes with
  | [] => True
  | tk :: rest =>
    (interval_seconds <= check_time tk - last_send)%Q
    /\ spaced (resume_time tk) rest
  end.

End Main.

(** The passes an idle machine makes under [time.sleep(1)]: [n] passes one
    second apart, the first at [t + 1], each send coming back at once;
    [clock] gives the wall clock shown at each second. *)
Fixpoint every_second (clock : Z -> string) (t : Z) (n : nat) : list Tick :=
  match n with
  | O => []
  | S n' =>
    {| check_time := inject_Z (t + 1);
       wall_clock := clock (t + 1);
       resume_time := inject_Z (t + 1) |}
    :: every_second clock (t + 1) n'
  end.

End ScheduledBroadcaster.

(** ** message_logger.py *)

Module MessageLogger.

Definition LOG_FILE : string := "meshtastic_messages.log".

(** [f"[{timestamp}] {sender_name}: {message}"] *)
Definition log_entry (timestamp sender_name message : string) : string :=
  "[" ++ timestamp ++ "] " ++ sender_name ++ ": " ++ message.

(** The line feed. *)
Definition newline : string := String (ascii_of_nat 10) EmptyString.

(** [on_receive(packet, interface)]: the handler keeps no state and sends
    nothing; its result here is what it writes, as pairs of a file and the
    text appended to it. *)
Definition on_receive (iface : Interface) (timestamp : string)
    (packet : Packet) : list (string * string) :=
  match decoded packet with
  | None => []
  | Some d =>
    if portnum_is d "TEXT_MESSAGE_APP" then
      let sender_id := sender_of packet in
      let sender_name := get_node_name iface sender_id in
      let message := Py.decode (default [] (payload d)) in
      let log_entry := log_entry timestamp sender_name message in
      [(LOG_FILE, log_entry ++ newline)]
    else []
  end.

End MessageLogger.

(** ** Sample interfaces and packets *)

Module Samples.

(** A device whose [sendText] returns. *)
Definition accepting : Interface :=
  {| localNode := None; nodes := None; sendText_ok := fun _ => true |}.

(** A device whose [sendText] raises. *)
Definition failing : Interface :=
  {| localNode := None; nodes := None; sendText_ok := fun _ => false |}.

Definition telemetry_packet (sender : string) (t : Telemetry) : Packet :=
  {| decoded :=
       Some {| portnum := Some "TELEMETRY_APP"; payload := None;
               telemetry := Some t; position := None |};
     fromId := Some sender |}.

Definition battery_packet (sender : string) (level : Z) : Packet :=
  telemetry_packet sender
    {| deviceMetrics := Some {| batteryLevel := Some level; voltage := None |};
       environmentMetrics := None |}.

Definition temperature_packet (sender : string) (celsius : Q) : Packet :=
  telemetry_packet sender
    {| deviceMetrics := None;
       environmentMetrics := Some {| temperature := Some celsius |} |}.

Definition text_packet (sender body : string) : Packet :=
  {| decoded :=
       Some {| portnum := Some "TEXT_MESSAGE_APP";
               payload := Some (list_byte_of_string body);
               telemetry := None; position := None |};
     fromId := Some sender |}.

Definition position_packet (sender : string) (pos : Position) : Packet :=
  {| decoded :=
       Some {| portnum := Some "POSITION_APP"; payload := None;
               telemetry := None; position := Some pos |};
     fromId := Some sender |}.

(** A position given by its fixed-point fields only. *)
Definition fixed_point (lat_i lon_i : Z) : Position :=
  {| latitude := None; latitudeI := Some (Py.NInt lat_i);
     longitude := None; longitudeI := Some (Py.NInt lon_i);
     altitude := None; groundSpeed := None; groundTrack := None |}.

(** A position given by its decimal-degree fields only. *)
Definition decimal_degrees (lat lon : Q) : Position :=
  {| latitude := Some (Py.NFloat lat); latitudeI := None;
     longitude := Some (Py.NFloat lon); longitudeI := None;
     altitude := None; groundSpeed := None; groundTrack := None |}.

(** A packet without a decoded section. *)
Definition undecoded (sender : string) : Packet :=
  {| decoded := None; fromId := Some sender |}.

End Samples.

(** * Properties *)

(** ** Comparisons on floats *)

Lemma Qge_bool_iff a b : Qge_bool a b = true <-> (b <= a)%Q.
Proof. unfold Qge_bool. apply Qle_bool_iff. Qed.

Lemma Qlt_bool_iff a b : Qlt_bool a b = true <-> (a < b)%Q.
Proof.
  unfold Qlt_bool. rewrite negb_true_iff, <- not_true_iff_false, Qle_bool_iff.
  split; [apply Qnot_le_lt | apply Qlt_not_le].
Qed.

Lemma Qge_bool_false a b : Qge_bool a b = false <-> (a < b)%Q.
Proof.
  unfold Qge_bool. rewrite <- not_true_iff_false, Qle_bool_iff.
  split; [apply Qnot_le_lt | apply Qlt_not_le].
Qed.

(** ** The Python fragment *)

Section PyFacts.

Lemma prefix_app (a b : string) : String.prefix a (a ++ b) = true.
Proof.
  induction a as [|c a IH]; simpl.
  - destruct b; reflexivity.
  - destruct (Ascii.ascii_dec c c) as [_|N]; [exact IH | contradiction].
Qed.

Lemma prefix_split (a h : string) :
  String.prefix a h = true -> exists post, h = a ++ post.
Proof.
  revert h. induction a as [|c a IH]; intros h.
  - intros _. exists h. reflexivity.
  - destruct h as [|c' h]; simpl; [discriminate|].
    destruct (Ascii.ascii_dec c c') as [<-|_]; [|discriminate].
    intros H. destruct (IH _ H) as [post ->]. exists post. reflexivity.
Qed.

(** [needle in hay] holds exactly when [hay] is some text, then [needle],
    then some text. *)
Lemma contains_spec (needle hay : string) :
  Py.contains needle hay = true
  <-> exists pre post, hay = pre ++ needle ++ post.
Proof.
  split.
  - induction hay as [|c hay IH]; cbn [Py.contains];
      intros H; apply orb_true_iff in H as [H|H].
    + destruct (prefix_split _ _ H) as [post ->]. exists "", post. reflexivity.
    + discriminate.
    + destruct (prefix_split _ _ H) as [post ->]. exists "", post. reflexivity.
    + destruct (IH H) as (pre & post & ->).
      exists (String c pre), post. reflexivity.
  - intros (pre & post & ->).
    induction pre as [|c pre IH].
    + change ("" ++ needle ++ post) with (needle ++ post).
      destruct (needle ++ post) eqn:E; cbn [Py.contains];
        rewrite <- E, prefix_app; reflexivity.
    + change (String c pre ++ needle ++ post)
        with (String c (pre ++ needle ++ post)).
      cbn [Py.contains]. rewrite IH. apply orb_true_r.
  Qed.

(** ASCII bytes decode to themselves. *)
Lemma decode_replace_ascii (bs : list byte) :
  Forall (fun b => (Byte.to_N b < 128)%N) bs ->
  Py.decode_replace bs = bs.
Proof.
  induction 1 as [|b bs Hb _ IH]; [reflexivity|].
  cbn [Py.decode_replace]. apply N.ltb_lt in Hb. rewrite Hb, IH.
  reflexivity.
Qed.

(** A byte that cannot start a sequence (a continuation byte, [C0], [C1],
    or [F5] and above) is replaced by U+FFFD and decoding goes on after
    it. *)
Lemma decode_replace_invalid_start (b : byte) (rest : list byte) :
  (128 <= Byte.to_N b < 194 \/ 245 <= Byte.to_N b)%N ->
  Py.decode_replace (b :: rest)
  = (Py.replacement ++ Py.decode_replace rest)%list.
Proof.
  intros H. cbn [Py.decode_replace].
  destruct (Byte.to_N b <? 128)%N eqn:E1; [apply N.ltb_lt in E1; lia|].
  destruct (Byte.to_N b <? 194)%N eqn:E2; [reflexivity|].
  apply N.ltb_ge in E2.
  destruct (Byte.to_N b <? 224)%N eqn:E3; [apply N.ltb_lt in E3; lia|].
  destruct (Byte.to_N b <? 240)%N eqn:E4; [apply N.ltb_lt in E4; lia|].
  destruct (Byte.to_N b <? 245)%N eqn:E5; [apply N.ltb_lt in E5; lia|].
  reflexivity.
Qed.

End PyFacts.

(** ** Decoding of text *)

Section DecodeFacts.
Import Py.

(** One step of the decoder. *)
Lemma decode_replace_cons b1 r1 :
  decode_replace (b1 :: r1) =
    (if (Byte.to_N b1 <? 128)%N then b1 :: decode_replace r1
    else if (Byte.to_N b1 <? 194)%N then replacement ++ decode_replace r1
    else if (Byte.to_N b1 <? 224)%N then
      match r1 with
      | [] => replacement
      | b2 :: r2 =>
        if is_continuation (Byte.to_N b2)
        then b1 :: b2 :: decode_replace r2
        else replacement ++ decode_replace r1
      end
    else if (Byte.to_N b1 <? 240)%N then
      match r1 with
      | [] => replacement
      | b2 :: r2 =>
        if negb (is_continuation (Byte.to_N b2))
           || (if (Byte.to_N b2 <? 160)%N then (Byte.to_N b1 =? 224)%N else (Byte.to_N b1 =? 237)%N)
        then replacement ++ decode_replace r1
        else
          match r2 with
          | [] => replacement
          | b3 :: r3 =>
            if is_continuation (Byte.to_N b3)
            then b1 :: b2 :: b3 :: decode_replace r3
            else replacement ++ decode_replace r2
          end
      end
    else if (Byte.to_N b1 <? 245)%N then
      match r1 with
      | [] => replacement
      | b2 :: r2 =>
        if negb (is_continuation (Byte.to_N b2))
           || (if (Byte.to_N b2 <? 144)%N then (Byte.to_N b1 =? 240)%N else (Byte.to_N b1 =? 244)%N)
        then replacement ++ decode_replace r1
        else
          match r2 with
          | [] => replacement
          | b3 :: r3 =>
            if negb (is_continuation (Byte.to_N b3))
            then replacement ++ decode_replace r2
            else
              match r3 with
              | [] => replacement
              | b4 :: r4 =>
                if is_continuation (Byte.to_N b4)
                then b1 :: b2 :: b3 :: b4 :: decode_replace r4
                else replacement ++ decode_replace r3
              end
          end
      end
    else replacement ++ decode_replace r1)%list.
Proof. reflexivity. Qed.

(** U+FFFD is itself well formed. *)
Lemma decode_replacement_app l :
  decode_replace (replacement ++ l) = (replacement ++ decode_replace l)%list.
Proof. reflexivity. Qed.

Lemma decode_replacement : decode_replace replacement = replacement.
Proof. reflexivity. Qed.

Lemma decode_replace_idem_aux n :
  forall bs, (length bs <= n)%nat ->
             decode_replace (decode_replace bs) = decode_replace bs.
Proof.
  induction n as [|n IH]; intros bs Hlen.
  - destruct bs; [reflexivity | cbn in Hlen; lia].
  - destruct bs as [|b1 r1]; [reflexivity|].
    simpl in Hlen.
    assert (H1 : decode_replace (decode_replace r1) = decode_replace r1)
      by (apply IH; lia).
    rewrite (decode_replace_cons b1 r1).
    destruct (Byte.to_N b1 <? 128)%N eqn:E1.
    { rewrite decode_replace_cons, E1, H1. reflexivity. }
    destruct (Byte.to_N b1 <? 194)%N eqn:E2.
    { rewrite decode_replacement_app, H1. reflexivity. }
    destruct (Byte.to_N b1 <? 224)%N eqn:E3.
    { destruct r1 as [|b2 r2]; [reflexivity|].
      destruct (is_continuation (Byte.to_N b2)) eqn:C2.
      - rewrite decode_replace_cons, E1, E2, E3, C2.
        rewrite IH by (simpl in *; lia). reflexivity.
      - rewrite decode_replacement_app, H1. reflexivity. }
    destruct (Byte.to_N b1 <? 240)%N eqn:E4.
    { destruct r1 as [|b2 r2]; [reflexivity|].
      destruct (negb (is_continuation (Byte.to_N b2)) || _) eqn:C2.
      { rewrite decode_replacement_app, H1. reflexivity. }
      destruct r2 as [|b3 r3]; [reflexivity|].
      destruct (is_continuation (Byte.to_N b3)) eqn:C3.
      - rewrite decode_replace_cons, E1, E2, E3, E4, C2, C3.
        rewrite IH by (simpl in *; lia). reflexivity.
      - rewrite decode_replacement_app.
        rewrite IH by (simpl in *; lia). reflexivity. }
    destruct (Byte.to_N b1 <? 245)%N eqn:E5.
    { destruct r1 as [|b2 r2]; [reflexivity|].
      destruct (negb (is_continuation (Byte.to_N b2)) || _) eqn:C2.
      { rewrite decode_replacement_app, H1. reflexivity. }
      destruct r2 as [|b3 r3]; [reflexivity|].
      destruct (negb (is_continuation (Byte.to_N b3))) eqn:C3.
      { rewrite decode_replacement_app.
        rewrite IH by (simpl in *; lia). reflexivity. }
      destruct r3 as [|b4 r4]; [reflexivity|].
      destruct (is_continuation (Byte.to_N b4)) eqn:C4.
      - rewrite decode_replace_cons, E1, E2, E3, E4, E5, C2, C3, C4.
        rewrite IH by (simpl in *; lia). reflexivity.
      - rewrite decode_replacement_app.
        rewrite IH by (simpl in *; lia). reflexivity. }
    rewrite decode_replacement_app, H1. reflexivity.
Qed.

(** The decoded text is well formed: decoding it once more changes
    nothing. *)
Lemma decode_replace_idempotent bs :
  decode_replace (decode_replace bs) = decode_replace bs.
Proof. apply (decode_replace_idem_aux (length bs)). lia. Qed.

Example decode_ascii :
  decode (list_byte_of_string "Status?") = "Status?".
Proof. reflexivity. Qed.

(** [b"\xffA\xe2\x82".decode('utf-8', errors='replace')]: a byte that
    starts nothing, a letter, and a sequence cut short by the end. *)
Example decode_ill_formed :
  decode_replace [xff; x41; xe2; x82]
  = (replacement ++ [x41] ++ replacement)%list.
Proof. reflexivity. Qed.

(** An overlong form and a surrogate are not accepted. *)
Example decode_overlong_and_surrogate :
  decode_replace [xc0; x80] = (replacement ++ replacement)%list
  /\ decode_replace [xed; xa0; x80]
     = (replacement ++ replacement ++ replacement)%list.
Proof. split; reflexivity. Qed.

Example format_fixed_examples :
  format_fixed 1 32 = "32.0" /\ format_fixed 0 (5 # 2) = "2"
  /\ format_fixed 0 (7 # 2) = "4" /\ format_fixed 2 (-1 # 8) = "-0.12".
Proof. repeat split; vm_compute; reflexivity. Qed.

End DecodeFacts.

(** ** battery_monitor.py *)

Section BatteryFacts.
Import BatteryMonitor.
Variable cfg : Config.
Variable iface : Interface.

Lemma battery_no_reading now ts p st :
  reading p = None ->
  on_receive cfg iface now ts p st = MkRun (Returned tt) st [].
Proof.
  unfold reading, on_receive.
  destruct (decoded p) as [d|]; [|reflexivity].
  destruct (portnum_is d "TELEMETRY_APP"); [|reflexivity].
  intros ->. reflexivity.
Qed.

(** What the handler does with a packet that carries a battery level. *)
Lemma battery_reading now ts p st v :
  reading p = Some v ->
  on_receive cfg iface now ts p st =
    let n := sender_of p in
    let st1 := set_node_battery n v st in
    if (v <=? LOW_BATTERY_THRESHOLD cfg)
       && Qge_bool (now - last_alert_at st n) (ALERT_COOLDOWN cfg)
    then
      if sendText_ok iface (alert iface p v)
      then MkRun (Returned tt) (set_last_alert n now st1)
             [log_line cfg iface ts p v; Sent (alert iface p v)]
      else MkRun Raised st1
             [log_line cfg iface ts p v; Sent (alert iface p v)]
    else MkRun (Returned tt) st1 [log_line cfg iface ts p v].
Proof.
  unfold reading, on_receive, log_line, metrics.
  destruct (decoded p) as [d|]; [|discriminate].
  destruct (portnum_is d "TELEMETRY_APP"); [|discriminate].
  intros ->. run. cbn [default].
  destruct (v <=? LOW_BATTERY_THRESHOLD cfg); cbn [andb]; [|reflexivity].
  unfold last_alert_at at 1. cbn [last_alert_time set_node_battery].
  fold (last_alert_at st (sender_of p)).
  destruct (Qge_bool _ _); [|reflexivity].
  unfold alert. destruct (sendText_ok iface _); reflexivity.
Qed.

(** The alert is sent exactly for a level at or below the threshold, once
    the cooldown of the sender has passed. *)
Lemma battery_sends now ts p st v :
  reading p = Some v ->
  sends (effects (on_receive cfg iface now ts p st)) =
    if (v <=? LOW_BATTERY_THRESHOLD cfg)
       && Qge_bool (now - last_alert_at st (sender_of p)) (ALERT_COOLDOWN cfg)
    then [alert iface p v] else [].
Proof.
  intros H. rewrite (battery_reading _ _ _ _ _ H). cbn zeta.
  destruct (_ && _); [destruct (sendText_ok _ _)|]; reflexivity.
Qed.

(** The level is stored under the sender, whatever happens next. *)
Lemma battery_level_kept now ts p st v :
  reading p = Some v ->
  node_batteries (final (on_receive cfg iface now ts p st)) !! sender_of p
    = Some v.
Proof.
  intros H. rewrite (battery_reading _ _ _ _ _ H). cbn zeta.
  destruct (_ && _); [destruct (sendText_ok _ _)|];
    cbn; apply lookup_insert_eq.
Qed.

(** Without a send, the alert times stay as they were. *)
Lemma battery_quiet_frame now ts p st :
  sends (effects (on_receive cfg iface now ts p st)) = [] ->
  last_alert_time (final (on_receive cfg iface now ts p st))
    = last_alert_time st.
Proof.
  destruct (reading p) as [v|] eqn:H.
  - rewrite (battery_reading _ _ _ _ _ H). cbn zeta.
    destruct (_ && _); [destruct (sendText_ok _ _)|];
      cbn; congruence.
  - rewrite (battery_no_reading _ _ _ _ H). reflexivity.
Qed.

(** The alert time is written after the send, and only if it returned. *)
Lemma battery_send_then_stamp now ts p st m :
  In (Sent m) (effects (on_receive cfg iface now ts p st)) ->
  if sendText_ok iface m
  then outcome (on_receive cfg iface now ts p st) = Returned tt
       /\ last_alert_time (final (on_receive cfg iface now ts p st))
          = <[sender_of p := now]> (last_alert_time st)
  else outcome (on_receive cfg iface now ts p st) = Raised
       /\ last_alert_time (final (on_receive cfg iface now ts p st))
          = last_alert_time st.
Proof.
  destruct (reading p) as [v|] eqn:H.
  - rewrite (battery_reading _ _ _ _ _ H). cbn zeta.
    destruct (_ && _).
    + destruct (sendText_ok iface (alert iface p v)) eqn:Hs.
      all: cbn [effects In]; unfold log_line.
      all: intros [Hin|[Hin|[]]]; [discriminate|].
      all: injection Hin as <-; rewrite Hs; split; reflexivity.
    + cbn [effects In]. unfold log_line. intros [Hin|[]]. discriminate.
  - rewrite (battery_no_reading _ _ _ _ H). intros [].
Qed.

(** A reading inside the cooldown window opened at [t0] is silent and
    leaves the window as it is. *)
Lemma battery_in_window now ts p st v t0 :
  reading p = Some v ->
  last_alert_time st !! sender_of p = Some t0 ->
  (now - t0 < ALERT_COOLDOWN cfg)%Q ->
  sends (effects (on_receive cfg iface now ts p st)) = []
  /\ last_alert_time (final (on_receive cfg iface now ts p st))
     = last_alert_time st.
Proof.
  intros H Ht0 Hlt.
  assert (Hs : sends (effects (on_receive cfg iface now ts p st)) = []).
  { rewrite (battery_sends _ _ _ _ _ H).
    unfold last_alert_at. rewrite Ht0. cbn.
    apply Qge_bool_false in Hlt. rewrite Hlt, andb_false_r. reflexivity. }
  split; [exact Hs | apply battery_quiet_frame, Hs].
Qed.

(** A packet of another sender leaves the alert time of [n] alone. *)
Lemma battery_other_sender now ts p st n :
  sender_of p <> n ->
  last_alert_time (final (on_receive cfg iface now ts p st)) !! n
  = last_alert_time st !! n.
Proof.
  intros Hne. destruct (reading p) as [v|] eqn:H.
  - rewrite (battery_reading _ _ _ _ _ H). cbn zeta.
    destruct (_ && _); [destruct (sendText_ok _ _)|]; cbn; try reflexivity.
    apply lookup_insert_ne, Hne.
  - rewrite (battery_no_reading _ _ _ _ H). reflexivity.
Qed.

End BatteryFacts.

(** ** temperature_alert.py *)

Section TemperatureFacts.
Import TemperatureAlert.
Variable format_float : nat -> Q -> string.
Variable cfg : Config.
Variable iface : Interface.

Local Abbreviation on_receive := (on_receive format_float cfg iface).
Local Abbreviation low_message := (low_message format_float cfg).
Local Abbreviation high_message := (high_message format_float cfg).
Local Abbreviation alerting := (alerting iface).

Lemma temperature_no_reading now p st :
  reading p = None ->
  on_receive now p st = MkRun (Returned tt) st [].
Proof.
  unfold reading, TemperatureAlert.on_receive.
  destruct (decoded p) as [d|]; [|reflexivity].
  destruct (portnum_is d "TELEMETRY_APP"); [|reflexivity].
  intros ->. reflexivity.
Qed.

(** What the handler does with a packet that carries a temperature: the
    sender plays no part. *)
Lemma temperature_reading now p st c :
  reading p = Some c ->
  on_receive now p st =
    if Qge_bool (now - last_alert_time st) (ALERT_COOLDOWN cfg) then
      if Qlt_bool (temp_of cfg c) (low_threshold cfg)
      then alerting now (low_message c) st
      else if Qlt_bool (high_threshold cfg) (temp_of cfg c)
      then alerting now (high_message c) st
      else MkRun (Returned tt) st []
    else MkRun (Returned tt) st [].
Proof.
  unfold reading, TemperatureAlert.on_receive.
  destruct (decoded p) as [d|]; [|discriminate].
  destruct (portnum_is d "TELEMETRY_APP"); [|discriminate].
  intros ->. run.
  fold (temp_of cfg c) (low_threshold cfg) (high_threshold cfg) (unit_name cfg).
  destruct (Qge_bool _ _); [|reflexivity].
  unfold TemperatureAlert.alerting, TemperatureAlert.low_message,
    TemperatureAlert.high_message, broadcast.
  destruct (Qlt_bool (temp_of cfg c) (low_threshold cfg)).
  { cbn. destruct (sendText_ok iface _); reflexivity. }
  destruct (Qlt_bool (high_threshold cfg) (temp_of cfg c)).
  { cbn. destruct (sendText_ok iface _); reflexivity. }
  reflexivity.
Qed.

Lemma alerting_effects now m st : effects (alerting now m st) = [Sent m].
Proof.
  unfold TemperatureAlert.alerting.
  destruct (sendText_ok iface m); reflexivity.
Qed.

Lemma temperature_effects_le_1 now p st :
  (length (effects (on_receive now p st)) <= 1)%nat.
Proof.
  destruct (reading p) as [c|] eqn:H.
  - rewrite (temperature_reading _ _ _ _ H).
    repeat match goal with
           | |- context [if ?b then _ else _] =>
               lazymatch b with
               | sendText_ok _ _ => fail
               | _ => destruct b
               end
           end; rewrite ?alerting_effects; cbn; lia.
  - rewrite (temperature_no_reading _ _ _ H). cbn. lia.
Qed.

(** A value below the low threshold gets the low alert once the cooldown
    has passed, whether or not it is also above the high threshold. *)
Lemma temperature_low_first now p st c :
  reading p = Some c ->
  (ALERT_COOLDOWN cfg <= now - last_alert_time st)%Q ->
  (temp_of cfg c < low_threshold cfg)%Q ->
  effects (on_receive now p st) = [Sent (low_message c)].
Proof.
  intros H Hcd Hlow. rewrite (temperature_reading _ _ _ _ H).
  apply Qge_bool_iff in Hcd. apply Qlt_bool_iff in Hlow.
  rewrite Hcd, Hlow. apply alerting_effects.
Qed.

(** While the global cooldown runs, nothing is sent and nothing changes,
    whoever the sender is. *)
Lemma temperature_cooldown now p st :
  (now - last_alert_time st < ALERT_COOLDOWN cfg)%Q ->
  on_receive now p st = MkRun (Returned tt) st [].
Proof.
  intros Hlt. apply Qge_bool_false in Hlt.
  destruct (reading p) as [c|] eqn:H.
  - rewrite (temperature_reading _ _ _ _ H), Hlt. reflexivity.
  - apply temperature_no_reading, H.
Qed.

(** A send that returned leaves the time of the call in the global. *)
Lemma temperature_sent_stamp now p st m :
  In (Sent m) (effects (on_receive now p st)) ->
  if sendText_ok iface m
  then outcome (on_receive now p st) = Returned tt
       /\ final (on_receive now p st) = {| last_alert_time := now |}
  else outcome (on_receive now p st) = Raised
       /\ final (on_receive now p st) = st.
Proof.
  destruct (reading p) as [c|] eqn:H.
  - rewrite (temperature_reading _ _ _ _ H).
    destruct (Qge_bool _ _); [|intros []].
    destruct (Qlt_bool (temp_of cfg c) (low_threshold cfg));
      [|destruct (Qlt_bool (high_threshold cfg) (temp_of cfg c));
        [|intros []]].
    all: rewrite alerting_effects; intros [Hin|[]]; injection Hin as <-.
    all: unfold TemperatureAlert.alerting.
    all: destruct (sendText_ok iface _); split; reflexivity.
  - rewrite (temperature_no_reading _ _ _ H). intros [].
Qed.

(** The handler never looks at the sender. *)
Lemma temperature_sender_blind now d a b st :
  on_receive now {| decoded := d; fromId := a |} st
  = on_receive now {| decoded := d; fromId := b |} st.
Proof. reflexivity. Qed.

End TemperatureFacts.

(** ** auto_responder.py *)

Section AutoResponderFacts.
Import AutoResponder.
Variable lower strip : string -> string.
Variable cfg : Config.
Variable iface : Interface.

Local Abbreviation on_receive := (on_receive lower strip cfg iface).
Local Abbreviation check_keywords := (check_keywords lower cfg iface).
Local Abbreviation matches := (matches lower).
Local Abbreviation message_lower_of := (message_lower_of lower strip).
Local Abbreviation replying := (replying iface).

Lemma get_battery_info_None : get_battery_info iface = None.
Proof.
  unfold get_battery_info.
  destruct (localNode iface) as [[[]]|]; reflexivity.
Qed.

(** The loop stops at the first item whose keyword occurs in the message
    and replies with its response; the items after it are not looked
    at. *)
Lemma check_keywords_first sender now msg items st :
  check_keywords sender now msg items st =
    match find (matches msg) items with
    | Some item => replying sender now (snd item) st
    | None => MkRun (Returned tt) st []
    end.
Proof.
  induction items as [|[keyword response] rest IH]; [reflexivity|].
  cbn [AutoResponder.check_keywords find].
  unfold AutoResponder.matches at 1. cbn [fst].
  destruct (Py.contains (lower keyword) msg); [|exact IH].
  rewrite get_battery_info_None.
  replace (if String.eqb (lower keyword) "status"
              && INCLUDE_BATTERY_IN_STATUS cfg
           then response else response) with response
    by (destruct (_ && _); reflexivity).
  run. unfold AutoResponder.replying, reply. cbn [snd].
  destruct (sendText_ok iface _); reflexivity.
Qed.

Lemma responder_not_text now p st :
  message_lower_of p = None ->
  on_receive now p st = MkRun (Returned tt) st [].
Proof.
  unfold AutoResponder.message_lower_of, AutoResponder.on_receive.
  destruct (decoded p) as [d|]; [|reflexivity].
  destruct (portnum_is d "TEXT_MESSAGE_APP"); [discriminate|reflexivity].
Qed.

(** What the handler does with a text message. *)
Lemma responder_text now p st msg :
  message_lower_of p = Some msg ->
  on_receive now p st =
    if Qlt_bool (now - last_response_at st (sender_of p))
         (RESPONSE_COOLDOWN cfg)
    then MkRun (Returned tt) st []
    else
      match find (matches msg) (RESPONSES cfg) with
      | Some item => replying (sender_of p) now (snd item) st
      | None => MkRun (Returned tt) st []
      end.
Proof.
  unfold AutoResponder.message_lower_of, AutoResponder.on_receive.
  destruct (decoded p) as [d|]; [|discriminate].
  destruct (portnum_is d "TEXT_MESSAGE_APP"); [|discriminate].
  intros [= <-]. run.
  destruct (Qlt_bool _ _); [reflexivity|].
  rewrite check_keywords_first.
  destruct (find _ _); [|reflexivity].
  unfold AutoResponder.replying.
  destruct (sendText_ok iface _); reflexivity.
Qed.

Lemma replying_effects sender now response st :
  effects (replying sender now response st) = [Sent (reply sender response)].
Proof.
  unfold AutoResponder.replying.
  destruct (sendText_ok iface _); reflexivity.
Qed.

Lemma responder_effects_le_1 now p st :
  (length (effects (on_receive now p st)) <= 1)%nat.
Proof.
  destruct (message_lower_of p) as [msg|] eqn:H.
  - rewrite (responder_text _ _ _ _ H).
    destruct (Qlt_bool _ _); [cbn; lia|].
    destruct (find _ _); [rewrite replying_effects|]; cbn; lia.
  - rewrite (responder_not_text _ _ _ H). cbn. lia.
Qed.

(** First match wins: with no match among the items before [(keyword,
    response)], that item answers, whatever comes after it. *)
Lemma responder_first_match now p st msg before keyword response after :
  message_lower_of p = Some msg ->
  RESPONSES cfg = (before ++ (keyword, response) :: after)%list ->
  Forall (fun item => matches msg item = false) before ->
  matches msg (keyword, response) = true ->
  (RESPONSE_COOLDOWN cfg <= now - last_response_at st (sender_of p))%Q ->
  effects (on_receive now p st) = [Sent (reply (sender_of p) response)].
Proof.
  intros H Hcfg Hbefore Hmatch Hcd.
  rewrite (responder_text _ _ _ _ H), Hcfg.
  assert (Hc : Qlt_bool (now - last_response_at st (sender_of p))
                 (RESPONSE_COOLDOWN cfg) = false).
  { unfold Qlt_bool. apply negb_false_iff, Qle_bool_iff, Hcd. }
  rewrite Hc. clear Hc Hcfg.
  induction Hbefore as [|item before Hitem _ IH]; cbn [app find].
  - rewrite Hmatch. apply replying_effects.
  - rewrite Hitem. exact IH.
Qed.

(** Without a send, the response times stay as they were. *)
Lemma responder_quiet_frame now p st :
  sends (effects (on_receive now p st)) = [] ->
  final (on_receive now p st) = st.
Proof.
  destruct (message_lower_of p) as [msg|] eqn:H.
  - rewrite (responder_text _ _ _ _ H).
    destruct (Qlt_bool _ _); [reflexivity|].
    destruct (find _ _); [|reflexivity].
    rewrite replying_effects. discriminate.
  - rewrite (responder_not_text _ _ _ H). reflexivity.
Qed.

(** The response time is written after the send, and only if it
    returned. *)
Lemma responder_send_then_stamp now p st m :
  In (Sent m) (effects (on_receive now p st)) ->
  if sendText_ok iface m
  then outcome (on_receive now p st) = Returned tt
       /\ last_response_time (final (on_receive now p st))
          = <[sender_of p := now]> (last_response_time st)
  else outcome (on_receive now p st) = Raised
       /\ final (on_receive now p st) = st.
Proof.
  destruct (message_lower_of p) as [msg|] eqn:H.
  - rewrite (responder_text _ _ _ _ H).
    destruct (Qlt_bool _ _); [intros []|].
    destruct (find _ _) as [item|]; [|intros []].
    rewrite replying_effects. intros [Hin|[]]. injection Hin as <-.
    unfold AutoResponder.replying.
    destruct (sendText_ok iface _); split; reflexivity.
  - rewrite (responder_not_text _ _ _ H). intros [].
Qed.

End AutoResponderFacts.

(** ** position_tracker.py *)

Section PositionFacts.
Import PositionTracker.
Variable iface : Interface.

Lemma position_not_position ts p :
  position_of p = None ->
  on_receive iface ts p tt = MkRun (Returned tt) tt [].
Proof.
  unfold position_of, on_receive.
  destruct (decoded p) as [d|]; [|reflexivity].
  destruct (portnum_is d "POSITION_APP"); [discriminate|reflexivity].
Qed.

(** What the handler does with a position packet. *)
Lemma position_packet ts p pos :
  position_of p = Some pos ->
  on_receive iface ts p tt =
    match Py.or_ (latitude pos) (latitudeI pos),
          Py.or_ (longitude pos) (longitudeI pos) with
    | Some lat, Some lon =>
        MkRun (Returned tt) tt [log_line iface ts p pos lat lon]
    | _, _ => MkRun (Returned tt) tt []
    end.
Proof.
  unfold position_of, on_receive.
  destruct (decoded p) as [d|]; [|discriminate].
  destruct (portnum_is d "POSITION_APP"); [|discriminate].
  intros [= <-].
  destruct (Py.or_ _ _); [|reflexivity].
  destruct (Py.or_ _ _); reflexivity.
Qed.

Lemma position_returns ts p : outcome (on_receive iface ts p tt) = Returned tt.
Proof.
  destruct (position_of p) as [pos|] eqn:H.
  - rewrite (position_packet _ _ _ H).
    destruct (Py.or_ _ _); [destruct (Py.or_ _ _)|]; reflexivity.
  - rewrite (position_not_position _ _ H). reflexivity.
Qed.

Lemma abs_gt_int z b : Py.abs_gt (Py.NInt z) (inject_Z b) = (b <? Z.abs z).
Proof.
  unfold Py.abs_gt, Py.to_Q, Qle_bool, inject_Z, Qabs. cbn.
  rewrite !Z.mul_1_r. symmetry. apply Z.ltb_antisym.
Qed.

(** Only an [int] beyond 180 is rescaled. *)
Lemma from_integer_format_int z :
  from_integer_format (Py.NInt z) =
    if 180 <? Z.abs z then Py.NFloat (inject_Z z / 10000000)
    else Py.NInt z.
Proof.
  unfold from_integer_format. cbn [Py.isinstance_int andb].
  change 180%Q with (inject_Z 180). rewrite abs_gt_int. reflexivity.
Qed.

Lemma from_integer_format_float q :
  from_integer_format (Py.NFloat q) = Py.NFloat q.
Proof. reflexivity. Qed.

Lemma zero_falsy v : (Py.to_Q v == 0)%Q -> Py.truthy v = false.
Proof.
  destruct v as [z|q]; cbn [Py.to_Q Py.truthy]; intros H.
  - unfold Qeq, inject_Z in H. cbn in H. rewrite Z.mul_1_r in H.
    subst z. reflexivity.
  - apply Qeq_bool_iff in H. rewrite H. reflexivity.
Qed.

Lemma nonzero_truthy v : ~ (Py.to_Q v == 0)%Q -> Py.truthy v = true.
Proof.
  destruct v as [z|q]; cbn [Py.to_Q Py.truthy]; intros H.
  - apply negb_true_iff, Z.eqb_neq. intros ->. apply H. reflexivity.
  - apply negb_true_iff, not_true_iff_false. intros E.
    apply H, Qeq_bool_iff, E.
Qed.

(** A zero with nothing behind it is no coordinate. *)
Lemma or_zero_None v : (Py.to_Q v == 0)%Q -> Py.or_ (Some v) None = None.
Proof. intros H. unfold Py.or_. rewrite (zero_falsy _ H). reflexivity. Qed.

End PositionFacts.

(** ** scheduled_broadcaster.py *)

Section SchedulerFacts.
Import ScheduledBroadcaster.
Variable cfg : Config.
Variable iface : Interface.

Local Abbreviation loop := (loop cfg iface).
Local Abbreviation main := (main cfg iface).
Local Abbreviation fired := (fired cfg).
Local Abbreviation spaced := (spaced cfg).
Local Abbreviation broadcast := (broadcast cfg).
Local Abbreviation interval_seconds := (interval_seconds cfg).

(** A failed send is caught: the call returns either way. *)
Lemma send_scheduled_message_run t :
  send_scheduled_message cfg iface t tt
  = MkRun (Returned tt) tt [Sent (broadcast t)].
Proof. reflexivity. Qed.

Lemma loop_cons last tk rest :
  loop last (tk :: rest) tt =
    if Qge_bool (check_time tk - last) interval_seconds
    then MkRun (outcome (loop (resume_time tk) rest tt)) tt
           (Sent (broadcast (wall_clock tk))
              :: effects (loop (resume_time tk) rest tt))
    else loop last rest tt.
Proof.
  cbn [ScheduledBroadcaster.loop].
  destruct (Qge_bool _ _); [|reflexivity].
  unfold bind. rewrite send_scheduled_message_run. cbn.
  destruct (final _). reflexivity.
Qed.

(** The loop sends one broadcast for each pass that [fired] lists, in
    order, and nothing else. *)
Lemma loop_run last ticks :
  loop last ticks tt =
    MkRun (Returned tt) tt
      (map (fun tk => Sent (broadcast (wall_clock tk))) (fired last ticks)).
Proof.
  revert last. induction ticks as [|tk rest IH]; intros last;
    [reflexivity|].
  rewrite loop_cons. cbn [ScheduledBroadcaster.fired].
  destruct (Qge_bool _ _); [|apply IH].
  rewrite IH. reflexivity.
Qed.

Lemma main_run start ticks :
  main start ticks tt =
    MkRun (Returned tt) tt
      (Sent (broadcast (wall_clock start))
         :: map (fun tk => Sent (broadcast (wall_clock tk)))
              (fired (resume_time start) ticks)).
Proof.
  unfold ScheduledBroadcaster.main, bind.
  rewrite send_scheduled_message_run. cbn [outcome final effects].
  rewrite loop_run. reflexivity.
Qed.

(** Between a send and the next one, at least one interval passes on the
    clock. *)
Lemma fired_spaced last ticks : spaced last (fired last ticks).
Proof.
  revert last. induction ticks as [|tk rest IH]; intros last; [exact I|].
  cbn [ScheduledBroadcaster.fired].
  destruct (Qge_bool _ _) eqn:E; [|apply IH].
  split; [apply Qge_bool_iff, E | apply IH].
Qed.

Lemma fired_sublist last ticks : sublist (fired last ticks) ticks.
Proof.
  revert last. induction ticks as [|tk rest IH]; intros last;
    [constructor|].
  cbn [ScheduledBroadcaster.fired].
  destruct (Qge_bool _ _); [apply sublist_skip | apply sublist_cons]; apply IH.
Qed.

End SchedulerFacts.

(** * Scenarios *)

(** "Status?" from "!b" gets the status reply, addressed to "!b"; the same
    text 30 seconds later, inside the 60 second cooldown, gets nothing. *)
Example status_then_cooldown :
  let h :=
    AutoResponder.on_receive Py.ascii_lower Py.ascii_strip
      AutoResponder.shipped Samples.accepting in
  let first := h 5000%Q (Samples.text_packet "!b" "Status?") AutoResponder.initial in
  effects first
  = [Sent {| text := "AUTO-REPLY: Node is online and operational.";
             destinationId := Some "!b";
             channelIndex := None |}]
  /\ effects (h 5030%Q (Samples.text_packet "!b" "Status?") (final first)) = []
  /\ map destinationId
       (sends (effects (h 5060%Q (Samples.text_packet "!b" "ping")
                          (final first))))
     = [Some "!b"].
Proof. cbv zeta. repeat split; vm_compute; reflexivity. Qed.

(** * The claims of the specification *)

(** ** Cooldown and thresholds of the battery monitor *)

(** C6. The battery comparison is [<=]: outside the sender's cooldown
    window, a level equal to the threshold sends the low-battery alert, and
    a level one above the threshold sends nothing. *)
Theorem battery_threshold_boundary
    (cfg : BatteryMonitor.Config) (iface : Interface) (now : Q) (ts : string)
    (p : Packet) (st : BatteryMonitor.State) (v : Z) :
  BatteryMonitor.reading p = Some v ->
  (BatteryMonitor.ALERT_COOLDOWN cfg
     <= now - BatteryMonitor.last_alert_at st (sender_of p))%Q ->
  (v = BatteryMonitor.LOW_BATTERY_THRESHOLD cfg ->
     sends (effects (BatteryMonitor.on_receive cfg iface now ts p st))
     = [BatteryMonitor.alert iface p v])
  /\ (v = BatteryMonitor.LOW_BATTERY_THRESHOLD cfg + 1 ->
     sends (effects (BatteryMonitor.on_receive cfg iface now ts p st)) = []).
Proof.
  intros H Hcd. rewrite (battery_sends _ _ _ _ _ _ _ H).
  apply Qge_bool_iff in Hcd. rewrite Hcd, andb_true_r.
  split; intros ->.
  - rewrite Z.leb_refl. reflexivity.
  - replace (_ <=? _) with false; [reflexivity|].
    symmetry. apply Z.leb_gt. lia.
Qed.

Lemma battery_threshold_boundary_at_20 :
  let h := BatteryMonitor.on_receive BatteryMonitor.shipped Samples.accepting in
  sends (effects (h 5000%Q "12:00:00" (Samples.battery_packet "!a" 20)
                    BatteryMonitor.initial))
  = [BatteryMonitor.alert Samples.accepting (Samples.battery_packet "!a" 20) 20]
  /\ sends (effects (h 5000%Q "12:00:00" (Samples.battery_packet "!a" 21)
                       BatteryMonitor.initial)) = [].
Proof.
  split.
  - apply (battery_threshold_boundary BatteryMonitor.shipped Samples.accepting
             5000 "12:00:00" (Samples.battery_packet "!a" 20)
             BatteryMonitor.initial 20);
      [reflexivity | vm_compute; discriminate | reflexivity].
  - apply (battery_threshold_boundary BatteryMonitor.shipped Samples.accepting
             5000 "12:00:00" (Samples.battery_packet "!a" 21)
             BatteryMonitor.initial 21);
      [reflexivity | vm_compute; discriminate | reflexivity].
Defined.

(** C4 does not hold of battery_monitor.py when the send raises.  Three
    readings of 15 from "!a", 10 seconds apart and so inside one cooldown
    window of 3600 seconds, handled by a device that refuses messages: each
    of the three sends the alert, and none of them leaves an alert time for
    "!a". *)
Lemma refused_alert_is_sent_for_every_reading :
  let at_ t ts :=
    {| BatteryMonitor.at_time := t; BatteryMonitor.stamp := ts;
       BatteryMonitor.packet := Samples.battery_packet "!a" 15 |} in
  let runs :=
    BatteryMonitor.deliver BatteryMonitor.shipped Samples.failing
      [at_ 5000%Q "12:00:00"; at_ 5010%Q "12:00:10"; at_ 5020%Q "12:00:20"]
      BatteryMonitor.initial in
  (5020 - 5000 < BatteryMonitor.ALERT_COOLDOWN BatteryMonitor.shipped)%Q
  /\ map (fun r => map text (sends (effects r))) runs
     = [["LOW BATTERY: !a at 15%"]; ["LOW BATTERY: !a at 15%"];
        ["LOW BATTERY: !a at 15%"]]
  /\ map (fun r => BatteryMonitor.last_alert_time (final r) !! "!a") runs
     = [None; None; None].
Proof. cbv zeta. repeat split; vm_compute; reflexivity. Qed.

(** C4, amended. Low readings of one node inside one cooldown window give
    one alert, provided the send of that alert returns.  When the first low
    reading of node [n] finds the node's cooldown over and its send
    returns, that reading sends the alert and records its time as the
    node's last alert; every later low reading of [n] that comes less than
    a cooldown after the first sends nothing, and the recorded time stays
    in place.  Packets of other nodes may be handled in between. *)
Theorem battery_one_alert_per_window
    (cfg : BatteryMonitor.Config) (iface : Interface)
    (st : BatteryMonitor.State) (n : string)
    (first : BatteryMonitor.Delivery) (later : list BatteryMonitor.Delivery)
    (v1 : Z) :
  sender_of (BatteryMonitor.packet first) = n ->
  BatteryMonitor.reading (BatteryMonitor.packet first) = Some v1 ->
  v1 <= BatteryMonitor.LOW_BATTERY_THRESHOLD cfg ->
  (BatteryMonitor.ALERT_COOLDOWN cfg
     <= BatteryMonitor.at_time first - BatteryMonitor.last_alert_at st n)%Q ->
  sendText_ok iface (BatteryMonitor.alert iface (BatteryMonitor.packet first) v1)
    = true ->
  Forall (fun d =>
            sender_of (BatteryMonitor.packet d) = n ->
            (exists v,
               BatteryMonitor.reading (BatteryMonitor.packet d) = Some v
               /\ v <= BatteryMonitor.LOW_BATTERY_THRESHOLD cfg)
            /\ (BatteryMonitor.at_time d - BatteryMonitor.at_time first
                < BatteryMonitor.ALERT_COOLDOWN cfg)%Q) later ->
  exists r rs,
    BatteryMonitor.deliver cfg iface (first :: later) st = r :: rs
    /\ sends (effects r)
       = [BatteryMonitor.alert iface (BatteryMonitor.packet first) v1]
    /\ BatteryMonitor.last_alert_time (final r) !! n
       = Some (BatteryMonitor.at_time first)
    /\ Forall2 (fun d r' =>
                  (sender_of (BatteryMonitor.packet d) = n ->
                   sends (effects r') = [])
                  /\ BatteryMonitor.last_alert_time (final r') !! n
                     = Some (BatteryMonitor.at_time first)) later rs.
Proof.
  intros Hn Hread Hlow Hcd Hok Hlater.
  cbn [BatteryMonitor.deliver].
  set (r := BatteryMonitor.on_receive cfg iface _ _ _ st).
  assert (Hr : sends (effects r)
               = [BatteryMonitor.alert iface (BatteryMonitor.packet first) v1]
               /\ BatteryMonitor.last_alert_time (final r) !! n
                  = Some (BatteryMonitor.at_time first)).
  { subst r. rewrite (battery_reading _ _ _ _ _ _ _ Hread). cbn zeta.
    rewrite Hn. apply Z.leb_le in Hlow. apply Qge_bool_iff in Hcd.
    rewrite Hlow, Hcd, Hok. cbn. split; [reflexivity|].
    apply lookup_insert_eq. }
  destruct Hr as [Hsend Hstamp].
  exists r, (BatteryMonitor.deliver cfg iface later (final r)).
  split; [reflexivity|]. split; [exact Hsend|]. split; [exact Hstamp|].
  clear Hsend. generalize dependent (final r). clear r.
  induction Hlater as [|d later Hd _ IH]; intros s Hs;
    cbn [BatteryMonitor.deliver]; constructor.
  - destruct (decide (sender_of (BatteryMonitor.packet d) = n)) as [Hdn|Hdn].
    + destruct (Hd Hdn) as [(v & Hv & _) Hwin].
      rewrite <- Hdn in Hs.
      destruct (battery_in_window cfg iface _ (BatteryMonitor.stamp d) _ _ _ _
                  Hv Hs Hwin) as [Hquiet Hframe].
      split; [intros _; exact Hquiet|].
      rewrite Hframe, <- Hdn. exact Hs.
    + split; [intros E; contradiction|].
      rewrite battery_other_sender by exact Hdn. exact Hs.
  - apply IH.
    destruct (decide (sender_of (BatteryMonitor.packet d) = n)) as [Hdn|Hdn].
    + destruct (Hd Hdn) as [(v & Hv & _) Hwin].
      rewrite <- Hdn in Hs.
      destruct (battery_in_window cfg iface _ (BatteryMonitor.stamp d) _ _ _ _
                  Hv Hs Hwin) as [_ Hframe].
      rewrite Hframe, <- Hdn. exact Hs.
    + rewrite battery_other_sender by exact Hdn. exact Hs.
Qed.

(** A reading of 15 with threshold 20 and no alert so far, the same reading
    10 seconds later, with a packet of another node in between. *)
Lemma battery_one_alert_per_window_scenario :
  let at_ t ts p :=
    {| BatteryMonitor.at_time := t; BatteryMonitor.stamp := ts;
       BatteryMonitor.packet := p |} in
  exists r rs,
    BatteryMonitor.deliver BatteryMonitor.shipped Samples.accepting
      [ at_ 5000%Q "12:00:00" (Samples.battery_packet "!a" 15);
        at_ 5005%Q "12:00:05" (Samples.battery_packet "!b" 10);
        at_ 5010%Q "12:00:10" (Samples.battery_packet "!a" 15) ]
      BatteryMonitor.initial = r :: rs
    /\ map text (sends (effects r)) = ["LOW BATTERY: !a at 15%"]
    /\ BatteryMonitor.last_alert_time (final r) !! "!a" = Some 5000%Q
    /\ Forall2 (fun d r' =>
                  (sender_of (BatteryMonitor.packet d) = "!a" ->
                   sends (effects r') = [])
                  /\ BatteryMonitor.last_alert_time (final r') !! "!a"
                     = Some 5000%Q)
         [ at_ 5005%Q "12:00:05" (Samples.battery_packet "!b" 10);
           at_ 5010%Q "12:00:10" (Samples.battery_packet "!a" 15) ] rs.
Proof.
  intros at_.
  destruct (battery_one_alert_per_window BatteryMonitor.shipped
              Samples.accepting BatteryMonitor.initial "!a"
              (at_ 5000%Q "12:00:00" (Samples.battery_packet "!a" 15))
              [ at_ 5005%Q "12:00:05" (Samples.battery_packet "!b" 10);
                at_ 5010%Q "12:00:10" (Samples.battery_packet "!a" 15) ]
              15) as (r & rs & Hrun & Hsend & Hstamp & Hrest).
  - reflexivity.
  - reflexivity.
  - cbn. lia.
  - vm_compute. discriminate.
  - reflexivity.
  - constructor; [intros E; discriminate E|].
    constructor; [|constructor].
    intros _. split; [exists 15; split; [reflexivity | cbn; lia]|].
    vm_compute. reflexivity.
  - exists r, rs. split; [exact Hrun|]. split; [|split; assumption].
    rewrite Hsend. reflexivity.
Defined.

(** ** What a handled event leaves in the globals *)

(** C7. After a battery reading [v] of node [n] has been handled,
    [node_batteries[n]] is [v], whether an alert was sent, suppressed, or
    its send raised; a reading that is above the threshold or inside the
    node's cooldown sends nothing and leaves [last_alert_time] as it was for
    every node; a text message inside the sender's cooldown gets no reply
    and leaves [last_response_time] as it was for every node; and in
    general a packet for which nothing is sent leaves the alert times, and
    the response times, as they were. *)
Theorem reading_kept_and_quiet_frame
    (bcfg : BatteryMonitor.Config) (rcfg : AutoResponder.Config)
    (lower strip : string -> string) (iface : Interface) (now : Q)
    (ts : string) (p : Packet)
    (bst : BatteryMonitor.State) (rst : AutoResponder.State) :
  let battery_run := BatteryMonitor.on_receive bcfg iface now ts p bst in
  let responder_run := AutoResponder.on_receive lower strip rcfg iface now p rst in
  (forall v,
     BatteryMonitor.reading p = Some v ->
     BatteryMonitor.node_batteries (final battery_run) !! sender_of p = Some v)
  /\ (forall v,
        BatteryMonitor.reading p = Some v ->
        BatteryMonitor.LOW_BATTERY_THRESHOLD bcfg < v
        \/ (now - BatteryMonitor.last_alert_at bst (sender_of p)
            < BatteryMonitor.ALERT_COOLDOWN bcfg)%Q ->
        sends (effects battery_run) = []
        /\ BatteryMonitor.last_alert_time (final battery_run)
           = BatteryMonitor.last_alert_time bst)
  /\ ((now - AutoResponder.last_response_at rst (sender_of p)
       < AutoResponder.RESPONSE_COOLDOWN rcfg)%Q ->
      effects responder_run = [] /\ final responder_run = rst)
  /\ (sends (effects battery_run) = [] ->
      BatteryMonitor.last_alert_time (final battery_run)
      = BatteryMonitor.last_alert_time bst)
  /\ (sends (effects responder_run) = [] -> final responder_run = rst).
Proof.
  intros battery_run responder_run. split; [|split; [|split; [|split]]].
  - intros v H. apply battery_level_kept, H.
  - intros v H Hquiet.
    assert (Hs : sends (effects battery_run) = []).
    { subst battery_run. rewrite (battery_sends _ _ _ _ _ _ _ H).
      destruct Hquiet as [Habove|Hcd].
      - apply Z.leb_gt in Habove. rewrite Habove. reflexivity.
      - apply Qge_bool_false in Hcd. rewrite Hcd, andb_false_r. reflexivity. }
    split; [exact Hs | apply battery_quiet_frame, Hs].
  - intros Hcd. apply Qlt_bool_iff in Hcd. subst responder_run.
    destruct (AutoResponder.message_lower_of lower strip p) as [msg|] eqn:H.
    + rewrite (responder_text _ _ _ _ _ _ _ _ H), Hcd. split; reflexivity.
    + rewrite (responder_not_text _ _ _ _ _ _ _ H). split; reflexivity.
  - apply battery_quiet_frame.
  - apply responder_quiet_frame.
Qed.

Lemma reading_kept_and_quiet_frame_sample :
  let p := Samples.battery_packet "!a" 50 in
  let battery :=
    BatteryMonitor.on_receive BatteryMonitor.shipped Samples.failing 5000
      "12:00:00" p BatteryMonitor.initial in
  BatteryMonitor.node_batteries (final battery) !! "!a" = Some 50
  /\ sends (effects battery) = []
  /\ BatteryMonitor.last_alert_time (final battery) = ∅.
Proof.
  intros p battery.
  pose proof (reading_kept_and_quiet_frame BatteryMonitor.shipped
                AutoResponder.shipped Py.ascii_lower Py.ascii_strip
                Samples.failing 5000 "12:00:00" p BatteryMonitor.initial
                AutoResponder.initial) as (Hkept & Hquiet & _ & _ & _).
  split; [apply (Hkept 50); reflexivity|].
  apply (Hquiet 50); [reflexivity | left; cbn; lia].
Defined.

(** C2 does not hold of the handlers: a reading of 15 from "!a" with no
    alert so far is handled while [sendText] raises.  The alert is
    attempted, the handler raises, and no alert time is recorded for "!a";
    handled while [sendText] returns, the same reading leaves 5000 as the
    alert time.  The two final states differ. *)
Lemma failed_send_leaves_no_timestamp :
  let p := Samples.battery_packet "!a" 15 in
  let sent :=
    BatteryMonitor.on_receive BatteryMonitor.shipped Samples.accepting 5000
      "12:00:00" p BatteryMonitor.initial in
  let failed :=
    BatteryMonitor.on_receive BatteryMonitor.shipped Samples.failing 5000
      "12:00:00" p BatteryMonitor.initial in
  sends (effects failed) = [BatteryMonitor.alert Samples.failing p 15]
  /\ outcome failed = Raised
  /\ BatteryMonitor.last_alert_time (final failed) !! "!a" = None
  /\ BatteryMonitor.last_alert_time (final sent) !! "!a" = Some 5000%Q
  /\ final failed <> final sent.
Proof.
  cbv zeta.
  assert (Hf : BatteryMonitor.last_alert_time
                 (final (BatteryMonitor.on_receive BatteryMonitor.shipped
                           Samples.failing 5000 "12:00:00"
                           (Samples.battery_packet "!a" 15)
                           BatteryMonitor.initial)) !! "!a" = None)
    by (vm_compute; reflexivity).
  assert (Hs : BatteryMonitor.last_alert_time
                 (final (BatteryMonitor.on_receive BatteryMonitor.shipped
                           Samples.accepting 5000 "12:00:00"
                           (Samples.battery_packet "!a" 15)
                           BatteryMonitor.initial)) !! "!a" = Some 5000%Q)
    by (vm_compute; reflexivity).
  repeat split; try (vm_compute; reflexivity); try assumption.
  intros E. rewrite E, Hs in Hf. discriminate.
Qed.

(** For the same packet, state and time, a device that refuses the alert
    leaves the battery monitor's globals as a device that takes it does
    only if the sender's alert time already was the time of the event. *)
Lemma battery_failed_send_state
    (cfg : BatteryMonitor.Config) (iface iface' : Interface) (now : Q)
    (ts : string) (p : Packet) (st : BatteryMonitor.State)
    (m : SendMeshMessage) :
  nodes iface' = nodes iface ->
  In (Sent m) (effects (BatteryMonitor.on_receive cfg iface now ts p st)) ->
  sendText_ok iface m = true ->
  sendText_ok iface' m = false ->
  outcome (BatteryMonitor.on_receive cfg iface' now ts p st) = Raised
  /\ (final (BatteryMonitor.on_receive cfg iface' now ts p st)
      = final (BatteryMonitor.on_receive cfg iface now ts p st)
      <-> BatteryMonitor.last_alert_time st !! sender_of p = Some now).
Proof.
  intros Hnodes.
  assert (Halert : forall v,
             BatteryMonitor.alert iface' p v = BatteryMonitor.alert iface p v).
  { intros v. unfold BatteryMonitor.alert, get_node_name.
    rewrite Hnodes. reflexivity. }
  destruct (BatteryMonitor.reading p) as [v|] eqn:H.
  2:{ rewrite (battery_no_reading _ _ _ _ _ _ H). intros []. }
  rewrite !(battery_reading _ _ _ _ _ _ _ H). cbn zeta. rewrite Halert.
  destruct (_ && _).
  2:{ unfold BatteryMonitor.log_line. intros [E|[]]. discriminate E. }
  intros Hin Hok Hko.
  assert (m = BatteryMonitor.alert iface p v) as ->.
  { destruct (sendText_ok iface (BatteryMonitor.alert iface p v));
      unfold BatteryMonitor.log_line in Hin;
      destruct Hin as [E|[E|[]]]; try discriminate E; congruence. }
  rewrite Hok, Hko. cbn [outcome final]. split; [reflexivity|].
  unfold BatteryMonitor.set_last_alert, BatteryMonitor.set_node_battery.
  cbn [BatteryMonitor.last_alert_time BatteryMonitor.node_batteries].
  split.
  - intros E. apply (f_equal BatteryMonitor.last_alert_time) in E.
    cbn [BatteryMonitor.last_alert_time] in E.
    rewrite E. apply lookup_insert_eq.
  - intros E. rewrite (insert_id _ _ _ E). reflexivity.
Qed.

(** The same for the auto-responder and the time of the last reply. *)
Lemma responder_failed_send_state
    (lower strip : string -> string) (cfg : AutoResponder.Config)
    (iface iface' : Interface) (now : Q) (p : Packet)
    (st : AutoResponder.State) (m : SendMeshMessage) :
  In (Sent m)
    (effects (AutoResponder.on_receive lower strip cfg iface now p st)) ->
  sendText_ok iface m = true ->
  sendText_ok iface' m = false ->
  outcome (AutoResponder.on_receive lower strip cfg iface' now p st) = Raised
  /\ (final (AutoResponder.on_receive lower strip cfg iface' now p st)
      = final (AutoResponder.on_receive lower strip cfg iface now p st)
      <-> AutoResponder.last_response_time st !! sender_of p = Some now).
Proof.
  destruct (AutoResponder.message_lower_of lower strip p) as [msg|] eqn:H.
  2:{ rewrite (responder_not_text _ _ _ _ _ _ _ H). intros []. }
  rewrite !(responder_text _ _ _ _ _ _ _ _ H).
  destruct (Qlt_bool _ _); [intros []|].
  destruct (find _ _) as [item|]; [|intros []].
  rewrite replying_effects. intros [E|[]] Hok Hko. injection E as <-.
  unfold AutoResponder.replying. rewrite Hok, Hko. cbn [outcome final].
  split; [reflexivity|]. unfold AutoResponder.set_last_response. split.
  - intros E. apply (f_equal AutoResponder.last_response_time) in E.
    cbn [AutoResponder.last_response_time] in E.
    rewrite E. apply lookup_insert_eq.
  - intros E. rewrite (insert_id _ _ _ E). destruct st. reflexivity.
Qed.

(** C2, amended. Whenever a handler sends an alert or a reply, the
    sender's timestamp ([last_alert_time] or [last_response_time]) is
    written after [sendText] has returned: if the send returns, the handler
    returns and the timestamp of the sender is the time of the event; if the
    send raises, the handler raises with it and the timestamps are what they
    were before the event.  So, for the same packet, state and time, the
    state after a failing send is the state after a successful one only in
    the case that the sender's timestamp already was the time of the event,
    and differs from it in every other case. *)
Theorem timestamp_written_after_send
    (bcfg : BatteryMonitor.Config) (rcfg : AutoResponder.Config)
    (lower strip : string -> string) (iface : Interface) (now : Q)
    (ts : string) (p : Packet) (m : SendMeshMessage)
    (bst : BatteryMonitor.State) (rst : AutoResponder.State) :
  let battery_run := BatteryMonitor.on_receive bcfg iface now ts p bst in
  let responder_run := AutoResponder.on_receive lower strip rcfg iface now p rst in
  (In (Sent m) (effects battery_run) ->
     if sendText_ok iface m
     then outcome battery_run = Returned tt
          /\ BatteryMonitor.last_alert_time (final battery_run)
             = <[sender_of p := now]> (BatteryMonitor.last_alert_time bst)
     else outcome battery_run = Raised
          /\ BatteryMonitor.last_alert_time (final battery_run)
             = BatteryMonitor.last_alert_time bst)
  /\ (In (Sent m) (effects responder_run) ->
     if sendText_ok iface m
     then outcome responder_run = Returned tt
          /\ AutoResponder.last_response_time (final responder_run)
             = <[sender_of p := now]> (AutoResponder.last_response_time rst)
     else outcome responder_run = Raised
          /\ AutoResponder.last_response_time (final responder_run)
             = AutoResponder.last_response_time rst)
  (* a device that takes the message against one that refuses it *)
  /\ (forall refusing : Interface,
        nodes refusing = nodes iface ->
        In (Sent m) (effects battery_run) ->
        sendText_ok iface m = true ->
        sendText_ok refusing m = false ->
        let failed := BatteryMonitor.on_receive bcfg refusing now ts p bst in
        outcome failed = Raised
        /\ (final failed = final battery_run
            <-> BatteryMonitor.last_alert_time bst !! sender_of p = Some now)
        /\ (final failed <> final battery_run
            <-> BatteryMonitor.last_alert_time bst !! sender_of p <> Some now))
  /\ (forall refusing : Interface,
        In (Sent m) (effects responder_run) ->
        sendText_ok iface m = true ->
        sendText_ok refusing m = false ->
        let failed :=
          AutoResponder.on_receive lower strip rcfg refusing now p rst in
        outcome failed = Raised
        /\ (final failed = final responder_run
            <-> AutoResponder.last_response_time rst !! sender_of p = Some now)
        /\ (final failed <> final responder_run
            <-> AutoResponder.last_response_time rst !! sender_of p
                <> Some now)).
Proof.
  intros battery_run responder_run.
  split; [|split; [|split]].
  - intros Hin. apply battery_send_then_stamp, Hin.
  - intros Hin.
    pose proof (responder_send_then_stamp _ _ _ _ _ _ _ _ Hin) as H.
    destruct (sendText_ok iface m); destruct H as [Ho Hf];
      (split; [exact Ho|]); [exact Hf|].
    fold responder_run in Hf. rewrite Hf. reflexivity.
  - intros refusing Hnodes Hin Hok Hko failed.
    destruct (battery_failed_send_state bcfg iface refusing now ts p bst m
                Hnodes Hin Hok Hko) as [Hr Hiff].
    fold failed battery_run in Hr, Hiff.
    split; [exact Hr|]. split; [exact Hiff|].
    rewrite Hiff. reflexivity.
  - intros refusing Hin Hok Hko failed.
    destruct (responder_failed_send_state lower strip rcfg iface refusing now
                p rst m Hin Hok Hko) as [Hr Hiff].
    fold failed responder_run in Hr, Hiff.
    split; [exact Hr|]. split; [exact Hiff|].
    rewrite Hiff. reflexivity.
Qed.

(** A reading of 15 from "!a" with no alert so far: the refusing device
    leaves no alert time, and a state other than the one the accepting
    device leaves. *)
Lemma timestamp_written_after_send_sample :
  let p := Samples.battery_packet "!a" 15 in
  let sent :=
    BatteryMonitor.on_receive BatteryMonitor.shipped Samples.accepting 5000
      "12:00:00" p BatteryMonitor.initial in
  let failed :=
    BatteryMonitor.on_receive BatteryMonitor.shipped Samples.failing 5000
      "12:00:00" p BatteryMonitor.initial in
  In (Sent (BatteryMonitor.alert Samples.failing p 15)) (effects failed)
  /\ outcome failed = Raised
  /\ BatteryMonitor.last_alert_time (final failed) = ∅
  /\ final failed <> final sent.
Proof.
  intros p sent failed.
  assert (Hin : In (Sent (BatteryMonitor.alert Samples.failing p 15))
                  (effects failed)) by (right; left; reflexivity).
  split; [exact Hin|].
  destruct (timestamp_written_after_send BatteryMonitor.shipped
              AutoResponder.shipped Py.ascii_lower Py.ascii_strip
              Samples.failing 5000 "12:00:00" p
              (BatteryMonitor.alert Samples.failing p 15)
              BatteryMonitor.initial AutoResponder.initial)
    as (Hfail & _ & _ & _).
  destruct (Hfail Hin) as [Ho Hf].
  split; [exact Ho|]. split; [exact Hf|].
  destruct (timestamp_written_after_send BatteryMonitor.shipped
              AutoResponder.shipped Py.ascii_lower Py.ascii_strip
              Samples.accepting 5000 "12:00:00" p
              (BatteryMonitor.alert Samples.accepting p 15)
              BatteryMonitor.initial AutoResponder.initial)
    as (_ & _ & Hdiff & _).
  destruct (Hdiff Samples.failing) as (_ & _ & Hne).
  - reflexivity.
  - right. left. reflexivity.
  - reflexivity.
  - reflexivity.
  - apply Hne. vm_compute. discriminate.
Defined.

(** ** The cooldown of the temperature alert *)

(** C1 does not hold of temperature_alert.py: node "!a" reports 0 degrees
    Celsius at time 5000 and the low alert goes out; node "!b", which has
    never had an alert and whose report would send one on its own, reports
    the same 10 seconds later and nothing is sent. *)
Lemma temperature_alert_of_a_silences_b :
  let h :=
    TemperatureAlert.on_receive Py.format_fixed TemperatureAlert.shipped
      Samples.accepting in
  let from_a := h 5000%Q (Samples.temperature_packet "!a" 0) in
  let from_b := h 5010%Q (Samples.temperature_packet "!b" 0) in
  "!a" <> "!b"
  /\ (5010 - 5000 < TemperatureAlert.ALERT_COOLDOWN TemperatureAlert.shipped)%Q
  /\ map text (sends (effects (from_a TemperatureAlert.initial)))
     = ["LOW TEMP ALERT: 32.0°F (below 40°F)"]
  /\ map text (sends (effects (from_b TemperatureAlert.initial)))
     = ["LOW TEMP ALERT: 32.0°F (below 40°F)"]
  /\ sends (effects (from_b (final (from_a TemperatureAlert.initial)))) = [].
Proof.
  cbv zeta. repeat split; try discriminate; vm_compute; reflexivity.
Qed.

(** C1, amended. The cooldown of the temperature alert is one timestamp
    for the whole mesh: once an alert has been sent at time [t] for a packet
    of any node, a packet of any node (the same or another) that arrives at
    a time [t'] with [t' - t] below the cooldown sends nothing and changes
    nothing; and the handler's run does not depend on who the sender is. *)
Theorem temperature_cooldown_is_global
    (format_float : nat -> Q -> string) (cfg : TemperatureAlert.Config)
    (iface : Interface) (t t' : Q) (pa pb : Packet)
    (st : TemperatureAlert.State) (m : SendMeshMessage) :
  let h := TemperatureAlert.on_receive format_float cfg iface in
  In (Sent m) (effects (h t pa st)) ->
  sendText_ok iface m = true ->
  (t' - t < TemperatureAlert.ALERT_COOLDOWN cfg)%Q ->
  h t' pb (final (h t pa st))
  = MkRun (Returned tt) {| TemperatureAlert.last_alert_time := t |} []
  /\ forall d a b s,
       h t' {| decoded := d; fromId := a |} s
       = h t' {| decoded := d; fromId := b |} s.
Proof.
  intros h Hin Hok Hlt. subst h. split; [|reflexivity].
  pose proof (temperature_sent_stamp _ _ _ _ _ _ _ Hin) as H.
  rewrite Hok in H. destruct H as [_ ->].
  apply temperature_cooldown. exact Hlt.
Qed.

Lemma temperature_cooldown_is_global_sample :
  let h :=
    TemperatureAlert.on_receive Py.format_fixed TemperatureAlert.shipped
      Samples.accepting in
  h 5010%Q (Samples.temperature_packet "!b" 0)
    (final (h 5000%Q (Samples.temperature_packet "!a" 0)
              TemperatureAlert.initial))
  = MkRun (Returned tt) {| TemperatureAlert.last_alert_time := 5000 |} [].
Proof.
  intros h.
  refine (proj1 (temperature_cooldown_is_global Py.format_fixed
                   TemperatureAlert.shipped Samples.accepting 5000 5010
                   (Samples.temperature_packet "!a" 0)
                   (Samples.temperature_packet "!b" 0)
                   TemperatureAlert.initial
                   (TemperatureAlert.low_message Py.format_fixed
                      TemperatureAlert.shipped 0) _ _ _)).
  - left. vm_compute. reflexivity.
  - reflexivity.
  - vm_compute. reflexivity.
Defined.

(** ** One action per event *)

(** C3. A handled event gives at most one outbound action: the
    auto-responder and the temperature alert perform at most one effect per
    packet, the position tracker at most one, and the battery monitor sends
    at most one mesh message (next to the line it logs).  For a text
    message outside the sender's cooldown, the first item of [RESPONSES], in
    the order written, whose lower-cased keyword occurs in the lower-cased,
    stripped message gives the one reply, addressed to the sender, whatever
    items follow it.  For a temperature that is below the low threshold and
    above the high one, outside the cooldown, the low test comes first and
    only the low alert is sent. *)
Theorem one_action_first_match :
  (forall lower strip cfg iface now p st,
     (length (effects (AutoResponder.on_receive lower strip cfg iface now p st))
      <= 1)%nat)
  /\ (forall fmt cfg iface now p st,
        (length (effects (TemperatureAlert.on_receive fmt cfg iface now p st))
         <= 1)%nat)
  /\ (forall iface ts p,
        (length (effects (PositionTracker.on_receive iface ts p tt)) <= 1)%nat)
  /\ (forall cfg iface now ts p st,
        (length (sends (effects (BatteryMonitor.on_receive cfg iface now ts p st)))
         <= 1)%nat)
  /\ (forall lower strip cfg iface now p st msg before keyword response after,
        AutoResponder.message_lower_of lower strip p = Some msg ->
        AutoResponder.RESPONSES cfg
        = (before ++ (keyword, response) :: after)%list ->
        Forall (fun item => Py.contains (lower (fst item)) msg = false) before ->
        Py.contains (lower keyword) msg = true ->
        (AutoResponder.RESPONSE_COOLDOWN cfg
         <= now - AutoResponder.last_response_at st (sender_of p))%Q ->
        effects (AutoResponder.on_receive lower strip cfg iface now p st)
        = [Sent {| text := response;
                   destinationId := Some (sender_of p);
                   channelIndex := None |}])
  /\ (forall fmt cfg iface now p st c,
        TemperatureAlert.reading p = Some c ->
        (TemperatureAlert.ALERT_COOLDOWN cfg
         <= now - TemperatureAlert.last_alert_time st)%Q ->
        (TemperatureAlert.temp_of cfg c < TemperatureAlert.low_threshold cfg)%Q ->
        (TemperatureAlert.high_threshold cfg < TemperatureAlert.temp_of cfg c)%Q ->
        effects (TemperatureAlert.on_receive fmt cfg iface now p st)
        = [Sent (TemperatureAlert.low_message fmt cfg c)]).
Proof.
  repeat apply conj.
  - intros. apply responder_effects_le_1.
  - intros. apply temperature_effects_le_1.
  - intros iface ts p.
    destruct (PositionTracker.position_of p) as [pos|] eqn:H.
    + rewrite (position_packet _ _ _ _ H).
      destruct (Py.or_ _ _); [destruct (Py.or_ _ _)|]; cbn; lia.
    + rewrite (position_not_position _ _ _ H). cbn. lia.
  - intros cfg iface now ts p st.
    destruct (BatteryMonitor.reading p) as [v|] eqn:H.
    + rewrite (battery_sends _ _ _ _ _ _ _ H).
      destruct (_ && _); cbn; lia.
    + rewrite (battery_no_reading _ _ _ _ _ _ H). cbn. lia.
  - intros lower strip cfg iface now p st msg before keyword response after
      Hmsg Hcfg Hbefore Hmatch Hcd.
    apply (responder_first_match lower strip cfg iface now p st msg before
             keyword response after Hmsg Hcfg Hbefore Hmatch Hcd).
  - intros fmt cfg iface now p st c H Hcd Hlow _.
    apply temperature_low_first; assumption.
Qed.

Lemma one_action_first_match_sample :
  effects (AutoResponder.on_receive Py.ascii_lower Py.ascii_strip
             AutoResponder.shipped Samples.accepting 5000
             (Samples.text_packet "!b" "Help: what is your STATUS?")
             AutoResponder.initial)
  = [Sent {| text := "AUTO-REPLY: Node is online and operational.";
             destinationId := Some "!b";
             channelIndex := None |}]
  /\ effects (TemperatureAlert.on_receive Py.format_fixed
                {| TemperatureAlert.LOW_TEMP_THRESHOLD := 90;
                   TemperatureAlert.HIGH_TEMP_THRESHOLD := 40;
                   TemperatureAlert.ALERT_COOLDOWN := 1800;
                   TemperatureAlert.USE_CELSIUS := false |}
                Samples.accepting 5000
                (Samples.temperature_packet "!a" 20)
                TemperatureAlert.initial)
     = [Sent {| text := "LOW TEMP ALERT: 68.0°F (below 90°F)";
                destinationId := None;
                channelIndex := None |}].
Proof.
  destruct one_action_first_match as (_ & _ & _ & _ & Hfirst & Hlow).
  split.
  - apply (Hfirst Py.ascii_lower Py.ascii_strip AutoResponder.shipped
             Samples.accepting 5000%Q
             (Samples.text_packet "!b" "Help: what is your STATUS?")
             AutoResponder.initial "help: what is your status?" []
             "status" "AUTO-REPLY: Node is online and operational."
             [("help", "AUTO-REPLY: Available commands: status, help, info");
              ("info", "AUTO-REPLY: This is an automated Meshtastic node.");
              ("ping", "AUTO-REPLY: Pong!")]).
    + vm_compute. reflexivity.
    + reflexivity.
    + constructor.
    + vm_compute. reflexivity.
    + vm_compute. discriminate.
  - apply (Hlow Py.format_fixed
             {| TemperatureAlert.LOW_TEMP_THRESHOLD := 90;
                TemperatureAlert.HIGH_TEMP_THRESHOLD := 40;
                TemperatureAlert.ALERT_COOLDOWN := 1800;
                TemperatureAlert.USE_CELSIUS := false |}
             Samples.accepting 5000%Q (Samples.temperature_packet "!a" 20)
             TemperatureAlert.initial 20%Q).
    + reflexivity.
    + vm_compute. discriminate.
    + vm_compute. reflexivity.
    + vm_compute. reflexivity.
Defined.

(** ** Coordinates *)

Lemma scaled_zero (a : Z) : (inject_Z a / 10000000 == 0)%Q -> a = 0.
Proof.
  unfold Qeq, Qdiv, Qmult, Qinv, inject_Z. cbn. lia.
Qed.

(** C5 does not hold of position_tracker.py.  A node 0.00001 degrees north
    of the equator at 75 degrees west: delivered in fixed-point form its
    latitude is logged as the integer 100, delivered in decimal degrees as
    0.00001; and a float beyond 180 is left as it is, not divided. *)
Lemma small_fixed_point_kept_as_degrees :
  let fixed :=
    Samples.position_packet "!a" (Samples.fixed_point 100 (-750000000)) in
  let decimal :=
    Samples.position_packet "!a"
      (Samples.decimal_degrees (1 # 100000) (-75)) in
  exists lat_fixed lon_fixed lat_decimal lon_decimal,
    map PositionTracker.logged_coordinates
      (effects (PositionTracker.on_receive Samples.accepting "12:00:00" fixed tt))
    = [Some (lat_fixed, lon_fixed)]
    /\ map PositionTracker.logged_coordinates
         (effects (PositionTracker.on_receive Samples.accepting "12:00:00"
                     decimal tt))
       = [Some (lat_decimal, lon_decimal)]
    /\ lat_fixed = Py.NInt 100
    /\ lat_decimal = Py.NFloat (1 # 100000)
    /\ ~ (Py.to_Q lat_fixed == Py.to_Q lat_decimal)%Q
    /\ (Qabs 200.5 > 180)%Q
    /\ PositionTracker.from_integer_format (Py.NFloat 200.5) = Py.NFloat 200.5
    /\ ~ (200.5 == 200.5 / 10000000)%Q.
Proof.
  cbv zeta.
  exists (Py.NInt 100), (Py.NFloat (inject_Z (-750000000) / 10000000)),
    (Py.NFloat (1 # 100000)), (Py.NFloat (-75)).
  repeat split; try reflexivity; vm_compute; discriminate.
Qed.

(** C5, amended. A coordinate is divided by 1e7 exactly when it is an
    [int] of magnitude above 180; a [float] of any magnitude and an [int]
    of magnitude at most 180 are logged as they come.  So a position
    delivered by fixed-point fields that are both beyond 180 in magnitude,
    and the same position delivered in decimal degrees, are logged with the
    same latitude and longitude. *)
Theorem rescaling_of_int_beyond_180 :
  (forall z,
     PositionTracker.from_integer_format (Py.NInt z)
     = if 180 <? Z.abs z then Py.NFloat (inject_Z z / 10000000)
       else Py.NInt z)
  /\ (forall q,
        PositionTracker.from_integer_format (Py.NFloat q) = Py.NFloat q)
  /\ (forall iface ts pf pd posf posd a b qa qb,
        PositionTracker.position_of pf = Some posf ->
        PositionTracker.position_of pd = Some posd ->
        latitude posf = None /\ latitudeI posf = Some (Py.NInt a) ->
        longitude posf = None /\ longitudeI posf = Some (Py.NInt b) ->
        180 < Z.abs a -> 180 < Z.abs b ->
        latitude posd = Some (Py.NFloat qa) ->
        longitude posd = Some (Py.NFloat qb) ->
        (qa == inject_Z a / 10000000)%Q ->
        (qb == inject_Z b / 10000000)%Q ->
        exists lat lon lat' lon',
          map PositionTracker.logged_coordinates
            (effects (PositionTracker.on_receive iface ts pf tt))
          = [Some (Py.NFloat lat, Py.NFloat lon)]
          /\ map PositionTracker.logged_coordinates
               (effects (PositionTracker.on_receive iface ts pd tt))
             = [Some (Py.NFloat lat', Py.NFloat lon')]
          /\ (lat == lat')%Q /\ (lon == lon')%Q).
Proof.
  split; [apply from_integer_format_int|].
  split; [reflexivity|].
  intros iface ts pf pd posf posd a b qa qb Hpf Hpd [Hf1 Hf2] [Hf3 Hf4]
    Ha Hb Hd1 Hd2 Hqa Hqb.
  assert (Hta : Py.truthy (Py.NFloat qa) = true).
  { apply nonzero_truthy. cbn [Py.to_Q]. rewrite Hqa. intros E.
    apply scaled_zero in E. lia. }
  assert (Htb : Py.truthy (Py.NFloat qb) = true).
  { apply nonzero_truthy. cbn [Py.to_Q]. rewrite Hqb. intros E.
    apply scaled_zero in E. lia. }
  exists (inject_Z a / 10000000)%Q, (inject_Z b / 10000000)%Q, qa, qb.
  rewrite (position_packet _ _ _ _ Hpf), (position_packet _ _ _ _ Hpd).
  rewrite Hf1, Hf2, Hf3, Hf4, Hd1, Hd2.
  unfold Py.or_ at 3 4. rewrite Hta, Htb.
  cbn [Py.or_ effects map PositionTracker.log_line
         PositionTracker.logged_coordinates].
  rewrite !from_integer_format_int.
  apply Z.ltb_lt in Ha, Hb. rewrite Ha, Hb.
  repeat split; symmetry; assumption.
Qed.

Lemma rescaling_of_int_beyond_180_sample :
  exists lat lon lat' lon',
    map PositionTracker.logged_coordinates
      (effects (PositionTracker.on_receive Samples.accepting "12:00:00"
                  (Samples.position_packet "!a"
                     (Samples.fixed_point 401234567 (-750000000))) tt))
    = [Some (Py.NFloat lat, Py.NFloat lon)]
    /\ map PositionTracker.logged_coordinates
         (effects (PositionTracker.on_receive Samples.accepting "12:00:00"
                     (Samples.position_packet "!a"
                        (Samples.decimal_degrees (401234567 # 10000000) (-75)))
                     tt))
       = [Some (Py.NFloat lat', Py.NFloat lon')]
    /\ (lat == lat')%Q /\ (lon == lon')%Q.
Proof.
  apply (proj2 (proj2 rescaling_of_int_beyond_180) Samples.accepting
           "12:00:00" _ _
           (Samples.fixed_point 401234567 (-750000000))
           (Samples.decimal_degrees (401234567 # 10000000) (-75))
           401234567 (-750000000) (401234567 # 10000000)%Q (-75)%Q).
  - reflexivity.
  - reflexivity.
  - split; reflexivity.
  - split; reflexivity.
  - vm_compute. reflexivity.
  - vm_compute. reflexivity.
  - reflexivity.
  - reflexivity.
  - vm_compute. reflexivity.
  - vm_compute. reflexivity.
Defined.

(** C10. A position packet whose latitude (or longitude) is present and
    equal to zero, with no fixed-point field behind it, is dropped: nothing
    is logged and the handler returns. *)
Theorem zero_coordinate_dropped
    (iface : Interface) (ts : string) (p : Packet) (pos : Position)
    (v : Py.num) :
  PositionTracker.position_of p = Some pos ->
  (latitude pos = Some v /\ latitudeI pos = None)
  \/ (longitude pos = Some v /\ longitudeI pos = None) ->
  (Py.to_Q v == 0)%Q ->
  PositionTracker.on_receive iface ts p tt = MkRun (Returned tt) tt [].
Proof.
  intros Hp Hzero Hv. rewrite (position_packet _ _ _ _ Hp).
  destruct Hzero as [[-> ->]|[-> ->]]; rewrite (or_zero_None _ Hv).
  - reflexivity.
  - destruct (Py.or_ _ _); reflexivity.
Qed.

Lemma zero_coordinate_dropped_on_equator :
  PositionTracker.on_receive Samples.accepting "12:00:00"
    (Samples.position_packet "!a" (Samples.decimal_degrees 0 (-75))) tt
  = MkRun (Returned tt) tt [].
Proof.
  apply (zero_coordinate_dropped Samples.accepting "12:00:00" _
           (Samples.decimal_degrees 0 (-75)) (Py.NFloat 0)).
  - reflexivity.
  - left. split; reflexivity.
  - reflexivity.
Defined.

(** ** Packets that carry nothing to act on, and exceptions *)

(** C8 does not hold of the handlers as a whole: a well-formed low-battery
    packet, handled while [interface.sendText] raises, makes
    [on_receive] raise. *)
Lemma failed_send_raises_out_of_handler :
  outcome (BatteryMonitor.on_receive BatteryMonitor.shipped Samples.failing
             5000 "12:00:00" (Samples.battery_packet "!a" 15)
             BatteryMonitor.initial)
  = Raised.
Proof. vm_compute. reflexivity. Qed.

(** C8, amended. Every handler gives a result for every packet, and the
    only exception that leaves a handler is the one of a [sendText] call it
    made for an alert or a reply.  A packet with no decoded section, a
    packet of another kind, a telemetry packet without the metric, and a
    position packet without a latitude or a longitude are dropped: no
    effect, no change of the globals, no exception, whatever the state of
    the device.  A text payload is decoded for every sequence of bytes:
    ASCII bytes as themselves, and a byte that cannot start a UTF-8 sequence
    as U+FFFD, the decoding then going on with the next byte; what comes out
    is well-formed text, which decoding once more leaves as it is. *)
Theorem handlers_drop_and_raise_only_from_send
    (bcfg : BatteryMonitor.Config) (tcfg : TemperatureAlert.Config)
    (rcfg : AutoResponder.Config)
    (fmt : nat -> Q -> string) (lower strip : string -> string)
    (iface : Interface) (now : Q) (ts : string) (p : Packet)
    (bst : BatteryMonitor.State) (tst : TemperatureAlert.State)
    (rst : AutoResponder.State) :
  let battery_run := BatteryMonitor.on_receive bcfg iface now ts p bst in
  let temperature_run := TemperatureAlert.on_receive fmt tcfg iface now p tst in
  let responder_run := AutoResponder.on_receive lower strip rcfg iface now p rst in
  let tracker_run := PositionTracker.on_receive iface ts p tt in
  (* the only exception is that of the send *)
  ((outcome battery_run = Raised ->
      exists m, In (Sent m) (effects battery_run) /\ sendText_ok iface m = false)
   /\ (outcome temperature_run = Raised ->
      exists m, In (Sent m) (effects temperature_run) /\ sendText_ok iface m = false)
   /\ (outcome responder_run = Raised ->
      exists m, In (Sent m) (effects responder_run) /\ sendText_ok iface m = false)
   /\ outcome tracker_run = Returned tt)
  (* no decoded section *)
  /\ (decoded p = None ->
      battery_run = MkRun (Returned tt) bst []
      /\ temperature_run = MkRun (Returned tt) tst []
      /\ responder_run = MkRun (Returned tt) rst []
      /\ tracker_run = MkRun (Returned tt) tt [])
  (* another kind of packet *)
  /\ (forall d,
        decoded p = Some d ->
        (portnum_is d "TELEMETRY_APP" = false ->
           battery_run = MkRun (Returned tt) bst []
           /\ temperature_run = MkRun (Returned tt) tst [])
        /\ (portnum_is d "TEXT_MESSAGE_APP" = false ->
           responder_run = MkRun (Returned tt) rst [])
        /\ (portnum_is d "POSITION_APP" = false ->
           tracker_run = MkRun (Returned tt) tt []))
  (* the metric is missing *)
  /\ (batteryLevel (BatteryMonitor.metrics p) = None ->
      battery_run = MkRun (Returned tt) bst [])
  /\ (TemperatureAlert.reading p = None ->
      temperature_run = MkRun (Returned tt) tst [])
  (* a coordinate is missing *)
  /\ (forall pos,
        PositionTracker.position_of p = Some pos ->
        (latitude pos = None /\ latitudeI pos = None)
        \/ (longitude pos = None /\ longitudeI pos = None) ->
        tracker_run = MkRun (Returned tt) tt [])
  (* decoding of text *)
  /\ (forall bs,
        Forall (fun b => (Byte.to_N b < 128)%N) bs ->
        Py.decode bs = string_of_list_byte bs)
  /\ (forall b rest,
        (128 <= Byte.to_N b < 194 \/ 245 <= Byte.to_N b)%N ->
        Py.decode_replace (b :: rest)
        = (Py.replacement ++ Py.decode_replace rest)%list)
  /\ (forall bs,
        Py.decode_replace (Py.decode_replace bs) = Py.decode_replace bs).
Proof.
  intros battery_run temperature_run responder_run tracker_run.
  assert (Hb : BatteryMonitor.reading p = None ->
               battery_run = MkRun (Returned tt) bst [])
    by apply battery_no_reading.
  assert (Ht : TemperatureAlert.reading p = None ->
               temperature_run = MkRun (Returned tt) tst [])
    by apply temperature_no_reading.
  assert (Hr : AutoResponder.message_lower_of lower strip p = None ->
               responder_run = MkRun (Returned tt) rst [])
    by apply responder_not_text.
  assert (Hp : PositionTracker.position_of p = None ->
               tracker_run = MkRun (Returned tt) tt [])
    by apply position_not_position.
  split; [|split; [|split; [|split; [|split; [|split; [|split; [|split]]]]]]].
  - repeat apply conj.
    + intros Hraised. subst battery_run.
      destruct (BatteryMonitor.reading p) as [v|] eqn:H.
      * rewrite (battery_reading _ _ _ _ _ _ _ H) in *. cbn zeta in *.
        destruct (_ && _); [|discriminate].
        destruct (sendText_ok iface _) eqn:Hs; [discriminate|].
        eexists. split; [right; left; reflexivity | exact Hs].
      * rewrite (battery_no_reading _ _ _ _ _ _ H) in Hraised. discriminate.
    + intros Hraised. subst temperature_run.
      destruct (TemperatureAlert.reading p) as [c|] eqn:H.
      * rewrite (temperature_reading _ _ _ _ _ _ _ H) in *.
        destruct (Qge_bool _ _); [|discriminate].
        unfold TemperatureAlert.alerting in *.
        destruct (Qlt_bool (TemperatureAlert.temp_of tcfg c) _);
          [|destruct (Qlt_bool _ (TemperatureAlert.temp_of tcfg c));
            [|discriminate]].
        all: destruct (sendText_ok iface _) eqn:Hs; [discriminate|].
        all: eexists; split; [left; reflexivity | exact Hs].
      * rewrite (temperature_no_reading _ _ _ _ _ _ H) in Hraised.
        discriminate.
    + intros Hraised. subst responder_run.
      destruct (AutoResponder.message_lower_of lower strip p) as [msg|] eqn:H.
      * rewrite (responder_text _ _ _ _ _ _ _ _ H) in *.
        destruct (Qlt_bool _ _); [discriminate|].
        destruct (find _ _); [|discriminate].
        unfold AutoResponder.replying in *.
        destruct (sendText_ok iface _) eqn:Hs; [discriminate|].
        eexists; split; [left; reflexivity | exact Hs].
      * rewrite (responder_not_text _ _ _ _ _ _ _ H) in Hraised.
        discriminate.
    + apply position_returns.
  - intros Hd. repeat apply conj; [apply Hb | apply Ht | apply Hr | apply Hp].
    all: unfold BatteryMonitor.reading, TemperatureAlert.reading,
           AutoResponder.message_lower_of, PositionTracker.position_of.
    all: rewrite Hd; reflexivity.
  - intros d Hd. repeat apply conj; intros Htag; [split|..].
    1: apply Hb. 2: apply Ht. 3: apply Hr. 4: apply Hp.
    all: unfold BatteryMonitor.reading, TemperatureAlert.reading,
           AutoResponder.message_lower_of, PositionTracker.position_of.
    all: rewrite Hd, Htag; reflexivity.
  - intros Hm. apply Hb. revert Hm.
    unfold BatteryMonitor.reading, BatteryMonitor.metrics.
    destruct (decoded p) as [d|]; [|reflexivity].
    destruct (portnum_is d "TELEMETRY_APP"); [tauto | reflexivity].
  - exact Ht.
  - intros pos Hpos Hmissing. subst tracker_run.
    rewrite (position_packet _ _ _ _ Hpos).
    destruct Hmissing as [[-> ->]|[-> ->]]; cbn [Py.or_].
    + reflexivity.
    + destruct (Py.or_ _ _); reflexivity.
  - intros bs Hbs. unfold Py.decode. rewrite decode_replace_ascii; auto.
  - apply decode_replace_invalid_start.
  - apply decode_replace_idempotent.
Qed.

Lemma handlers_drop_and_raise_only_from_send_sample :
  BatteryMonitor.on_receive BatteryMonitor.shipped Samples.failing 5000
    "12:00:00" (Samples.undecoded "!a") BatteryMonitor.initial
  = MkRun (Returned tt) BatteryMonitor.initial []
  /\ Py.decode_replace [xff; "?"%byte]
     = (Py.replacement ++ Py.decode_replace ["?"%byte])%list.
Proof.
  pose proof (handlers_drop_and_raise_only_from_send BatteryMonitor.shipped
                TemperatureAlert.shipped AutoResponder.shipped Py.format_fixed
                Py.ascii_lower Py.ascii_strip Samples.failing 5000 "12:00:00"
                (Samples.undecoded "!a") BatteryMonitor.initial
                TemperatureAlert.initial AutoResponder.initial)
    as (_ & Hnone & _ & _ & _ & _ & _ & Hbad & _).
  split.
  - apply Hnone. reflexivity.
  - apply (Hbad xff ["?"%byte]). right. vm_compute. discriminate.
Defined.

(** ** The scheduler *)

(** C9. [main] sends once at the start and then runs the loop with
    [last_send] set to the clock reading taken after that send.  A pass of
    the loop sends when the clock shows at least [interval_seconds] more
    than [last_send], and then exactly once, however many intervals have
    gone by, after which [last_send] is the reading taken after the send; a
    pass that comes earlier sends nothing.  So a pass that resumes after a
    long stall sends once, and the pass after it sends again only a full
    interval later: the passes that send are each at least an interval
    after the reading that followed the previous send.  Every send is a
    broadcast: no destination, on the configured channel; a send that
    raises is caught and [main] goes on. *)
Theorem scheduler_fires
    (cfg : ScheduledBroadcaster.Config) (iface : Interface)
    (start : ScheduledBroadcaster.Tick) (ticks : list ScheduledBroadcaster.Tick) :
  let loop := ScheduledBroadcaster.loop cfg iface in
  let main := ScheduledBroadcaster.main cfg iface in
  let interval := ScheduledBroadcaster.interval_seconds cfg in
  let sent tk :=
    Sent (ScheduledBroadcaster.broadcast cfg (ScheduledBroadcaster.wall_clock tk)) in
  (* at the start *)
  effects (main start ticks tt)
  = sent start
      :: effects (loop (ScheduledBroadcaster.resume_time start) ticks tt)
  /\ outcome (main start ticks tt) = Returned tt
  (* one pass of the loop *)
  /\ (forall last tk rest,
        (interval <= ScheduledBroadcaster.check_time tk - last)%Q ->
        effects (loop last (tk :: rest) tt)
        = sent tk
            :: effects (loop (ScheduledBroadcaster.resume_time tk) rest tt))
  /\ (forall last tk rest,
        (ScheduledBroadcaster.check_time tk - last < interval)%Q ->
        effects (loop last (tk :: rest) tt) = effects (loop last rest tt))
  (* a stall of any length, then a pass less than an interval later *)
  /\ (forall last tk tk',
        (interval <= ScheduledBroadcaster.check_time tk - last)%Q ->
        (ScheduledBroadcaster.check_time tk'
           - ScheduledBroadcaster.resume_time tk < interval)%Q ->
        effects (loop last [tk; tk'] tt) = [sent tk])
  (* the whole run *)
  /\ (forall last,
        effects (loop last ticks tt)
        = map sent (ScheduledBroadcaster.fired cfg last ticks)
        /\ ScheduledBroadcaster.spaced cfg last
             (ScheduledBroadcaster.fired cfg last ticks)
        /\ sublist (ScheduledBroadcaster.fired cfg last ticks) ticks)
  /\ Forall (fun e =>
               exists m, e = Sent m
                         /\ destinationId m = None
                         /\ channelIndex m
                            = Some (ScheduledBroadcaster.CHANNEL_INDEX cfg))
       (effects (main start ticks tt)).
Proof.
  intros loop main interval sent.
  assert (Hfire : forall last tk rest,
             (interval <= ScheduledBroadcaster.check_time tk - last)%Q ->
             effects (loop last (tk :: rest) tt)
             = sent tk
                 :: effects (loop (ScheduledBroadcaster.resume_time tk) rest tt)).
  { intros last tk rest H. subst loop. rewrite loop_cons.
    apply Qge_bool_iff in H. fold interval. rewrite H. reflexivity. }
  assert (Hskip : forall last tk rest,
             (ScheduledBroadcaster.check_time tk - last < interval)%Q ->
             effects (loop last (tk :: rest) tt) = effects (loop last rest tt)).
  { intros last tk rest H. subst loop. rewrite loop_cons.
    apply Qge_bool_false in H. fold interval. rewrite H. reflexivity. }
  repeat apply conj.
  - subst main loop. rewrite main_run, loop_run. reflexivity.
  - subst main. rewrite main_run. reflexivity.
  - exact Hfire.
  - exact Hskip.
  - intros last tk tk' H H'. rewrite (Hfire _ _ _ H), (Hskip _ _ _ H').
    reflexivity.
  - intros last. repeat apply conj.
    + subst loop. rewrite loop_run. reflexivity.
    + apply fired_spaced.
    + apply fired_sublist.
  - subst main. rewrite main_run. cbn [effects].
    constructor; [eexists; repeat split|].
    induction (ScheduledBroadcaster.fired cfg _ ticks) as [|tk l IH];
      cbn [map]; constructor; [eexists; repeat split | exact IH].
Qed.

(** A one-second interval: a send at the start, none half a second later,
    one when a second has passed, none just after. *)
Lemma scheduler_fires_every_second :
  let cfg :=
    {| ScheduledBroadcaster.INTERVAL_MINUTES := 1 # 60;
       ScheduledBroadcaster.MESSAGE := fun t => "Automated check-in at " ++ t;
       ScheduledBroadcaster.CHANNEL_INDEX := 0 |} in
  let tick check clock resume :=
    {| ScheduledBroadcaster.check_time := check;
       ScheduledBroadcaster.wall_clock := clock;
       ScheduledBroadcaster.resume_time := resume |} in
  effects (ScheduledBroadcaster.loop cfg Samples.accepting 0
             [tick (1 # 2)%Q "12:00" (1 # 2)%Q;
              tick 1%Q "12:00" 1%Q;
              tick (3 # 2)%Q "12:00" (3 # 2)%Q] tt)
  = [Sent {| text := "Automated check-in at 12:00";
             destinationId := None;
             channelIndex := Some 0 |}].
Proof.
  intros cfg tick.
  destruct (scheduler_fires cfg Samples.accepting (tick 0%Q "12:00" 0%Q) [])
    as (_ & _ & Hfire & Hskip & Hstall & _).
  rewrite Hskip by (vm_compute; reflexivity).
  apply Hstall; vm_compute; [discriminate | reflexivity].
Defined.

(** * Further properties of the scripts *)

(** ** Strings and log files *)

Lemma string_app_assoc (a b c : string) : (a ++ b) ++ c = a ++ b ++ c.
Proof.
  induction a as [|x a IH]; [reflexivity|].
  change (String x ((a ++ b) ++ c) = String x (a ++ b ++ c)).
  rewrite IH. reflexivity.
Qed.

Lemma string_app_nil_r (a : string) : a ++ "" = a.
Proof.
  induction a as [|x a IH]; [reflexivity|].
  change (String x (a ++ "") = String x a). rewrite IH. reflexivity.
Qed.

Lemma log_records_app (es es' : list Effect) :
  log_records (es ++ es') = (log_records es ++ log_records es')%list.
Proof.
  induction es as [|[m|f r] es IH]; cbn; [reflexivity | exact IH |].
  unfold log_records in IH. rewrite IH. reflexivity.
Qed.

Lemma perform_all_app fs (es es' : list Effect) :
  Files.perform_all fs (es ++ es')
  = Files.perform_all (Files.perform_all fs es) es'.
Proof. unfold Files.perform_all. apply fold_left_app. Qed.

(** Writing to a file that exists appends the rows, in order, to what it
    holds. *)
Lemma perform_all_rows file (es : list Effect) :
  Forall (fun e => match e with Logged f _ => f = file | Sent _ => True end) es ->
  forall fs held,
    fs !! file = Some held ->
    Files.perform_all fs es !! file
    = Some (held ++ map (fun fr => Files.Row (snd fr)) (log_records es))%list.
Proof.
  unfold Files.perform_all.
  induction 1 as [|[m|f r] es He _ IH]; intros fs held Hheld.
  - cbn. rewrite app_nil_r. exact Hheld.
  - cbn. apply IH, Hheld.
  - subst f. cbn.
    rewrite (IH _ (held ++ [Files.Row r])%list).
    + rewrite <- app_assoc. reflexivity.
    + unfold Files.append_row. rewrite lookup_insert_eq, Hheld. reflexivity.
Qed.

(** ** battery_monitor.py, continued *)

(** Whatever the handler logs goes to [LOG_FILE]. *)
Lemma battery_effects_to_log cfg iface now ts p st :
  Forall (fun e => match e with
                   | Logged f _ => f = BatteryMonitor.LOG_FILE cfg
                   | Sent _ => True
                   end)
    (effects (BatteryMonitor.on_receive cfg iface now ts p st)).
Proof.
  destruct (BatteryMonitor.reading p) as [v|] eqn:H.
  - rewrite (battery_reading _ _ _ _ _ _ _ H). cbn zeta.
    destruct (_ && _); [destruct (sendText_ok _ _)|];
      repeat constructor.
  - rewrite (battery_no_reading _ _ _ _ _ _ H). constructor.
Qed.

Lemma battery_log_records cfg iface now ts p st :
  log_records (effects (BatteryMonitor.on_receive cfg iface now ts p st))
  = match BatteryMonitor.reading p with
    | Some v =>
        [(BatteryMonitor.LOG_FILE cfg,
          BatteryRecord ts (sender_of p) (get_node_name iface (sender_of p)) v
            (BatteryMonitor.voltage_or_empty
               (voltage (BatteryMonitor.metrics p))))]
    | None => []
    end.
Proof.
  destruct (BatteryMonitor.reading p) as [v|] eqn:H.
  - rewrite (battery_reading _ _ _ _ _ _ _ H). cbn zeta.
    destruct (_ && _); [destruct (sendText_ok _ _)|]; reflexivity.
  - rewrite (battery_no_reading _ _ _ _ _ _ H). reflexivity.
Qed.

(** Every packet that carries a battery level gets one line in the log,
    whether the level is low or not, whether the sender's cooldown runs or
    not, and whether the send of the alert returns or raises; a packet
    without a battery level gets none.  The voltage column is empty exactly
    when the packet has no voltage or a voltage of zero. *)
Theorem battery_logs_every_reading
    (cfg : BatteryMonitor.Config) (iface : Interface) (now : Q) (ts : string)
    (p : Packet) (st : BatteryMonitor.State) :
  log_records (effects (BatteryMonitor.on_receive cfg iface now ts p st))
  = match BatteryMonitor.reading p with
    | Some v =>
        [(BatteryMonitor.LOG_FILE cfg,
          BatteryRecord ts (sender_of p) (get_node_name iface (sender_of p)) v
            (BatteryMonitor.voltage_or_empty
               (voltage (BatteryMonitor.metrics p))))]
    | None => []
    end
  /\ forall volts : option Q,
       BatteryMonitor.voltage_or_empty volts = None
       <-> volts = None \/ exists q, volts = Some q /\ (q == 0)%Q.
Proof.
  split; [apply battery_log_records|].
  intros [q|]; cbn.
  - destruct (Qeq_bool q 0) eqn:E.
    + split; [|reflexivity]. intros _. right. exists q.
      split; [reflexivity | apply Qeq_bool_iff, E].
    + split; [discriminate|]. intros [H|(q' & [= <-] & Hq)]; [discriminate|].
      apply Qeq_bool_iff in Hq. congruence.
  - split; [left; reflexivity | reflexivity].
Qed.

(** The globals are kept per node: handling a packet of one sender leaves
    the stored battery level and the alert time of every other node as they
    were. *)
Theorem battery_state_is_per_node
    (cfg : BatteryMonitor.Config) (iface : Interface) (now : Q) (ts : string)
    (p : Packet) (st : BatteryMonitor.State) (n : string) :
  sender_of p <> n ->
  BatteryMonitor.node_batteries
    (final (BatteryMonitor.on_receive cfg iface now ts p st)) !! n
  = BatteryMonitor.node_batteries st !! n
  /\ BatteryMonitor.last_alert_time
       (final (BatteryMonitor.on_receive cfg iface now ts p st)) !! n
     = BatteryMonitor.last_alert_time st !! n.
Proof.
  intros Hne. split; [|apply battery_other_sender, Hne].
  destruct (BatteryMonitor.reading p) as [v|] eqn:H.
  - rewrite (battery_reading _ _ _ _ _ _ _ H). cbn zeta.
    destruct (_ && _); [destruct (sendText_ok _ _)|]; cbn;
      apply lookup_insert_ne, Hne.
  - rewrite (battery_no_reading _ _ _ _ _ _ H). reflexivity.
Qed.

Lemma battery_state_is_per_node_sample :
  let r :=
    BatteryMonitor.on_receive BatteryMonitor.shipped Samples.accepting 9000
      "12:00:00" (Samples.battery_packet "!b" 10)
      (final (BatteryMonitor.on_receive BatteryMonitor.shipped
                Samples.accepting 5000 "11:00:00"
                (Samples.battery_packet "!a" 15) BatteryMonitor.initial)) in
  BatteryMonitor.node_batteries (final r) !! "!a" = Some 15
  /\ BatteryMonitor.last_alert_time (final r) !! "!a" = Some 5000%Q.
Proof.
  intros r.
  destruct (battery_state_is_per_node BatteryMonitor.shipped Samples.accepting
              9000 "12:00:00" (Samples.battery_packet "!b" 10)
              (final (BatteryMonitor.on_receive BatteryMonitor.shipped
                        Samples.accepting 5000 "11:00:00"
                        (Samples.battery_packet "!a" 15)
                        BatteryMonitor.initial)) "!a") as [Hb Ha].
  - discriminate.
  - subst r. rewrite Hb, Ha. split; vm_compute; reflexivity.
Defined.

(** One call keeps the nodes with an alert time among the nodes with a
    stored level. *)
Lemma battery_known_step cfg iface now ts p st :
  dom (BatteryMonitor.last_alert_time st)
    ⊆ dom (BatteryMonitor.node_batteries st) ->
  dom (BatteryMonitor.last_alert_time
         (final (BatteryMonitor.on_receive cfg iface now ts p st)))
    ⊆ dom (BatteryMonitor.node_batteries
             (final (BatteryMonitor.on_receive cfg iface now ts p st))).
Proof.
  intros Hdom. destruct (BatteryMonitor.reading p) as [v|] eqn:H.
  - rewrite (battery_reading _ _ _ _ _ _ _ H). cbn zeta.
    destruct (_ && _); [destruct (sendText_ok _ _)|]; cbn;
      rewrite ?dom_insert_L; intros n Hn;
      repeat (apply elem_of_union in Hn as [Hn|Hn]);
      try (apply elem_of_union; left; exact Hn);
      apply elem_of_union; right; apply Hdom, Hn.
  - rewrite (battery_no_reading _ _ _ _ _ _ H). exact Hdom.
Qed.

(** Every node that has an alert time also has a stored battery level: the
    handler keeps this through any run of deliveries, whatever the packets
    and whether sends return or raise. *)
Theorem battery_alerted_nodes_have_levels
    (cfg : BatteryMonitor.Config) (iface : Interface)
    (ds : list BatteryMonitor.Delivery) (st : BatteryMonitor.State) :
  dom (BatteryMonitor.last_alert_time st)
    ⊆ dom (BatteryMonitor.node_batteries st) ->
  Forall (fun r =>
            forall n,
              is_Some (BatteryMonitor.last_alert_time (final r) !! n) ->
              is_Some (BatteryMonitor.node_batteries (final r) !! n))
    (BatteryMonitor.deliver cfg iface ds st).
Proof.
  revert st. induction ds as [|d ds IH]; intros st Hdom;
    cbn [BatteryMonitor.deliver]; constructor.
  - intros n Hn. apply elem_of_dom. apply elem_of_dom in Hn.
    revert n Hn. apply battery_known_step, Hdom.
  - apply IH, battery_known_step, Hdom.
Qed.

Lemma battery_alerted_nodes_have_levels_sample :
  Forall (fun r =>
            forall n,
              is_Some (BatteryMonitor.last_alert_time (final r) !! n) ->
              is_Some (BatteryMonitor.node_batteries (final r) !! n))
    (BatteryMonitor.deliver BatteryMonitor.shipped Samples.accepting
       [ {| BatteryMonitor.at_time := 5000; BatteryMonitor.stamp := "12:00:00";
            BatteryMonitor.packet := Samples.battery_packet "!a" 15 |} ]
       BatteryMonitor.initial).
Proof.
  apply (battery_alerted_nodes_have_levels BatteryMonitor.shipped
           Samples.accepting _ BatteryMonitor.initial).
  cbn. set_solver.
Defined.

(** The cooldown test is [>=]: for a low reading of a node whose last alert
    was at [t0], the alert is sent exactly when at least [ALERT_COOLDOWN]
    seconds lie between [t0] and the reading, the boundary included. *)
Theorem battery_cooldown_boundary
    (cfg : BatteryMonitor.Config) (iface : Interface) (now : Q) (ts : string)
    (p : Packet) (st : BatteryMonitor.State) (v : Z) (t0 : Q) :
  BatteryMonitor.reading p = Some v ->
  v <= BatteryMonitor.LOW_BATTERY_THRESHOLD cfg ->
  BatteryMonitor.last_alert_time st !! sender_of p = Some t0 ->
  (sends (effects (BatteryMonitor.on_receive cfg iface now ts p st))
   = [BatteryMonitor.alert iface p v]
   <-> (t0 + BatteryMonitor.ALERT_COOLDOWN cfg <= now)%Q)
  /\ (sends (effects (BatteryMonitor.on_receive cfg iface now ts p st)) = []
      <-> (now < t0 + BatteryMonitor.ALERT_COOLDOWN cfg)%Q).
Proof.
  intros H Hlow Ht0. rewrite (battery_sends _ _ _ _ _ _ _ H).
  apply Z.leb_le in Hlow. rewrite Hlow. cbn [andb].
  unfold BatteryMonitor.last_alert_at. rewrite Ht0. cbn.
  destruct (Qge_bool (now - t0) (BatteryMonitor.ALERT_COOLDOWN cfg)) eqn:E.
  - apply Qge_bool_iff in E.
    split; split; intros H'; try reflexivity; try discriminate; lra.
  - apply Qge_bool_false in E.
    split; split; intros H'; try reflexivity; try discriminate; lra.
Qed.

Lemma battery_cooldown_boundary_sample :
  let st :=
    final (BatteryMonitor.on_receive BatteryMonitor.shipped Samples.accepting
             5000 "11:00:00" (Samples.battery_packet "!a" 15)
             BatteryMonitor.initial) in
  sends (effects (BatteryMonitor.on_receive BatteryMonitor.shipped
                    Samples.accepting 8600 "12:00:00"
                    (Samples.battery_packet "!a" 14) st))
  = [BatteryMonitor.alert Samples.accepting (Samples.battery_packet "!a" 14) 14].
Proof.
  intros st.
  apply (battery_cooldown_boundary BatteryMonitor.shipped Samples.accepting
           8600 "12:00:00" (Samples.battery_packet "!a" 14) st 14 5000).
  - reflexivity.
  - cbn. lia.
  - vm_compute. reflexivity.
  - vm_compute. discriminate.
Defined.

(** A send that raises does not start the cooldown.  With a device that
    refuses every message, each low reading that finds its sender's
    cooldown over in the starting state attempts the alert again, raises,
    and leaves the alert times as they were at the start. *)
Theorem battery_failed_send_retries
    (cfg : BatteryMonitor.Config) (iface : Interface)
    (ds : list BatteryMonitor.Delivery) (st : BatteryMonitor.State) :
  (forall m, sendText_ok iface m = false) ->
  Forall (fun d =>
            exists v,
              BatteryMonitor.reading (BatteryMonitor.packet d) = Some v
              /\ v <= BatteryMonitor.LOW_BATTERY_THRESHOLD cfg
              /\ (BatteryMonitor.ALERT_COOLDOWN cfg
                  <= BatteryMonitor.at_time d
                     - BatteryMonitor.last_alert_at st
                         (sender_of (BatteryMonitor.packet d)))%Q) ds ->
  Forall2 (fun d r =>
             (exists v,
                BatteryMonitor.reading (BatteryMonitor.packet d) = Some v
                /\ sends (effects r)
                   = [BatteryMonitor.alert iface (BatteryMonitor.packet d) v])
             /\ outcome r = Raised
             /\ BatteryMonitor.last_alert_time (final r)
                = BatteryMonitor.last_alert_time st)
    ds (BatteryMonitor.deliver cfg iface ds st).
Proof.
  intros Hfail Hds.
  assert (Hgen : forall s,
             BatteryMonitor.last_alert_time s = BatteryMonitor.last_alert_time st ->
             Forall2 (fun d r =>
                        (exists v,
                           BatteryMonitor.reading (BatteryMonitor.packet d) = Some v
                           /\ sends (effects r)
                              = [BatteryMonitor.alert iface
                                   (BatteryMonitor.packet d) v])
                        /\ outcome r = Raised
                        /\ BatteryMonitor.last_alert_time (final r)
                           = BatteryMonitor.last_alert_time st)
               ds (BatteryMonitor.deliver cfg iface ds s)).
  { induction Hds as [|d ds (v & Hv & Hlow & Hcd) _ IH]; intros s Hs;
      cbn [BatteryMonitor.deliver]; [constructor|].
    assert (Hrun : BatteryMonitor.on_receive cfg iface (BatteryMonitor.at_time d)
                     (BatteryMonitor.stamp d) (BatteryMonitor.packet d) s
                   = MkRun Raised
                       (BatteryMonitor.set_node_battery
                          (sender_of (BatteryMonitor.packet d)) v s)
                       [BatteryMonitor.log_line cfg iface (BatteryMonitor.stamp d)
                          (BatteryMonitor.packet d) v;
                        Sent (BatteryMonitor.alert iface
                                (BatteryMonitor.packet d) v)]).
    { rewrite (battery_reading _ _ _ _ _ _ _ Hv). cbn zeta.
      apply Z.leb_le in Hlow. apply Qge_bool_iff in Hcd.
      unfold BatteryMonitor.last_alert_at in *. rewrite Hs, Hlow, Hcd, Hfail.
      reflexivity. }
    rewrite Hrun. constructor.
    - split; [exists v; split; [exact Hv | reflexivity]|].
      split; [reflexivity | exact Hs].
    - apply IH. exact Hs. }
  apply Hgen. reflexivity.
Qed.

Lemma battery_failed_send_retries_sample :
  let at_ t ts p :=
    {| BatteryMonitor.at_time := t; BatteryMonitor.stamp := ts;
       BatteryMonitor.packet := p |} in
  Forall2 (fun d r =>
             (exists v,
                BatteryMonitor.reading (BatteryMonitor.packet d) = Some v
                /\ sends (effects r)
                   = [BatteryMonitor.alert Samples.failing
                        (BatteryMonitor.packet d) v])
             /\ outcome r = Raised
             /\ BatteryMonitor.last_alert_time (final r) = ∅)
    [ at_ 5000%Q "12:00:00" (Samples.battery_packet "!a" 15);
      at_ 5010%Q "12:00:10" (Samples.battery_packet "!a" 15) ]
    (BatteryMonitor.deliver BatteryMonitor.shipped Samples.failing
       [ at_ 5000%Q "12:00:00" (Samples.battery_packet "!a" 15);
         at_ 5010%Q "12:00:10" (Samples.battery_packet "!a" 15) ]
       BatteryMonitor.initial).
Proof.
  intros at_.
  apply (battery_failed_send_retries BatteryMonitor.shipped Samples.failing
           _ BatteryMonitor.initial).
  - reflexivity.
  - repeat constructor; exists 15;
      (split; [reflexivity | split; [cbn; lia | vm_compute; discriminate]]).
Defined.

(** The battery monitor sends nothing but low-battery broadcasts: whatever
    it sends goes to no particular destination and on no particular channel,
    is the alert for the level the packet carries, and that level is at or
    below the threshold and found the sender's cooldown over; the text ends
    with the level and a percent sign. *)
Theorem battery_sends_only_low_alerts
    (cfg : BatteryMonitor.Config) (iface : Interface) (now : Q) (ts : string)
    (p : Packet) (st : BatteryMonitor.State) (m : SendMeshMessage) :
  In (Sent m) (effects (BatteryMonitor.on_receive cfg iface now ts p st)) ->
  exists v,
    BatteryMonitor.reading p = Some v
    /\ v <= BatteryMonitor.LOW_BATTERY_THRESHOLD cfg
    /\ (BatteryMonitor.ALERT_COOLDOWN cfg
        <= now - BatteryMonitor.last_alert_at st (sender_of p))%Q
    /\ destinationId m = None /\ channelIndex m = None
    /\ exists before,
         text m = before ++ Py.str_of_int v ++ "%"
         /\ String.prefix "LOW BATTERY: " before = true.
Proof.
  destruct (BatteryMonitor.reading p) as [v|] eqn:H.
  - rewrite (battery_reading _ _ _ _ _ _ _ H). cbn zeta.
    destruct (v <=? BatteryMonitor.LOW_BATTERY_THRESHOLD cfg) eqn:Hlow;
      cbn [andb].
    + destruct (Qge_bool _ _) eqn:Hcd.
      * assert (Hm : In (Sent m)
                       [BatteryMonitor.log_line cfg iface ts p v;
                        Sent (BatteryMonitor.alert iface p v)] ->
                     m = BatteryMonitor.alert iface p v).
        { intros [E|[E|[]]]; [discriminate E | congruence]. }
        intros Hin.
        assert (m = BatteryMonitor.alert iface p v) as ->
          by (destruct (sendText_ok _ _); apply Hm, Hin).
        exists v. split; [reflexivity|].
        split; [apply Z.leb_le, Hlow|].
        split; [apply Qge_bool_iff, Hcd|].
        split; [reflexivity|]. split; [reflexivity|].
        exists ("LOW BATTERY: " ++ get_node_name iface (sender_of p) ++ " at ").
        split; [|apply prefix_app].
        cbn [text BatteryMonitor.alert]. unfold BatteryMonitor.alert_msg.
        rewrite !string_app_assoc. reflexivity.
      * intros [E|[]]. discriminate E.
    + intros [E|[]]. discriminate E.
  - rewrite (battery_no_reading _ _ _ _ _ _ H). intros [].
Qed.

Lemma battery_sends_only_low_alerts_sample :
  exists v,
    BatteryMonitor.reading (Samples.battery_packet "!a" 15) = Some v
    /\ v <= 20
    /\ (3600 <= 5000 - BatteryMonitor.last_alert_at BatteryMonitor.initial "!a")%Q
    /\ exists before,
         "LOW BATTERY: !a at 15%" = before ++ Py.str_of_int v ++ "%"
         /\ String.prefix "LOW BATTERY: " before = true.
Proof.
  destruct (battery_sends_only_low_alerts BatteryMonitor.shipped
              Samples.accepting 5000 "12:00:00"
              (Samples.battery_packet "!a" 15) BatteryMonitor.initial
              (BatteryMonitor.alert Samples.accepting
                 (Samples.battery_packet "!a" 15) 15))
    as (v & Hv & Hlow & Hcd & _ & _ & before & Htext & Hpre).
  - right. left. reflexivity.
  - exists v. repeat split; try assumption. exists before. split; assumption.
Defined.

(** ** Log files *)

(** Writing the header is safe to repeat: [ensure_log_header] and
    [ensure_csv_header] leave a file that exists exactly as it is (a log of
    an earlier run is neither cut nor given a second header), create the
    file with the one header line when it is missing, touch no other file,
    and change nothing when run a second time. *)
Theorem header_written_once
    (cfg : BatteryMonitor.Config) (fs : gmap string (list Files.Line)) :
  let battery_header :=
    Files.Header "timestamp,node_id,node_name,battery_percent,voltage" in
  let position_header :=
    Files.Header
      "timestamp,node_id,node_name,latitude,longitude,altitude,speed,heading" in
  (* battery_monitor.py *)
  (forall held,
     fs !! BatteryMonitor.LOG_FILE cfg = Some held ->
     BatteryMonitor.ensure_log_header cfg fs = fs)
  /\ (fs !! BatteryMonitor.LOG_FILE cfg = None ->
      BatteryMonitor.ensure_log_header cfg fs !! BatteryMonitor.LOG_FILE cfg
      = Some [battery_header])
  /\ (forall other,
        other <> BatteryMonitor.LOG_FILE cfg ->
        BatteryMonitor.ensure_log_header cfg fs !! other = fs !! other)
  /\ BatteryMonitor.ensure_log_header cfg
       (BatteryMonitor.ensure_log_header cfg fs)
     = BatteryMonitor.ensure_log_header cfg fs
  (* position_tracker.py *)
  /\ (forall held,
        fs !! PositionTracker.CSV_FILE = Some held ->
        PositionTracker.ensure_csv_header fs = fs)
  /\ (fs !! PositionTracker.CSV_FILE = None ->
      PositionTracker.ensure_csv_header fs !! PositionTracker.CSV_FILE
      = Some [position_header])
  /\ (forall other,
        other <> PositionTracker.CSV_FILE ->
        PositionTracker.ensure_csv_header fs !! other = fs !! other)
  /\ PositionTracker.ensure_csv_header (PositionTracker.ensure_csv_header fs)
     = PositionTracker.ensure_csv_header fs.
Proof.
  assert (Hgen : forall file columns,
             (forall held, fs !! file = Some held ->
                           Files.ensure_header file columns fs = fs)
             /\ (fs !! file = None ->
                 Files.ensure_header file columns fs !! file
                 = Some [Files.Header columns])
             /\ (forall other, other <> file ->
                   Files.ensure_header file columns fs !! other = fs !! other)
             /\ Files.ensure_header file columns
                  (Files.ensure_header file columns fs)
                = Files.ensure_header file columns fs).
  { intros file columns. unfold Files.ensure_header.
    repeat apply conj.
    - intros held ->. reflexivity.
    - intros ->. apply lookup_insert_eq.
    - intros other Hne. destruct (fs !! file); [reflexivity|].
      apply lookup_insert_ne. congruence.
    - destruct (fs !! file) eqn:E; [rewrite E; reflexivity|].
      rewrite lookup_insert_eq. reflexivity. }
  intros battery_header position_header.
  destruct (Hgen (BatteryMonitor.LOG_FILE cfg)
              "timestamp,node_id,node_name,battery_percent,voltage")
    as (H1 & H2 & H3 & H4).
  destruct (Hgen PositionTracker.CSV_FILE
              "timestamp,node_id,node_name,latitude,longitude,altitude,speed,heading")
    as (H5 & H6 & H7 & H8).
  repeat apply conj; assumption.
Qed.

Lemma header_written_once_sample :
  BatteryMonitor.ensure_log_header BatteryMonitor.shipped ∅ !! "battery_log.csv"
  = Some [Files.Header "timestamp,node_id,node_name,battery_percent,voltage"].
Proof.
  apply (header_written_once BatteryMonitor.shipped ∅). reflexivity.
Defined.

Lemma deliver_effects_to_log cfg iface ds st :
  Forall (fun e => match e with
                   | Logged f _ => f = BatteryMonitor.LOG_FILE cfg
                   | Sent _ => True
                   end)
    (BatteryMonitor.all_effects (BatteryMonitor.deliver cfg iface ds st)).
Proof.
  revert st. induction ds as [|d ds IH]; intros st;
    cbn [BatteryMonitor.deliver]; [constructor|].
  unfold BatteryMonitor.all_effects. cbn [map concat].
  apply Forall_app. split; [apply battery_effects_to_log | apply IH].
Qed.

Lemma deliver_log_records cfg iface ds st :
  log_records
    (BatteryMonitor.all_effects (BatteryMonitor.deliver cfg iface ds st))
  = omap (fun d =>
            match BatteryMonitor.reading (BatteryMonitor.packet d) with
            | Some v =>
                Some (BatteryMonitor.LOG_FILE cfg,
                      BatteryRecord (BatteryMonitor.stamp d)
                        (sender_of (BatteryMonitor.packet d))
                        (get_node_name iface
                           (sender_of (BatteryMonitor.packet d)))
                        v
                        (BatteryMonitor.voltage_or_empty
                           (voltage
                              (BatteryMonitor.metrics
                                 (BatteryMonitor.packet d)))))
            | None => None
            end) ds.
Proof.
  revert st. induction ds as [|d ds IH]; intros st;
    cbn [BatteryMonitor.deliver]; [reflexivity|].
  unfold BatteryMonitor.all_effects. cbn [map concat].
  rewrite log_records_app, battery_log_records.
  fold (BatteryMonitor.all_effects
          (BatteryMonitor.deliver cfg iface ds
             (final (BatteryMonitor.on_receive cfg iface
                       (BatteryMonitor.at_time d) (BatteryMonitor.stamp d)
                       (BatteryMonitor.packet d) st)))).
  rewrite IH. cbn [omap list_omap].
  destruct (BatteryMonitor.reading (BatteryMonitor.packet d)); reflexivity.
Qed.

(** The battery log is complete and in order.  After [ensure_log_header],
    any run of deliveries leaves in [LOG_FILE] what the file held before
    (or the header line, if it was not there), followed by one row for each
    delivered packet that carries a battery level, in the order of
    delivery and with the time stamp of the delivery; alerts, cooldowns and
    failed sends lose no row. *)
Theorem battery_log_is_complete_and_ordered
    (cfg : BatteryMonitor.Config) (iface : Interface)
    (ds : list BatteryMonitor.Delivery) (st : BatteryMonitor.State)
    (fs : gmap string (list Files.Line)) :
  Files.perform_all (BatteryMonitor.ensure_log_header cfg fs)
    (BatteryMonitor.all_effects (BatteryMonitor.deliver cfg iface ds st))
    !! BatteryMonitor.LOG_FILE cfg
  = Some
      (default
         [Files.Header "timestamp,node_id,node_name,battery_percent,voltage"]
         (fs !! BatteryMonitor.LOG_FILE cfg)
       ++ omap (fun d =>
                  match BatteryMonitor.reading (BatteryMonitor.packet d) with
                  | Some v =>
                      Some (Files.Row
                              (BatteryRecord (BatteryMonitor.stamp d)
                                 (sender_of (BatteryMonitor.packet d))
                                 (get_node_name iface
                                    (sender_of (BatteryMonitor.packet d)))
                                 v
                                 (BatteryMonitor.voltage_or_empty
                                    (voltage
                                       (BatteryMonitor.metrics
                                          (BatteryMonitor.packet d))))))
                  | None => None
                  end) ds)%list.
Proof.
  rewrite (perform_all_rows (BatteryMonitor.LOG_FILE cfg) _
             (deliver_effects_to_log cfg iface ds st) _
             (default
                [Files.Header
                   "timestamp,node_id,node_name,battery_percent,voltage"]
                (fs !! BatteryMonitor.LOG_FILE cfg))).
  - rewrite deliver_log_records. f_equal. f_equal.
    induction ds as [|d ds IH]; [reflexivity|].
    cbn [omap list_omap map].
    destruct (BatteryMonitor.reading (BatteryMonitor.packet d));
      cbn [map snd]; rewrite IH; reflexivity.
  - unfold BatteryMonitor.ensure_log_header, Files.ensure_header.
    destruct (fs !! BatteryMonitor.LOG_FILE cfg) eqn:E; cbn.
    + exact E.
    + apply lookup_insert_eq.
Qed.

(** ** temperature_alert.py, continued *)



(** After a call, the time of the last alert is the old one, or the time of
    the call, which then came at least a cooldown after the old one. *)
Lemma temperature_step fmt cfg iface now p st :
  final (TemperatureAlert.on_receive fmt cfg iface now p st) = st
  \/ (final (TemperatureAlert.on_receive fmt cfg iface now p st)
      = {| TemperatureAlert.last_alert_time := now |}
      /\ (TemperatureAlert.ALERT_COOLDOWN cfg
          <= now - TemperatureAlert.last_alert_time st)%Q).
Proof.
  destruct (TemperatureAlert.reading p) as [c|] eqn:H.
  - rewrite (temperature_reading _ _ _ _ _ _ _ H).
    destruct (Qge_bool _ _) eqn:E; [|left; reflexivity].
    apply Qge_bool_iff in E. unfold TemperatureAlert.alerting.
    destruct (Qlt_bool (TemperatureAlert.temp_of cfg c) _);
      [|destruct (Qlt_bool _ (TemperatureAlert.temp_of cfg c));
        [|left; reflexivity]].
    all: destruct (sendText_ok iface _); [right; split; auto | left; reflexivity].
  - rewrite (temperature_no_reading _ _ _ _ _ _ H). left. reflexivity.
Qed.

(** An alert is only sent a cooldown after the last one. *)
Lemma temperature_alert_gap fmt cfg iface now p st :
  effects (TemperatureAlert.on_receive fmt cfg iface now p st) <> [] ->
  (TemperatureAlert.ALERT_COOLDOWN cfg
   <= now - TemperatureAlert.last_alert_time st)%Q.
Proof.
  intros Hne. apply Qnot_lt_le. intros Hlt. apply Hne.
  rewrite temperature_cooldown by exact Hlt. reflexivity.
Qed.

Lemma temperature_later_alert fmt cfg iface (b : Q) :
  (0 <= TemperatureAlert.ALERT_COOLDOWN cfg)%Q ->
  forall ds st j dj rj,
    (b <= TemperatureAlert.last_alert_time st)%Q ->
    ds !! j = Some dj ->
    TemperatureAlert.deliver fmt cfg iface ds st !! j = Some rj ->
    effects rj <> [] ->
    (TemperatureAlert.ALERT_COOLDOWN cfg <= TemperatureAlert.at_time dj - b)%Q.
Proof.
  intros Hcd. induction ds as [|d ds IH]; intros st j dj rj Hb Hd Hr Hne;
    [discriminate|].
  cbn [TemperatureAlert.deliver] in Hr. destruct j as [|j]; cbn in Hd, Hr.
  - injection Hd as <-. injection Hr as <-.
    apply temperature_alert_gap in Hne. lra.
  - apply (IH _ j dj rj) in Hr; [exact Hr | | exact Hd | exact Hne].
    destruct (temperature_step fmt cfg iface (TemperatureAlert.at_time d)
                (TemperatureAlert.packet d) st) as [->|[-> Hgap]];
      [exact Hb | cbn; lra].
Qed.

(** The cooldown spaces the alerts.  With a device whose sends return and a
    cooldown that is not negative, in any run of deliveries any two
    deliveries that both send an alert are at least [ALERT_COOLDOWN] seconds
    apart, whichever nodes the packets come from. *)
Theorem temperature_alerts_are_spaced
    (format_float : nat -> Q -> string) (cfg : TemperatureAlert.Config)
    (iface : Interface) (ds : list TemperatureAlert.Delivery)
    (st : TemperatureAlert.State)
    (i j : nat) (di dj : TemperatureAlert.Delivery)
    (ri rj : Run TemperatureAlert.State unit) :
  (forall m, sendText_ok iface m = true) ->
  (0 <= TemperatureAlert.ALERT_COOLDOWN cfg)%Q ->
  (i < j)%nat ->
  ds !! i = Some di -> ds !! j = Some dj ->
  TemperatureAlert.deliver format_float cfg iface ds st !! i = Some ri ->
  TemperatureAlert.deliver format_float cfg iface ds st !! j = Some rj ->
  effects ri <> [] -> effects rj <> [] ->
  (TemperatureAlert.ALERT_COOLDOWN cfg
   <= TemperatureAlert.at_time dj - TemperatureAlert.at_time di)%Q.
Proof.
  intros Hok Hcd. revert st i j.
  induction ds as [|d ds IH]; intros st i j Hij Hdi Hdj Hri Hrj Hi Hj;
    [discriminate|].
  cbn [TemperatureAlert.deliver] in Hri, Hrj.
  destruct j as [|j]; [lia|]. cbn in Hdj, Hrj.
  destruct i as [|i]; cbn in Hdi, Hri.
  - injection Hdi as <-. injection Hri as <-.
    refine (temperature_later_alert format_float cfg iface _ Hcd ds _ j dj rj
              _ Hdj Hrj Hj).
    assert (Hst : final (TemperatureAlert.on_receive format_float cfg iface
                           (TemperatureAlert.at_time d)
                           (TemperatureAlert.packet d) st)
                  = {| TemperatureAlert.last_alert_time :=
                         TemperatureAlert.at_time d |}).
    { destruct (effects (TemperatureAlert.on_receive format_float cfg iface
                           (TemperatureAlert.at_time d)
                           (TemperatureAlert.packet d) st))
        as [|[m|f r] es] eqn:E; [contradiction | |].
      - pose proof (temperature_sent_stamp format_float cfg iface
                      (TemperatureAlert.at_time d) (TemperatureAlert.packet d)
                      st m) as Hs.
        rewrite E, Hok in Hs. apply Hs. left. reflexivity.
      - exfalso.
        destruct (TemperatureAlert.reading (TemperatureAlert.packet d))
          as [c|] eqn:H.
        + rewrite (temperature_reading _ _ _ _ _ _ _ H) in E.
          destruct (Qge_bool _ _); [|discriminate].
          destruct (Qlt_bool (TemperatureAlert.temp_of cfg c) _);
            [|destruct (Qlt_bool _ (TemperatureAlert.temp_of cfg c));
              [|discriminate]];
            rewrite alerting_effects in E; discriminate.
        + rewrite (temperature_no_reading _ _ _ _ _ _ H) in E. discriminate. }
    rewrite Hst. cbn. lra.
  - refine (IH _ i j _ Hdi Hdj Hri Hrj Hi Hj). lia.
Qed.

Lemma temperature_alerts_are_spaced_sample :
  let at_ t p :=
    {| TemperatureAlert.at_time := t; TemperatureAlert.packet := p |} in
  let ds :=
    [ at_ 5000%Q (Samples.temperature_packet "!a" 0);
      at_ 6000%Q (Samples.temperature_packet "!b" 0);
      at_ 6800%Q (Samples.temperature_packet "!b" 40) ] in
  map (fun r => length (effects r))
    (TemperatureAlert.deliver Py.format_fixed TemperatureAlert.shipped
       Samples.accepting ds TemperatureAlert.initial)
  = [1%nat; 0%nat; 1%nat]
  /\ (TemperatureAlert.ALERT_COOLDOWN TemperatureAlert.shipped
      <= 6800 - 5000)%Q.
Proof.
  intros at_ ds. split; [vm_compute; reflexivity|].
  refine (temperature_alerts_are_spaced Py.format_fixed
            TemperatureAlert.shipped Samples.accepting ds
            TemperatureAlert.initial 0 2
            (at_ 5000%Q (Samples.temperature_packet "!a" 0))
            (at_ 6800%Q (Samples.temperature_packet "!b" 40))
            _ _ _ _ _ eq_refl eq_refl eq_refl eq_refl _ _).
  - reflexivity.
  - vm_compute. discriminate.
  - lia.
  - vm_compute. discriminate.
  - vm_compute. discriminate.
Defined.

(** ** auto_responder.py, continued *)

(** What the handler sends depends on the globals only through the time
    of the last reply to the sender of the packet. *)
Lemma responder_effects_by_sender lower strip cfg iface now p st st' :
  AutoResponder.last_response_at st (sender_of p)
  = AutoResponder.last_response_at st' (sender_of p) ->
  effects (AutoResponder.on_receive lower strip cfg iface now p st)
  = effects (AutoResponder.on_receive lower strip cfg iface now p st').
Proof.
  intros Hsame.
  destruct (AutoResponder.message_lower_of lower strip p) as [msg|] eqn:H.
  - rewrite !(responder_text _ _ _ _ _ _ _ _ H), Hsame.
    destruct (Qlt_bool _ _); [reflexivity|].
    destruct (find _ _); [|reflexivity].
    rewrite !replying_effects. reflexivity.
  - rewrite !(responder_not_text _ _ _ _ _ _ _ H). reflexivity.
Qed.

Lemma responder_other_sender lower strip cfg iface now p st n :
  sender_of p <> n ->
  AutoResponder.last_response_at
    (final (AutoResponder.on_receive lower strip cfg iface now p st)) n
  = AutoResponder.last_response_at st n.
Proof.
  intros Hne.
  destruct (AutoResponder.message_lower_of lower strip p) as [msg|] eqn:H.
  - rewrite (responder_text _ _ _ _ _ _ _ _ H).
    destruct (Qlt_bool _ _); [reflexivity|].
    destruct (find _ _); [|reflexivity].
    unfold AutoResponder.replying.
    destruct (sendText_ok iface _); [|reflexivity].
    unfold AutoResponder.last_response_at. cbn.
    rewrite lookup_insert_ne by exact Hne. reflexivity.
  - rewrite (responder_not_text _ _ _ _ _ _ _ H). reflexivity.
Qed.

(** A text message is answered exactly when the sender's cooldown is over
    and the lower-cased keyword of some item of [RESPONSES] occurs in the
    lower-cased, stripped message as a contiguous piece. *)
Theorem responder_replies_exactly_on_match
    (lower strip : string -> string) (cfg : AutoResponder.Config)
    (iface : Interface) (now : Q) (p : Packet) (st : AutoResponder.State)
    (msg : string) :
  AutoResponder.message_lower_of lower strip p = Some msg ->
  effects (AutoResponder.on_receive lower strip cfg iface now p st) <> []
  <-> (AutoResponder.RESPONSE_COOLDOWN cfg
       <= now - AutoResponder.last_response_at st (sender_of p))%Q
      /\ exists keyword response before after,
           In (keyword, response) (AutoResponder.RESPONSES cfg)
           /\ msg = before ++ lower keyword ++ after.
Proof.
  intros H. rewrite (responder_text _ _ _ _ _ _ _ _ H).
  destruct (Qlt_bool _ _) eqn:Ecd.
  { apply Qlt_bool_iff in Ecd.
    split; [intros Hc; exfalso; apply Hc; reflexivity|]. intros [Hc _]. lra. }
  assert (Hcd : (AutoResponder.RESPONSE_COOLDOWN cfg
                 <= now - AutoResponder.last_response_at st (sender_of p))%Q).
  { apply Qnot_lt_le. intros Hc. apply Qlt_bool_iff in Hc. congruence. }
  destruct (find _ _) as [[keyword response]|] eqn:Ef.
  - rewrite replying_effects. split; [|discriminate].
    intros _. split; [exact Hcd|].
    apply find_some in Ef as [Hin Hm].
    apply contains_spec in Hm as (before & after & ->).
    exists keyword, response, before, after. auto.
  - split; [intros Hc; exfalso; apply Hc; reflexivity|].
    intros [_ (keyword & response & before & after & Hin & ->)].
    apply (find_none _ _ Ef) in Hin. unfold AutoResponder.matches in Hin.
    cbn [fst] in Hin.
    assert (Py.contains (lower keyword) (before ++ lower keyword ++ after)
            = true) by (apply contains_spec; eauto).
    congruence.
Qed.

Lemma responder_replies_exactly_on_match_sample :
  effects (AutoResponder.on_receive Py.ascii_lower Py.ascii_strip
             AutoResponder.shipped Samples.accepting 5000
             (Samples.text_packet "!b" " Are you there? PING ")
             AutoResponder.initial) <> [].
Proof.
  apply (responder_replies_exactly_on_match Py.ascii_lower Py.ascii_strip
           AutoResponder.shipped Samples.accepting 5000
           (Samples.text_packet "!b" " Are you there? PING ")
           AutoResponder.initial "are you there? ping").
  - vm_compute. reflexivity.
  - split; [vm_compute; discriminate|].
    exists "ping", "AUTO-REPLY: Pong!", "are you there? ", "".
    split; [cbn; tauto | reflexivity].
Defined.

(** The auto-responder never broadcasts and never makes up a text: whatever
    it sends is addressed to the sender of the packet, on no particular
    channel, and its text is the response of an item of [RESPONSES] whose
    keyword occurs in the message. *)
Theorem responder_replies_only_to_sender
    (lower strip : string -> string) (cfg : AutoResponder.Config)
    (iface : Interface) (now : Q) (p : Packet) (st : AutoResponder.State)
    (m : SendMeshMessage) :
  In (Sent m)
    (effects (AutoResponder.on_receive lower strip cfg iface now p st)) ->
  destinationId m = Some (sender_of p)
  /\ channelIndex m = None
  /\ exists keyword msg,
       In (keyword, text m) (AutoResponder.RESPONSES cfg)
       /\ AutoResponder.message_lower_of lower strip p = Some msg
       /\ Py.contains (lower keyword) msg = true.
Proof.
  destruct (AutoResponder.message_lower_of lower strip p) as [msg|] eqn:H.
  - rewrite (responder_text _ _ _ _ _ _ _ _ H).
    destruct (Qlt_bool _ _); [intros []|].
    destruct (find _ _) as [[keyword response]|] eqn:Ef; [|intros []].
    rewrite replying_effects. intros [E|[]]. injection E as <-.
    apply find_some in Ef as [Hin Hm].
    split; [reflexivity|]. split; [reflexivity|].
    exists keyword, msg. auto.
  - rewrite (responder_not_text _ _ _ _ _ _ _ H). intros [].
Qed.

Lemma responder_replies_only_to_sender_sample :
  exists keyword msg,
    In (keyword, "AUTO-REPLY: Pong!") (AutoResponder.RESPONSES AutoResponder.shipped)
    /\ AutoResponder.message_lower_of Py.ascii_lower Py.ascii_strip
         (Samples.text_packet "!b" "Ping") = Some msg
    /\ Py.contains (Py.ascii_lower keyword) msg = true.
Proof.
  apply (responder_replies_only_to_sender Py.ascii_lower Py.ascii_strip
           AutoResponder.shipped Samples.accepting 5000
           (Samples.text_packet "!b" "Ping") AutoResponder.initial
           (AutoResponder.reply "!b" "AUTO-REPLY: Pong!")).
  left. vm_compute. reflexivity.
Defined.

(** [INCLUDE_BATTERY_IN_STATUS] changes nothing: [get_battery_info] returns
    [None] on every path, so two configurations with the same responses and
    cooldown behave alike on every packet, whatever the flag and whatever
    the device's local node. *)
Theorem battery_flag_changes_nothing
    (lower strip : string -> string) (cfg cfg' : AutoResponder.Config)
    (iface : Interface) (now : Q) (p : Packet) (st : AutoResponder.State) :
  AutoResponder.RESPONSES cfg = AutoResponder.RESPONSES cfg' ->
  AutoResponder.RESPONSE_COOLDOWN cfg = AutoResponder.RESPONSE_COOLDOWN cfg' ->
  AutoResponder.on_receive lower strip cfg iface now p st
  = AutoResponder.on_receive lower strip cfg' iface now p st.
Proof.
  intros Hr Hc.
  destruct (AutoResponder.message_lower_of lower strip p) as [msg|] eqn:H.
  - rewrite !(responder_text _ _ _ _ _ _ _ _ H), Hr, Hc. reflexivity.
  - rewrite !(responder_not_text _ _ _ _ _ _ _ H). reflexivity.
Qed.

Lemma battery_flag_changes_nothing_sample :
  let without :=
    {| AutoResponder.RESPONSES := AutoResponder.RESPONSES AutoResponder.shipped;
       AutoResponder.INCLUDE_BATTERY_IN_STATUS := false;
       AutoResponder.RESPONSE_COOLDOWN := 60 |} in
  let with_node :=
    {| localNode := Some {| localConfig := true |}; nodes := None;
       sendText_ok := fun _ => true |} in
  AutoResponder.on_receive Py.ascii_lower Py.ascii_strip AutoResponder.shipped
    with_node 5000 (Samples.text_packet "!b" "status") AutoResponder.initial
  = AutoResponder.on_receive Py.ascii_lower Py.ascii_strip without
      with_node 5000 (Samples.text_packet "!b" "status") AutoResponder.initial.
Proof.
  intros without with_node.
  apply (battery_flag_changes_nothing Py.ascii_lower Py.ascii_strip
           AutoResponder.shipped without with_node 5000
           (Samples.text_packet "!b" "status") AutoResponder.initial);
    reflexivity.
Defined.

(** The reply cooldown is kept per sender: a packet of one sender, replied
    to or not, does not change what the handler sends for a later packet of
    another sender. *)
Theorem responder_cooldown_is_per_sender
    (lower strip : string -> string) (cfg : AutoResponder.Config)
    (iface : Interface) (t t' : Q) (pa pb : Packet)
    (st : AutoResponder.State) :
  let h := AutoResponder.on_receive lower strip cfg iface in
  sender_of pa <> sender_of pb ->
  effects (h t' pb (final (h t pa st))) = effects (h t' pb st).
Proof.
  intros h Hne. subst h. apply responder_effects_by_sender.
  apply responder_other_sender, Hne.
Qed.

Lemma responder_cooldown_is_per_sender_sample :
  let h :=
    AutoResponder.on_receive Py.ascii_lower Py.ascii_strip
      AutoResponder.shipped Samples.accepting in
  map text
    (sends (effects (h 5001%Q (Samples.text_packet "!b" "ping")
                       (final (h 5000%Q (Samples.text_packet "!a" "ping")
                                 AutoResponder.initial)))))
  = ["AUTO-REPLY: Pong!"].
Proof.
  intros h. subst h.
  rewrite (responder_cooldown_is_per_sender Py.ascii_lower Py.ascii_strip
             AutoResponder.shipped Samples.accepting 5000 5001
             (Samples.text_packet "!a" "ping")
             (Samples.text_packet "!b" "ping") AutoResponder.initial)
    by discriminate.
  vm_compute. reflexivity.
Defined.

(** The reply cooldown covers all keywords of a sender: once a reply to a
    sender has gone out at time [t], any packet of that sender that arrives
    less than [RESPONSE_COOLDOWN] after [t] gets no reply and changes
    nothing, whichever keyword it holds. *)
Theorem responder_cooldown_covers_all_keywords
    (lower strip : string -> string) (cfg : AutoResponder.Config)
    (iface : Interface) (t t' : Q) (pa pb : Packet)
    (st : AutoResponder.State) (m : SendMeshMessage) :
  let h := AutoResponder.on_receive lower strip cfg iface in
  In (Sent m) (effects (h t pa st)) ->
  sendText_ok iface m = true ->
  sender_of pb = sender_of pa ->
  (t' - t < AutoResponder.RESPONSE_COOLDOWN cfg)%Q ->
  h t' pb (final (h t pa st)) = MkRun (Returned tt) (final (h t pa st)) [].
Proof.
  intros h Hin Hok Hsame Hlt. subst h.
  pose proof (responder_send_then_stamp _ _ _ _ _ _ _ _ Hin) as Hs.
  rewrite Hok in Hs. destruct Hs as [_ Hstamp].
  assert (Hlast : AutoResponder.last_response_at
                    (final (AutoResponder.on_receive lower strip cfg iface
                              t pa st)) (sender_of pb) = t).
  { unfold AutoResponder.last_response_at.
    rewrite Hstamp, Hsame, lookup_insert_eq. reflexivity. }
  destruct (AutoResponder.message_lower_of lower strip pb) as [msg|] eqn:H.
  - rewrite (responder_text _ _ _ _ _ _ _ _ H), Hlast.
    apply Qlt_bool_iff in Hlt. rewrite Hlt. reflexivity.
  - apply responder_not_text, H.
Qed.

Lemma responder_cooldown_covers_all_keywords_sample :
  let h :=
    AutoResponder.on_receive Py.ascii_lower Py.ascii_strip
      AutoResponder.shipped Samples.accepting in
  effects (h 5030%Q (Samples.text_packet "!b" "ping")
             (final (h 5000%Q (Samples.text_packet "!b" "status")
                       AutoResponder.initial))) = [].
Proof.
  intros h. subst h.
  rewrite (responder_cooldown_covers_all_keywords Py.ascii_lower
             Py.ascii_strip AutoResponder.shipped Samples.accepting 5000 5030
             (Samples.text_packet "!b" "status")
             (Samples.text_packet "!b" "ping") AutoResponder.initial
             (AutoResponder.reply "!b"
                "AUTO-REPLY: Node is online and operational.")).
  - reflexivity.
  - left. vm_compute. reflexivity.
  - reflexivity.
  - reflexivity.
  - vm_compute. reflexivity.
Defined.

(** ** position_tracker.py, continued *)

(** Converting a coordinate a second time changes nothing: what
    [from_integer_format] returns is a float, or an integer of magnitude at
    most 180, and both are left alone. *)
Theorem from_integer_format_idempotent (v : Py.num) :
  PositionTracker.from_integer_format (PositionTracker.from_integer_format v)
  = PositionTracker.from_integer_format v.
Proof.
  destruct v as [z|q]; [|reflexivity].
  rewrite from_integer_format_int.
  destruct (180 <? Z.abs z) eqn:E; [reflexivity|].
  rewrite from_integer_format_int, E. reflexivity.
Qed.

(** Which field gives a coordinate.  A decimal field that is present and
    not zero is logged and the fixed-point field beside it is not looked
    at; when the decimal field is missing or zero, the fixed-point field is
    taken instead, also when it is zero itself, so that such a packet is
    logged and not dropped.  The same holds for the longitude. *)
Theorem coordinate_resolution
    (iface : Interface) (ts : string) (p : Packet) (pos : Position) :
  PositionTracker.position_of p = Some pos ->
  (forall v lon,
     latitude pos = Some v -> ~ (Py.to_Q v == 0)%Q ->
     Py.or_ (longitude pos) (longitudeI pos) = Some lon ->
     effects (PositionTracker.on_receive iface ts p tt)
     = [PositionTracker.log_line iface ts p pos v lon])
  /\ (forall w lon,
        latitude pos = None
        \/ (exists v, latitude pos = Some v /\ (Py.to_Q v == 0)%Q) ->
        latitudeI pos = Some w ->
        Py.or_ (longitude pos) (longitudeI pos) = Some lon ->
        effects (PositionTracker.on_receive iface ts p tt)
        = [PositionTracker.log_line iface ts p pos w lon])
  /\ (forall v lat,
        longitude pos = Some v -> ~ (Py.to_Q v == 0)%Q ->
        Py.or_ (latitude pos) (latitudeI pos) = Some lat ->
        effects (PositionTracker.on_receive iface ts p tt)
        = [PositionTracker.log_line iface ts p pos lat v])
  /\ (forall w lat,
        longitude pos = None
        \/ (exists v, longitude pos = Some v /\ (Py.to_Q v == 0)%Q) ->
        longitudeI pos = Some w ->
        Py.or_ (latitude pos) (latitudeI pos) = Some lat ->
        effects (PositionTracker.on_receive iface ts p tt)
        = [PositionTracker.log_line iface ts p pos lat w]).
Proof.
  intros Hp. rewrite (position_packet _ _ _ _ Hp).
  assert (Hfirst : forall a b v,
             a = Some v -> ~ (Py.to_Q v == 0)%Q -> Py.or_ a b = Some v).
  { intros a b v -> Hv. unfold Py.or_. rewrite (nonzero_truthy _ Hv).
    reflexivity. }
  assert (Hsecond : forall a b,
             a = None \/ (exists v, a = Some v /\ (Py.to_Q v == 0)%Q) ->
             Py.or_ a b = b).
  { intros a b [->|(v & -> & Hv)]; [reflexivity|].
    unfold Py.or_. rewrite (zero_falsy _ Hv). reflexivity. }
  repeat apply conj.
  - intros v lon Hv Hnz Hlon. rewrite (Hfirst _ _ _ Hv Hnz), Hlon. reflexivity.
  - intros w lon Hz Hw Hlon. rewrite (Hsecond _ _ Hz), Hw, Hlon. reflexivity.
  - intros v lat Hv Hnz Hlat. rewrite (Hfirst _ _ _ Hv Hnz), Hlat. reflexivity.
  - intros w lat Hz Hw Hlat. rewrite (Hsecond _ _ Hz), Hw, Hlat. reflexivity.
Qed.

(** On the equator, with both forms of the latitude in the packet: the
    decimal zero is passed over and the fixed-point zero is logged. *)
Lemma coordinate_resolution_on_equator :
  let pos :=
    {| latitude := Some (Py.NFloat 0); latitudeI := Some (Py.NInt 0);
       longitude := Some (Py.NFloat (-75)); longitudeI := Some (Py.NInt (-750000000));
       altitude := None; groundSpeed := None; groundTrack := None |} in
  map PositionTracker.logged_coordinates
    (effects (PositionTracker.on_receive Samples.accepting "12:00:00"
                (Samples.position_packet "!a" pos) tt))
  = [Some (Py.NInt 0, Py.NFloat (-75))].
Proof.
  intros pos.
  destruct (coordinate_resolution Samples.accepting "12:00:00"
              (Samples.position_packet "!a" pos) pos eq_refl)
    as (_ & Hsecond & _ & _).
  rewrite (Hsecond (Py.NInt 0) (Py.NFloat (-75))).
  - reflexivity.
  - right. exists (Py.NFloat 0). split; reflexivity.
  - reflexivity.
  - reflexivity.
Defined.

(** A fixed-point coordinate beyond 180 is logged as the float that is
    exactly one ten-millionth of it; so a fixed-point latitude of at most
    90 degrees, or longitude of at most 180 degrees, is logged as a float
    within that bound. *)
Theorem rescaled_coordinate_in_range (z : Z) :
  180 < Z.abs z ->
  exists q,
    PositionTracker.from_integer_format (Py.NInt z) = Py.NFloat q
    /\ (q * 10000000 == inject_Z z)%Q
    /\ forall bound : Z,
         Z.abs z <= bound * 10000000 -> (Qabs q <= inject_Z bound)%Q.
Proof.
  intros Hz. exists (inject_Z z / 10000000)%Q.
  rewrite from_integer_format_int.
  apply Z.ltb_lt in Hz. rewrite Hz. split; [reflexivity|].
  split.
  - unfold Qeq, Qdiv, Qmult, Qinv, inject_Z. cbn. lia.
  - intros bound Hb. apply Qabs_Qle_condition.
    unfold Qle, Qdiv, Qmult, Qinv, Qopp, inject_Z. cbn. lia.
Qed.

Lemma rescaled_coordinate_in_range_sample :
  exists q,
    PositionTracker.from_integer_format (Py.NInt (-899999999)) = Py.NFloat q
    /\ (Qabs q <= 90)%Q.
Proof.
  destruct (rescaled_coordinate_in_range (-899999999)) as (q & Hq & _ & Hb);
    [cbn; lia|].
  exists q. split; [exact Hq|]. apply (Hb 90). cbn. lia.
Defined.

(** ** scheduled_broadcaster.py, continued *)

Lemma fired_keeps (P : ScheduledBroadcaster.Tick -> Prop) cfg last ticks :
  Forall P ticks -> Forall P (ScheduledBroadcaster.fired cfg last ticks).
Proof.
  intros H. revert last. induction H as [|tk ticks Htk _ IH]; intros last;
    cbn [ScheduledBroadcaster.fired]; [constructor|].
  destruct (Qge_bool _ _); [constructor; [exact Htk | apply IH] | apply IH].
Qed.

Lemma spaced_total cfg passes :
  forall last f,
    Forall (fun tk => (ScheduledBroadcaster.check_time tk
                       <= ScheduledBroadcaster.resume_time tk)%Q) passes ->
    ScheduledBroadcaster.spaced cfg last (passes ++ [f]) ->
    (inject_Z (Z.of_nat (length (passes ++ [f])))
       * ScheduledBroadcaster.interval_seconds cfg
     <= ScheduledBroadcaster.check_time f - last)%Q.
Proof.
  induction passes as [|g passes IH]; intros last f Hmono Hsp.
  - destruct Hsp as [H _].
    change (inject_Z (Z.of_nat (length ([] ++ [f])))) with 1%Q. lra.
  - inversion Hmono as [|? ? Hg Hrest]; subst.
    cbn [app ScheduledBroadcaster.spaced] in Hsp. destruct Hsp as [H1 H2].
    specialize (IH _ _ Hrest H2).
    change (length ((g :: passes) ++ [f])) with (S (length (passes ++ [f]))).
    rewrite Nat2Z.inj_succ. unfold Z.succ. rewrite inject_Z_plus.
    change (inject_Z 1) with 1%Q. lra.
Qed.

(** The schedule cannot run fast.  On a clock that does not go back while a
    message is sent, the loop's sends are at least an interval apart on
    average as well: when the loop has sent [n] messages, the pass that sent
    the last of them tested the clock at least [n] intervals after the
    value [last_send] had when the loop began. *)
Theorem scheduler_rate_bound
    (cfg : ScheduledBroadcaster.Config) (iface : Interface) (last : Q)
    (ticks passes : list ScheduledBroadcaster.Tick)
    (f : ScheduledBroadcaster.Tick) :
  Forall (fun tk => (ScheduledBroadcaster.check_time tk
                     <= ScheduledBroadcaster.resume_time tk)%Q) ticks ->
  ScheduledBroadcaster.fired cfg last ticks = (passes ++ [f])%list ->
  length (sends (effects (ScheduledBroadcaster.loop cfg iface last ticks tt)))
  = length (passes ++ [f])
  /\ (inject_Z (Z.of_nat (length (passes ++ [f])))
        * ScheduledBroadcaster.interval_seconds cfg
      <= ScheduledBroadcaster.check_time f - last)%Q.
Proof.
  intros Hmono Hf. split.
  - rewrite loop_run. cbn [effects]. rewrite Hf.
    generalize (passes ++ [f])%list. intros l.
    induction l as [|x l IH]; [reflexivity|]. cbn. f_equal. exact IH.
  - pose proof (fired_keeps _ cfg last ticks Hmono) as Hm.
    pose proof (fired_spaced cfg last ticks) as Hs.
    rewrite Hf in Hm, Hs. apply Forall_app in Hm as [Hm _].
    apply spaced_total; assumption.
Qed.

Lemma scheduler_rate_bound_sample :
  let cfg := ScheduledBroadcaster.shipped in
  let tick t :=
    {| ScheduledBroadcaster.check_time := t;
       ScheduledBroadcaster.wall_clock := "12:00";
       ScheduledBroadcaster.resume_time := t + 2 |} in
  length (sends (effects (ScheduledBroadcaster.loop cfg Samples.failing 0
                            [tick 3599%Q; tick 3600%Q; tick 7201%Q;
                             tick 7202%Q; tick 7203%Q] tt))) = 2%nat
  /\ (2 * ScheduledBroadcaster.interval_seconds cfg <= 7202 - 0)%Q.
Proof.
  intros cfg tick.
  apply (scheduler_rate_bound cfg Samples.failing 0
           [tick 3599%Q; tick 3600%Q; tick 7201%Q; tick 7202%Q; tick 7203%Q]
           [tick 3600%Q] (tick 7202%Q)).
  - repeat constructor; vm_compute; discriminate.
  - vm_compute. reflexivity.
Defined.

(** A device that refuses messages neither stops nor shifts the schedule:
    [main] always returns normally from its passes, and it attempts the
    same broadcasts, in the same passes, whether sends return or raise. *)
Theorem schedule_ignores_send_failures
    (cfg : ScheduledBroadcaster.Config) (iface iface' : Interface)
    (start : ScheduledBroadcaster.Tick) (ticks : list ScheduledBroadcaster.Tick) :
  ScheduledBroadcaster.main cfg iface start ticks tt
  = ScheduledBroadcaster.main cfg iface' start ticks tt
  /\ outcome (ScheduledBroadcaster.main cfg iface start ticks tt) = Returned tt
  /\ length (sends (effects (ScheduledBroadcaster.main cfg iface start ticks tt)))
     = S (length (ScheduledBroadcaster.fired cfg
                    (ScheduledBroadcaster.resume_time start) ticks)).
Proof.
  rewrite !main_run. repeat split. cbn. f_equal.
  induction (ScheduledBroadcaster.fired cfg _ ticks) as [|x l IH];
    [reflexivity|]. cbn. f_equal. exact IH.
Qed.

Lemma inject_Z_minus (a b : Z) : (inject_Z (a - b) == inject_Z a - inject_Z b)%Q.
Proof.
  unfold Z.sub, Qminus. rewrite inject_Z_plus, inject_Z_opp. reflexivity.
Qed.

(** The loop's test on whole seconds. *)
Lemma due_on_seconds (interval : Q) (k a b : Z) :
  (interval == inject_Z k)%Q ->
  Qge_bool (inject_Z a - inject_Z b) interval = (k <=? a - b).
Proof.
  intros Hk. apply eq_true_iff_eq.
  rewrite Qge_bool_iff, Z.leb_le, Hk, <- inject_Z_minus, <- Zle_Qle.
  reflexivity.
Qed.

Lemma seq_succ_map {A} (f : nat -> A) (start len : nat) :
  map f (seq (S start) len) = map (fun i => f (S i)) (seq start len).
Proof. rewrite <- seq_shift, map_map. reflexivity. Qed.

Lemma regular_passes cfg iface clock (k : Z) :
  (ScheduledBroadcaster.interval_seconds cfg == inject_Z k)%Q ->
  0 < k ->
  forall n t j,
    0 <= j < k ->
    effects (ScheduledBroadcaster.loop cfg iface (inject_Z (t - j))
               (ScheduledBroadcaster.every_second clock t n) tt)
    = map (fun i =>
             Sent (ScheduledBroadcaster.broadcast cfg
                     (clock (t - j + k * Z.of_nat i))))
        (seq 1 (Z.to_nat ((j + Z.of_nat n) / k))).
Proof.
  intros Hk Hpos. induction n as [|n IH]; intros t j Hj.
  - cbn [ScheduledBroadcaster.every_second]. rewrite loop_run.
    rewrite Z.add_0_r, Z.div_small by lia. reflexivity.
  - cbn [ScheduledBroadcaster.every_second]. rewrite loop_cons.
    cbn [ScheduledBroadcaster.check_time ScheduledBroadcaster.resume_time
           ScheduledBroadcaster.wall_clock].
    rewrite (due_on_seconds _ k _ _ Hk).
    destruct (k <=? t + 1 - (t - j)) eqn:E.
    + apply Z.leb_le in E. assert (Hjk : j + 1 = k) by lia.
      cbn [effects].
      replace (inject_Z (t + 1)) with (inject_Z (t + 1 - 0)) by (f_equal; lia).
      rewrite (IH (t + 1) 0) by lia.
      replace ((j + Z.of_nat (S n)) / k) with (1 + Z.of_nat n / k).
      2:{ replace (j + Z.of_nat (S n)) with (1 * k + Z.of_nat n) by lia.
          rewrite Z.div_add_l by lia. reflexivity. }
      rewrite Z2Nat.inj_add by (try lia; apply Z.div_pos; lia).
      change (Z.to_nat 1) with 1%nat. cbn [Nat.add seq map].
      f_equal.
      * do 3 f_equal. lia.
      * rewrite Z.add_0_l, (seq_succ_map _ 1). apply map_ext. intros i.
        do 3 f_equal. lia.
    + apply Z.leb_gt in E.
      replace (inject_Z (t - j)) with (inject_Z (t + 1 - (j + 1)))
        by (f_equal; lia).
      rewrite (IH (t + 1) (j + 1)) by lia.
      replace (j + 1 + Z.of_nat n) with (j + Z.of_nat (S n)) by lia.
      apply map_ext. intros i. do 3 f_equal. lia.
Qed.

(** On an idle machine the schedule is exact.  When the loop is passed
    through once a second, each send comes back at once and the interval is
    a whole number [k] of seconds, then starting [j] seconds after a send
    ([j] below [k]) the [n] passes that follow send exactly
    [(j + n) / k] messages, at the seconds that are whole multiples of [k]
    after that send, and none in between. *)
Theorem scheduler_regular_on_idle_machine
    (cfg : ScheduledBroadcaster.Config) (iface : Interface)
    (clock : Z -> string) (k t j : Z) (n : nat) :
  (ScheduledBroadcaster.interval_seconds cfg == inject_Z k)%Q ->
  0 < k ->
  0 <= j < k ->
  effects (ScheduledBroadcaster.loop cfg iface (inject_Z (t - j))
             (ScheduledBroadcaster.every_second clock t n) tt)
  = map (fun i =>
           Sent {| text :=
                     ScheduledBroadcaster.MESSAGE cfg
                       (clock (t - j + k * Z.of_nat i));
                   destinationId := None;
                   channelIndex :=
                     Some (ScheduledBroadcaster.CHANNEL_INDEX cfg) |})
      (seq 1 (Z.to_nat ((j + Z.of_nat n) / k))).
Proof.
  intros Hk Hpos Hj. apply regular_passes; assumption.
Qed.

(** With an interval of one minute, the 150 passes after a send at second
    0 send twice, at seconds 60 and 120. *)
Lemma scheduler_regular_on_idle_machine_sample :
  let cfg :=
    {| ScheduledBroadcaster.INTERVAL_MINUTES := 1;
       ScheduledBroadcaster.MESSAGE := fun t => "Automated check-in at " ++ t;
       ScheduledBroadcaster.CHANNEL_INDEX := 0 |} in
  effects (ScheduledBroadcaster.loop cfg Samples.accepting (inject_Z (0 - 0))
             (ScheduledBroadcaster.every_second Py.str_of_int 0 150) tt)
  = map (fun i =>
           Sent {| text :=
                     "Automated check-in at "
                       ++ Py.str_of_int (0 - 0 + 60 * Z.of_nat i);
                   destinationId := None;
                   channelIndex := Some 0 |})
      (seq 1 (Z.to_nat ((0 + Z.of_nat 150) / 60))).
Proof.
  intros cfg.
  apply (scheduler_regular_on_idle_machine cfg Samples.accepting
           Py.str_of_int 60 0 0 150).
  - vm_compute. reflexivity.
  - lia.
  - lia.
Defined.

(** ** message_logger.py *)

(** The message logger makes one write for every text packet and none for
    any other packet: a packet without decoded section or of another kind
    writes nothing; a text packet makes one write to [LOG_FILE], of the
    time stamp in brackets, the sender's name, the text and a line feed,
    also when the payload is missing (the text is then empty); and a
    payload of ASCII bytes is written as it is, line feeds included, so
    that an entry takes as many lines as its text has. *)
Theorem logger_writes_each_text_once
    (iface : Interface) (ts : string) (p : Packet) :
  (decoded p = None -> MessageLogger.on_receive iface ts p = [])
  /\ (forall d,
        decoded p = Some d ->
        (portnum_is d "TEXT_MESSAGE_APP" = false ->
         MessageLogger.on_receive iface ts p = [])
        /\ (portnum_is d "TEXT_MESSAGE_APP" = true ->
            exists message,
              MessageLogger.on_receive iface ts p
              = [(MessageLogger.LOG_FILE,
                  "[" ++ ts ++ "] " ++ get_node_name iface (sender_of p)
                    ++ ": " ++ message ++ MessageLogger.newline)]
              /\ (payload d = None -> message = "")
              /\ (forall bs,
                    payload d = Some bs ->
                    Forall (fun b => (Byte.to_N b < 128)%N) bs ->
                    message = string_of_list_byte bs)))
  /\ (length (MessageLogger.on_receive iface ts p) <= 1)%nat.
Proof.
  unfold MessageLogger.on_receive. repeat apply conj.
  - intros ->. reflexivity.
  - intros d ->. split; intros ->; [reflexivity|].
    exists (Py.decode (default [] (payload d))). repeat apply conj.
    + unfold MessageLogger.log_entry. rewrite !string_app_assoc. reflexivity.
    + intros ->. reflexivity.
    + intros bs -> Hbs. unfold Py.decode. cbn.
      rewrite decode_replace_ascii by exact Hbs. reflexivity.
  - destruct (decoded p) as [d|]; [|cbn; lia].
    destruct (portnum_is d "TEXT_MESSAGE_APP"); cbn; lia.
Qed.

(** A text of two lines, "a" and "b": one write, two lines in the file. *)
Lemma logger_writes_each_text_once_sample :
  let d :=
    {| portnum := Some "TEXT_MESSAGE_APP"; payload := Some [x61; x0a; x62];
       telemetry := None; position := None |} in
  MessageLogger.on_receive Samples.accepting "2024-01-01 12:00:00"
    {| decoded := Some d; fromId := Some "!a" |}
  = [(MessageLogger.LOG_FILE,
      "[2024-01-01 12:00:00] !a: " ++ string_of_list_byte [x61; x0a; x62]
        ++ MessageLogger.newline)].
Proof.
  intros d.
  destruct (logger_writes_each_text_once Samples.accepting
              "2024-01-01 12:00:00" {| decoded := Some d; fromId := Some "!a" |})
    as (_ & Htext & _).
  destruct (Htext d eq_refl) as [_ Hwrite].
  destruct (Hwrite eq_refl) as (message & Hrun & _ & Hascii).
  rewrite Hrun, (Hascii [x61; x0a; x62] eq_refl).
  - reflexivity.
  - repeat constructor.
Defined.
